(** * Body-based router (BBR): plugin registry, plugin chain and the
      request-body orchestrator

    A shallow embedding of the Go packages
    - [pkg/bbr/framework/utils]   (MergeMaps),
    - [pkg/bbr/framework]         (pluginRegistry, pluginsChain, SupportedInterfaces),
    - [pkg/bbr/framework/plugins] (BBRPlugin, simpleModelExtractor),
    - [pkg/bbr/handlers]          (Server.HandleRequestBody),
    - [pkg/bbr/plugins]           (BodyFieldToHeaderPlugin.Execute),
    followed by the properties established about them. *)

From Stdlib Require Import ZArith Lia.
From Stdlib Require Import Strings.String Strings.Ascii Strings.Byte.
From stdpp Require Import base option list strings gmap fin_maps.

Local Open Scope string_scope.
Local Open Scope Z_scope.

(* ===================================================================== *)
(** ** Go values *)
(* ===================================================================== *)

(** [[]byte]. *)
Definition bytes : Type := list Byte.byte.

#[global] Instance byte_eq_decision : EqDecision Byte.byte := Byte.byte_eq_dec.

(** [[]byte(s)] for a Go string [s]. *)
Definition bytes_of_string (s : string) : bytes := String.list_byte_of_string s.

(** A Go [map[string]V] value: [None] is the nil map, [Some m] an allocated
    map.  Reading a nil map finds nothing. *)
Definition gomap (V : Type) : Type := option (gmap string V).

Definition gomap_lookup {V} (m : gomap V) (k : string) : option V :=
  match m with
  | None => None
  | Some g => g !! k
  end.

(** [strings.Contains(s, substr)]. *)
Fixpoint Contains (s substr : string) : bool :=
  if String.prefix substr s then true
  else match s with
       | EmptyString => false
       | String _ s' => Contains s' substr
       end.

(** The double quote character, for writing JSON texts. *)
Definition dq : string := String "034"%char EmptyString.

(* ===================================================================== *)
(** ** Errors, panics and results *)
(* ===================================================================== *)

(** One constructor per [fmt.Errorf] of the modelled packages, named after
    the message; [ErrExternal] stands for an error produced outside them
    (a JSON decoder, a plugin). *)
Inductive error : Type :=
| ErrNonSupportedInterface (typeKey : string)
    (* "non-supported plugin interface type %s" *)
| ErrNoImplementation (typeKey : string)
    (* "no implementation for plugin interface type %s" *)
| ErrNoFactoryRegistered (typeKey : string)
    (* "no plugin factory registered for plugin interface type %s" *)
| ErrTypeNotFound (typeKey : string)
    (* "plugin type %s not found" *)
| ErrNotRegistered (typeKey : string)
    (* "plugin %s not registered" *)
| ErrPluginNotFound (typeKey : string)
    (* "plugin (%s) not found" *)
| ErrNotFoundInChain (p : string)
    (* "plugin %s not found in chain" *)
| ErrPluginIndexOutOfRange (index : Z)
    (* "plugin index %d out of range" *)
| ErrIndexOutOfRange (i : Z)
    (* "index %d is out of range" *)
| ErrIndexNotInRegistry (index : Z)
    (* "plugin index %d is not found in the registry" *)
| ErrEmptyMutatedBody (type name : string)
    (* "empty mutated body bytes slice returned from plugin %s/%s" *)
| ErrUnsupportedSharedMemoryType
    (* "unsupported shared memory type: %T" *)
| ErrExternal (msg : string).

(** Go run-time panics the modelled code can raise. *)
Inductive panic : Type :=
| PanicIndexOutOfRange (i : Z) (len : nat)
    (* "index out of range [i] with length len" *)
| PanicNilDereference.
    (* "invalid memory address or nil pointer dereference" *)

(** What a call returns when it does not panic: a value with a nil error,
    or a non-nil error. *)
Inductive result (A : Type) : Type :=
| Val (a : A)
| Fail (e : error).
Arguments Val {A} a.
Arguments Fail {A} e.

(** What a call that can panic yields: its return values, or the panic. *)
Inductive outcome (A : Type) : Type :=
| Return (a : A)
| Panic (p : panic).
Arguments Return {A} a.
Arguments Panic {A} p.

(* ===================================================================== *)
(** ** pkg/bbr/framework/utils: MergeMaps *)
(* ===================================================================== *)

Module utils.

(** The body of the [for k, v := range src] loop: [dst[k] = v] unless
    [dst] already has [k]. *)
Definition merge_entry (k v : string) (dst : gmap string string)
  : gmap string string :=
  match dst !! k with
  | Some _ => dst
  | None => <[k := v]> dst
  end.

(** [MergeMaps(dst, src)].  The returned map is [dst] itself whenever
    [dst] is not nil (the loop updates it in place). *)
Definition MergeMaps (dst src : gomap string) : gomap string :=
  match src with
  | None =>
      match dst with
      | None => Some ∅
      | Some d => Some d
      end
  | Some s =>
      let d := match dst with None => ∅ | Some d => d end in
      Some (map_fold merge_entry d s)
  end.

End utils.

(* ===================================================================== *)
(** ** pkg/bbr/framework/plugins: plugin contracts *)
(* ===================================================================== *)

(** [plugins.TypedName]. *)
Record TypedName : Type := { Type_ : string; Name : string }.

(** The two openai-go request shapes.  The modelled code reads only their
    [Model] field; the zero value has an empty [Model]. *)
Record ChatCompletionNewParams : Type := { chat_Model : string }.
Record CompletionNewParams : Type := { completion_Model : string }.

(** The [interface{}] handed to plugins as shared memory: nil, or one of the
    two shapes. *)
Inductive SharedMemory : Type :=
| SharedNil
| SharedChatCompletion (p : ChatCompletionNewParams)
| SharedCompletion (p : CompletionNewParams).

(** [MetadataExtractor.Extract]: request body, metadata keys and shared
    memory to [(headers, err)]. *)
Definition ExtractFunc : Type :=
  bytes → list string → SharedMemory → gomap string * option error.

(** [ModelSelector.Select]: request body and shared memory to
    [(headers, mutatedBodyBytes, err)]. *)
Definition SelectFunc : Type :=
  bytes → SharedMemory → gomap string * bytes * option error.

(** A non-nil [BBRPlugin] interface value.  [as_MetadataExtractor] and
    [as_ModelSelector] are the type assertions
    [plugin.(bbrplugins.MetadataExtractor)] and
    [plugin.(bbrplugins.ModelSelector)]: [Some] with the method when the
    dynamic type implements the interface. *)
Record BBRPlugin : Type := {
  plugin_TypedName : TypedName;
  RequiresFullParsing : bool;
  as_MetadataExtractor : option ExtractFunc;
  as_ModelSelector : option SelectFunc
}.

Definition ModelHeader : string := "X-Gateway-Model-Name".
Definition DefaultPluginType : string := "MetadataExtractor".
Definition DefaultPluginImplementation : string := "simple-model-selector".

(** The decoders of [encoding/json] and openai-go, which are outside the
    repository: their behaviour is a parameter of the development. *)
Class JSONCodec : Type := {
  (** [json.Unmarshal(data, &requestBody)] into a zero
      [struct{ Model string `json:"model"` }]: the decoded [Model], or the
      error. *)
  json_Unmarshal_RequestBody : bytes → result string;
  (** [p.UnmarshalJSON(data)]: the receiver after the call, and the error. *)
  ChatCompletionNewParams_UnmarshalJSON :
    ChatCompletionNewParams → bytes → ChatCompletionNewParams * option error;
  CompletionNewParams_UnmarshalJSON :
    CompletionNewParams → bytes → CompletionNewParams * option error
}.

(** *** simple_model_extractor.go *)

Definition ModelHeaderKey : string := "model".

Record simpleModelExtractor : Type := {
  typedName : TypedName;
  requiresFullParsing : bool
}.

Definition simpleModelExtractor_RequiresFullParsing (s : simpleModelExtractor)
  : bool := requiresFullParsing s.

Definition simpleModelExtractor_TypedName (s : simpleModelExtractor)
  : TypedName := typedName s.

(** [simpleModelExtractor.Extract]. *)
Definition simpleModelExtractor_Extract `{JSONCodec}
    (s : simpleModelExtractor) (requestBodyBytes : bytes)
    (metaDataKeys : list string) (sharedMemory : SharedMemory)
  : gomap string * option error :=
  let h : gmap string string := ∅ in
  let defaultImpl : gomap string * option error :=
    match json_Unmarshal_RequestBody requestBodyBytes with
    | Fail err => (None, Some err)
    | Val model => (Some (<[ModelHeaderKey := model]> h), None)
    end in
  match sharedMemory with
  | SharedChatCompletion sharedMem =>
      if (0 <? String.length (chat_Model sharedMem))%nat
      then (Some (<[ModelHeaderKey := chat_Model sharedMem]> h), None)
      else defaultImpl
  | SharedCompletion sharedMem =>
      if (0 <? String.length (completion_Model sharedMem))%nat
      then (Some (<[ModelHeaderKey := completion_Model sharedMem]> h), None)
      else defaultImpl
  | SharedNil => (None, Some ErrUnsupportedSharedMemoryType)
  end.

(** A [*simpleModelExtractor] as a [BBRPlugin] interface value: it has
    [Extract] and no [Select]. *)
Definition simpleModelExtractor_plugin `{JSONCodec} (s : simpleModelExtractor)
  : BBRPlugin :=
  {| plugin_TypedName := simpleModelExtractor_TypedName s;
     RequiresFullParsing := simpleModelExtractor_RequiresFullParsing s;
     as_MetadataExtractor := Some (simpleModelExtractor_Extract s);
     as_ModelSelector := None |}.

Definition NewSimpleModelExtractor `{JSONCodec} : BBRPlugin :=
  simpleModelExtractor_plugin
    {| typedName := {| Type_ := "MetadataExtractor";
                       Name := "simple-model-extractor" |};
       requiresFullParsing := false |}.

(* ===================================================================== *)
(** ** pkg/bbr/framework: registry and chain *)
(* ===================================================================== *)

Definition PluginFactoryFunc : Type := unit → BBRPlugin.

(** [SupportedInterfaces]. *)
Definition SupportedInterfaces : gmap string (list string) :=
  list_to_map
    [ ("ModelSelector", ["semantic-model-selector"]);
      ("GuardRail", ["bad-words-blocker"; "pid-disclosure-blocker"]);
      ("MetadataExtractor", ["simple-model-extractor"]) ].

(** [slices.Contains]. *)
Definition slices_Contains (l : list string) (x : string) : bool :=
  existsb (String.eqb x) l.

Record pluginRegistry : Type := {
  pluginsFactory : gmap string PluginFactoryFunc;
  plugins : gmap string BBRPlugin
}.

Definition NewPluginRegistry : pluginRegistry :=
  {| pluginsFactory := ∅; plugins := ∅ |}.

(** Methods with a pointer receiver that assign to it return the receiver
    after the call next to their Go result. *)
Definition pluginRegistry_RegisterFactory (r : pluginRegistry)
    (typeKey : string) (factory : PluginFactoryFunc)
  : pluginRegistry * option error :=
  match SupportedInterfaces !! typeKey with
  | None => (r, Some (ErrNonSupportedInterface typeKey))
  | Some _ =>
      ({| pluginsFactory := <[typeKey := factory]> (pluginsFactory r);
          plugins := plugins r |}, None)
  end.

Definition pluginRegistry_RegisterPlugin (r : pluginRegistry)
    (plugin : BBRPlugin) : pluginRegistry * option error :=
  let ty := Type_ (plugin_TypedName plugin) in
  match SupportedInterfaces !! ty with
  | None => (r, Some (ErrNonSupportedInterface ty))
  | Some implementations =>
      if (length implementations =? 0)%nat
         || negb (slices_Contains implementations
                    (Name (plugin_TypedName plugin)))
      then (r, Some (ErrNoImplementation ty))
      else
        match pluginsFactory r !! ty with
        | None => (r, Some (ErrNoFactoryRegistered ty))
        | Some _ =>
            ({| pluginsFactory := pluginsFactory r;
                plugins := <[ty := plugin]> (plugins r) |}, None)
        end
  end.

Definition pluginRegistry_GetFactory (r : pluginRegistry) (typeKey : string)
  : result PluginFactoryFunc :=
  match pluginsFactory r !! typeKey with
  | Some pluginFactory => Val pluginFactory
  | None => Fail (ErrTypeNotFound typeKey)
  end.

Definition pluginRegistry_GetPlugin (r : pluginRegistry) (typeKey : string)
  : result BBRPlugin :=
  match plugins r !! typeKey with
  | Some plugin => Val plugin
  | None => Fail (ErrTypeNotFound typeKey)
  end.

Definition pluginRegistry_CreatePlugin (r : pluginRegistry) (typeKey : string)
  : result BBRPlugin :=
  match pluginsFactory r !! typeKey with
  | Some factory => Val (factory tt)
  | None => Fail (ErrNotRegistered typeKey)
  end.

Definition pluginRegistry_UnregisterFactory (r : pluginRegistry)
    (typeKey : string) : pluginRegistry * option error :=
  match pluginsFactory r !! typeKey with
  | Some _ =>
      ({| pluginsFactory := delete typeKey (pluginsFactory r);
          plugins := plugins r |}, None)
  | None => (r, Some (ErrPluginNotFound typeKey))
  end.

Definition pluginRegistry_UnregisterPlugin (r : pluginRegistry)
    (typeKey : string) : pluginRegistry * option error :=
  match plugins r !! typeKey with
  | Some _ =>
      ({| pluginsFactory := pluginsFactory r;
          plugins := delete typeKey (plugins r) |}, None)
  | None => (r, Some (ErrPluginNotFound typeKey))
  end.

Definition pluginRegistry_GetFactories (r : pluginRegistry)
  : gmap string PluginFactoryFunc := pluginsFactory r.

Definition pluginRegistry_GetPlugins (r : pluginRegistry)
  : gmap string BBRPlugin := plugins r.

Definition pluginRegistry_Clear (r : pluginRegistry) : pluginRegistry :=
  {| pluginsFactory := ∅; plugins := ∅ |}.

Definition pluginRegistry_ContainsFactory (r : pluginRegistry)
    (typeKey : string) : bool :=
  match pluginsFactory r !! typeKey with Some _ => true | None => false end.

Definition pluginRegistry_ContainsPlugin (r : pluginRegistry)
    (typeKey : string) : bool :=
  match plugins r !! typeKey with Some _ => true | None => false end.

(** *** pluginsChain *)

Record pluginsChain : Type := {
  pc_plugins : list string;                       (* the field [plugins] *)
  sharedChatCompletion : ChatCompletionNewParams;
  sharedCompletion : CompletionNewParams
}.

Definition NewPluginsChain : pluginsChain :=
  {| pc_plugins := [];
     sharedChatCompletion := {| chat_Model := "" |};
     sharedCompletion := {| completion_Model := "" |} |}.

Definition set_pc_plugins (pc : pluginsChain) (l : list string)
  : pluginsChain :=
  {| pc_plugins := l;
     sharedChatCompletion := sharedChatCompletion pc;
     sharedCompletion := sharedCompletion pc |}.

Definition pluginsChain_AddPlugin (pc : pluginsChain) (typeKey : string)
    (r : pluginRegistry) : pluginsChain * option error :=
  if negb (pluginRegistry_ContainsPlugin r typeKey)
  then (pc, Some (ErrTypeNotFound typeKey))
  else (set_pc_plugins pc (pc_plugins pc ++ [typeKey]), None).

(** The index of the first element equal to [p], as the loop of
    [DeletePlugin] finds it. *)
Fixpoint first_index (l : list string) (p : string) : option nat :=
  match l with
  | [] => None
  | x :: l' => if String.eqb x p then Some O else S <$> first_index l' p
  end.

Definition pluginsChain_DeletePlugin (pc : pluginsChain) (p : string)
  : pluginsChain * option error :=
  match first_index (pc_plugins pc) p with
  | Some i =>
      (set_pc_plugins pc (take i (pc_plugins pc) ++ drop (S i) (pc_plugins pc)),
       None)
  | None => (pc, Some (ErrNotFoundInChain p))
  end.

Definition pluginsChain_Length (pc : pluginsChain) : Z :=
  Z.of_nat (length (pc_plugins pc)).

Definition pluginsChain_GetPlugin (pc : pluginsChain) (index : Z)
    (r : pluginRegistry) : result BBRPlugin :=
  if (index <? 0) || (index >=? pluginsChain_Length pc)
  then Fail (ErrPluginIndexOutOfRange index)
  else
    match pc_plugins pc !! Z.to_nat index with
    | None => Fail (ErrPluginIndexOutOfRange index)   (* excluded by the guard *)
    | Some typeKey =>
        match pluginRegistry_GetPlugins r !! typeKey with
        | None => Fail (ErrIndexNotInRegistry index)
        | Some plugin => Val plugin
        end
    end.

(** [AddPluginAtInd].  After the range guard the code reads
    [pc.plugins[i]], which panics when [i = len(pc.plugins)], and looks
    that entry (not [typeKey]) up in the registry. *)
Definition pluginsChain_AddPluginAtInd (pc : pluginsChain) (typeKey : string)
    (i : Z) (r : pluginRegistry) : outcome (pluginsChain * option error) :=
  if (i <? 0) || (i >? pluginsChain_Length pc)
  then Return (pc, Some (ErrIndexOutOfRange i))
  else
    match pc_plugins pc !! Z.to_nat i with
    | None => Panic (PanicIndexOutOfRange i (length (pc_plugins pc)))
    | Some k =>
        match pluginRegistry_GetPlugins r !! k with
        | None => Return (pc, Some (ErrIndexNotInRegistry i))
        | Some _ =>
            Return
              (set_pc_plugins pc
                 (take (Z.to_nat i) (pc_plugins pc)
                    ++ ([typeKey] ++ drop (Z.to_nat i) (pc_plugins pc))),
               None)
        end
    end.

(** [ParseChatCompletion] and [ParseCompletion] decode into the chain's own
    field; the returned value is that field. *)
Definition pluginsChain_ParseChatCompletion `{JSONCodec} (pc : pluginsChain)
    (data : bytes) : pluginsChain * result ChatCompletionNewParams :=
  let '(p, err) :=
    ChatCompletionNewParams_UnmarshalJSON (sharedChatCompletion pc) data in
  let pc' := {| pc_plugins := pc_plugins pc;
                sharedChatCompletion := p;
                sharedCompletion := sharedCompletion pc |} in
  match err with
  | Some e => (pc', Fail e)
  | None => (pc', Val p)
  end.

Definition pluginsChain_ParseCompletion `{JSONCodec} (pc : pluginsChain)
    (data : bytes) : pluginsChain * result CompletionNewParams :=
  let '(p, err) :=
    CompletionNewParams_UnmarshalJSON (sharedCompletion pc) data in
  let pc' := {| pc_plugins := pc_plugins pc;
                sharedChatCompletion := sharedChatCompletion pc;
                sharedCompletion := p |} in
  match err with
  | Some e => (pc', Fail e)
  | None => (pc', Val p)
  end.

Definition pluginsChain_GetSharedChatCompletion (pc : pluginsChain)
  : ChatCompletionNewParams := sharedChatCompletion pc.

Definition pluginsChain_GetSharedCompletion (pc : pluginsChain)
  : CompletionNewParams := sharedCompletion pc.

Definition pluginsChain_GetSharedMemory (pc : pluginsChain) (which : string)
  : SharedMemory :=
  if String.eqb which "/v1/completions"
  then SharedCompletion (sharedCompletion pc)
  else if String.eqb which "/v1/chat/completions"
  then SharedChatCompletion (sharedChatCompletion pc)
  else SharedNil.

(* ===================================================================== *)
(** ** pkg/bbr/handlers: the request-body orchestrator *)
(* ===================================================================== *)

(** The ext_proc messages, with the fields [HandleRequestBody] sets. *)
Record HeaderValue : Type := { Key : string; RawValue : bytes }.

Inductive BodyMutation : Type :=
| BodyMutation_Body (Body : bytes)
| BodyMutation_StreamedResponse (Body : bytes) (EndOfStream : bool).

(** [CommonResponse]; [SetHeaders] is the list inside [HeaderMutation]. *)
Record CommonResponse : Type := {
  ClearRouteCache : bool;
  HeaderMutation : option (list HeaderValue);
  BodyMutation_ : option BodyMutation
}.

(** [ProcessingResponse], by the kind of its [Response]; the argument is
    the [Response] field of the [HeadersResponse] or [BodyResponse]. *)
Inductive ProcessingResponse : Type :=
| ProcessingResponse_RequestHeaders (Response : option CommonResponse)
| ProcessingResponse_RequestBody (Response : option CommonResponse)
| ProcessingResponse_RequestTrailers.

(** What the handler writes to the logger. *)
Inductive LogEntry : Type :=
| LogError (err : error)                          (* Info("%s", err) *)
| LogRequiresFullParsing (type name : string)
| LogUnknownPluginType (pluginType : string)
| LogNoModelParameter.

(** The effects of one call besides its result, in program order: log
    lines, calls of the chain's two parse routines, metric counters. *)
Inductive Event : Type :=
| EvLog (l : LogEntry)
| EvParseCompletion (data : bytes)
| EvParseChatCompletion (data : bytes)
| EvRecordModelNotInBodyCounter
| EvRecordSuccessCounter.

Definition is_parse (e : Event) : bool :=
  match e with
  | EvParseCompletion _ | EvParseChatCompletion _ => true
  | _ => false
  end.

(** The fields of [Server] that [HandleRequestBody] reads. *)
Record Server : Type := {
  registry : pluginRegistry;
  requestChain : pluginsChain;
  endpoint : string;
  streaming : bool;
  metaDataKeys : list string
}.

(** The indices of [for i := range n]. *)
Definition range (n : Z) : list Z := Z.of_nat <$> seq 0 (Z.to_nat n).

(** First loop of [HandleRequestBody]: does some plugin of the chain
    require the full body?  Yields the chain after the call, the events
    and either [which] or the parse error the handler returns. *)
Fixpoint parseLoop `{JSONCodec} (s : Server) (requestBodyBytes : bytes)
    (pc : pluginsChain) (idxs : list Z)
  : pluginsChain * list Event * result string :=
  match idxs with
  | [] => (pc, [], Val "")
  | i :: rest =>
      match pluginsChain_GetPlugin pc i (registry s) with
      | Fail err =>
          let '(pc', ev, res) := parseLoop s requestBodyBytes pc rest in
          (pc', EvLog (LogError err) :: ev, res)                (* continue *)
      | Val plugin =>
          if RequiresFullParsing plugin then
            let l := EvLog (LogRequiresFullParsing
                              (Type_ (plugin_TypedName plugin))
                              (Name (plugin_TypedName plugin))) in
            if Contains (endpoint s) "/v1/completions" then
              match pluginsChain_ParseCompletion pc requestBodyBytes with
              | (pc', Fail err) =>
                  (pc', [l; EvParseCompletion requestBodyBytes], Fail err)
              | (pc', Val _) =>
                  (pc', [l; EvParseCompletion requestBodyBytes],
                   Val "/v1/completions")                          (* break *)
              end
            else if Contains (endpoint s) "/v1/chat/completions" then
              match pluginsChain_ParseChatCompletion pc requestBodyBytes with
              | (pc', Fail err) =>
                  (pc', [l; EvParseChatCompletion requestBodyBytes], Fail err)
              | (pc', Val _) =>
                  (pc', [l; EvParseChatCompletion requestBodyBytes],
                   Val "/v1/chat/completions")                     (* break *)
              end
            else (pc, [l], Val "")                                 (* break *)
          else parseLoop s requestBodyBytes pc rest
      end
  end.

(** The variables the second loop updates. *)
Record ChainState : Type := {
  allHeaders : gmap string string;
  mutatedBodyBytes : bytes
}.

(** [helpers.MergeMaps(allHeaders, headers)] with the result dropped:
    [allHeaders] is never nil, so the call updates it in place and the
    map it returns is [allHeaders] itself. *)
Definition merge_into (allHeaders : gmap string string) (headers : gomap string)
  : gmap string string :=
  match utils.MergeMaps (Some allHeaders) headers with
  | Some m => m
  | None => allHeaders
  end.

(** Second loop of [HandleRequestBody]: run the plugins in chain order.
    The error of [GetPlugin] is dropped, so an entry that does not resolve
    leaves [plugin] nil and [plugin.TypedName()] panics. *)
Fixpoint execLoop (r : pluginRegistry) (pc : pluginsChain)
    (keys : list string) (which : string) (requestBodyBytes : bytes)
    (idxs : list Z) (st : ChainState)
  : list Event * outcome (result ChainState) :=
  match idxs with
  | [] => ([], Return (Val st))
  | i :: rest =>
      match pluginsChain_GetPlugin pc i r with
      | Fail _ => ([], Panic PanicNilDereference)
      | Val plugin =>
          let pluginType := Type_ (plugin_TypedName plugin) in
          if String.eqb pluginType "MetadataExtractor" then
            match as_MetadataExtractor plugin with
            | Some Extract =>
                let '(headers, err) :=
                  Extract requestBodyBytes keys
                    (pluginsChain_GetSharedMemory pc which) in
                match err with
                | Some e => ([], Return (Fail e))
                | None =>
                    execLoop r pc keys which requestBodyBytes rest
                      {| allHeaders := merge_into (allHeaders st) headers;
                         mutatedBodyBytes := mutatedBodyBytes st |}
                end
            | None => execLoop r pc keys which requestBodyBytes rest st
            end
          else if String.eqb pluginType "ModelSelector" then
            match as_ModelSelector plugin with
            | Some Select =>
                let '(headers, mutated, err) :=
                  Select requestBodyBytes
                    (pluginsChain_GetSharedMemory pc which) in
                match err with
                | Some e => ([], Return (Fail e))
                | None =>
                    if (length mutated =? 0)%nat then
                      ([], Return (Fail (ErrEmptyMutatedBody
                                           (Type_ (plugin_TypedName plugin))
                                           (Name (plugin_TypedName plugin)))))
                    else
                      execLoop r pc keys which requestBodyBytes rest
                        {| allHeaders := merge_into (allHeaders st) headers;
                           mutatedBodyBytes := mutated |}
                end
            | None => execLoop r pc keys which requestBodyBytes rest st
            end
          else
            let '(ev, o) := execLoop r pc keys which requestBodyBytes rest st in
            (EvLog (LogUnknownPluginType pluginType) :: ev, o)
      end
  end.

Definition addStreamedBodyResponse (responses : list ProcessingResponse)
    (requestBodyBytes : bytes) : list ProcessingResponse :=
  responses ++
  [ProcessingResponse_RequestBody
     (Some {| ClearRouteCache := false;
              HeaderMutation := None;
              BodyMutation_ :=
                Some (BodyMutation_StreamedResponse requestBodyBytes true) |})].

(** The header mutation both success branches build. *)
Definition setModelHeader (Model : string) : option (list HeaderValue) :=
  Some [{| Key := ModelHeader; RawValue := bytes_of_string Model |}].

(** The tail of [HandleRequestBody], from [var ret] on. *)
Definition respond (s : Server) (requestBodyBytes : bytes) (st : ChainState)
  : list Event * list ProcessingResponse :=
  let Model := default "" (allHeaders st !! ModelHeader) in
  if String.eqb Model "" then
    let ev := [EvRecordModelNotInBodyCounter; EvLog LogNoModelParameter] in
    if streaming s then
      (ev, addStreamedBodyResponse
             [ProcessingResponse_RequestHeaders None] requestBodyBytes)
    else (ev, [ProcessingResponse_RequestBody None])
  else
    if streaming s then
      ([EvRecordSuccessCounter],
       addStreamedBodyResponse
         [ProcessingResponse_RequestHeaders
            (Some {| ClearRouteCache := true;
                     HeaderMutation := setModelHeader Model;
                     BodyMutation_ := None |})]
         (mutatedBodyBytes st))
    else
      ([EvRecordSuccessCounter],
       [ProcessingResponse_RequestBody
          (Some {| ClearRouteCache := true;
                   HeaderMutation := setModelHeader Model;
                   BodyMutation_ :=
                     Some (BodyMutation_Body (mutatedBodyBytes st)) |})]).

(** The state of the second loop when it starts: [allHeaders] is a fresh
    empty map and [mutatedBodyBytes] the request body. *)
Definition initial_state (requestBodyBytes : bytes) : ChainState :=
  {| allHeaders := ∅; mutatedBodyBytes := requestBodyBytes |}.

(** What one call of [HandleRequestBody] leaves behind and yields. *)
Record Handled : Type := {
  chain_after : pluginsChain;
  events : list Event;
  returned : outcome (result (list ProcessingResponse))
}.

(** [Server.HandleRequestBody].  A returned error comes with a nil slice
    of responses. *)
Definition HandleRequestBody `{JSONCodec} (s : Server) (requestBodyBytes : bytes)
  : Handled :=
  let idxs := range (pluginsChain_Length (requestChain s)) in
  let '(pc, ev1, res) := parseLoop s requestBodyBytes (requestChain s) idxs in
  match res with
  | Fail err => {| chain_after := pc; events := ev1; returned := Return (Fail err) |}
  | Val which =>
      let '(ev2, o) :=
        execLoop (registry s) pc (metaDataKeys s) which requestBodyBytes
          (range (pluginsChain_Length pc)) (initial_state requestBodyBytes) in
      match o with
      | Panic p =>
          {| chain_after := pc; events := ev1 ++ ev2; returned := Panic p |}
      | Return (Fail err) =>
          {| chain_after := pc; events := ev1 ++ ev2;
             returned := Return (Fail err) |}
      | Return (Val st) =>
          let '(ev3, ret) := respond s requestBodyBytes st in
          {| chain_after := pc; events := ev1 ++ ev2 ++ ev3;
             returned := Return (Val ret) |}
      end
  end.

(* ===================================================================== *)
(** ** pkg/bbr/plugins: BodyFieldToHeaderPlugin *)
(* ===================================================================== *)

Record BodyFieldToHeaderPlugin : Type := {
  bf_typedName : TypedName;                       (* the field [typedName] *)
  headerToFieldMap : gomap string
}.

Section BodyFieldToHeader.
(** A decoded JSON value ([any]), with the two operations [Execute]
    applies to it. *)
Context {any : Type}.
Context (assert_string : any → option string).  (* fieldValue.(string) *)
Context (Sprintf_v : any → string).             (* fmt.Sprintf("%v", _) *)

Definition headerValue (fieldValue : any) : string :=
  match assert_string fieldValue with
  | Some str => str
  | None => Sprintf_v fieldValue
  end.

(** One iteration of [for headerName, fieldName := range p.headerToFieldMap]. *)
Definition Execute_entry (body : gomap any) (headerName fieldName : string)
    (updatedHeaders : gmap string string) : gmap string string :=
  match gomap_lookup body fieldName with
  | None => updatedHeaders                                     (* continue *)
  | Some fieldValue => <[headerName := headerValue fieldValue]> updatedHeaders
  end.

(** [BodyFieldToHeaderPlugin.Execute]. *)
Definition BodyFieldToHeaderPlugin_Execute (p : BodyFieldToHeaderPlugin)
    (headers : gomap string) (body : gomap any)
  : gomap string * gomap any * option error :=
  let updatedHeaders :=
    map_fold (Execute_entry body) (∅ : gmap string string)
      (default ∅ (headerToFieldMap p)) in
  (Some updatedHeaders, body, None).
End BodyFieldToHeader.

(* ===================================================================== *)
(** ** Configurations used below *)
(* ===================================================================== *)

(** Whether [SupportedInterfaces] lists [name] under [type]: the
    "(type, name) pair present in SupportedInterfaces" of the
    specification. *)
Definition supported_pair (type name : string) : bool :=
  match SupportedInterfaces !! type with
  | Some implementations => slices_Contains implementations name
  | None => false
  end.

(** A metadata extractor that returns the same headers for every request. *)
Definition constExtractor (name : string) (headers : gmap string string)
  : BBRPlugin :=
  {| plugin_TypedName := {| Type_ := "MetadataExtractor"; Name := name |};
     RequiresFullParsing := false;
     as_MetadataExtractor := Some (λ _ _ _, (Some headers, None));
     as_ModelSelector := None |}.

(** A model selector that returns the same headers and body for every
    request. *)
Definition constSelector (name : string) (headers : gmap string string)
    (mutated : bytes) : BBRPlugin :=
  {| plugin_TypedName := {| Type_ := "ModelSelector"; Name := name |};
     RequiresFullParsing := false;
     as_MetadataExtractor := None;
     as_ModelSelector := Some (λ _ _, (Some headers, mutated, None)) |}.

(** A factory for the type [MetadataExtractor] whose product carries the
    name [DefaultPluginImplementation], which [SupportedInterfaces] does
    not list. *)
Definition defaultNameFactory : PluginFactoryFunc :=
  λ _, constExtractor DefaultPluginImplementation ∅.

(** The set-up [InitPlugins] builds when REQUEST_PLUGINS_CHAIN is empty:
    the factory of the default type is registered, one instance is created
    and registered, and its type key is added to the request chain. *)
Definition default_registry `{JSONCodec} : pluginRegistry :=
  let r := fst (pluginRegistry_RegisterFactory NewPluginRegistry
                  DefaultPluginType (λ _, NewSimpleModelExtractor)) in
  match pluginRegistry_CreatePlugin r DefaultPluginType with
  | Val plugin => fst (pluginRegistry_RegisterPlugin r plugin)
  | Fail _ => r
  end.

Definition default_chain `{JSONCodec} : pluginsChain :=
  fst (pluginsChain_AddPlugin NewPluginsChain DefaultPluginType default_registry).

(** A non-streaming server on "/v1/completions" with the default set-up. *)
Definition completions_server `{JSONCodec} : Server :=
  {| registry := default_registry;
     requestChain := default_chain;
     endpoint := "/v1/completions";
     streaming := false;
     metaDataKeys := ["model"] |}.

(** The request body {"model":"foo","prompt":"hi"}. *)
Definition body_foo_hi : bytes :=
  bytes_of_string
    ("{" ++ dq ++ "model" ++ dq ++ ":" ++ dq ++ "foo" ++ dq ++ ","
         ++ dq ++ "prompt" ++ dq ++ ":" ++ dq ++ "hi" ++ dq ++ "}").

(** The same server after [UnregisterPlugin("MetadataExtractor")]: the
    chain still names the type, the registry no longer has the instance. *)
Definition dangling_server `{JSONCodec} : Server :=
  {| registry := fst (pluginRegistry_UnregisterPlugin default_registry
                        DefaultPluginType);
     requestChain := default_chain;
     endpoint := "/v1/completions";
     streaming := false;
     metaDataKeys := ["model"] |}.

(** A registry whose instance map holds two metadata extractors, the
    first producing {"H":"a"} and the second {"H":"b"}, and the chain that
    runs them in this order. *)
Definition two_extractors_registry : pluginRegistry :=
  {| pluginsFactory := ∅;
     plugins := <[ "first" := constExtractor "first" {[ "H" := "a" ]} ]>
                  {[ "second" := constExtractor "second" {[ "H" := "b" ]} ]} |}.

Definition two_extractors_chain : pluginsChain :=
  set_pc_plugins NewPluginsChain ["first"; "second"].

(** A metadata extractor producing {"H":"a"} followed by a model selector
    producing {"H":"c"} and the body "x". *)
Definition extractor_selector_registry : pluginRegistry :=
  {| pluginsFactory := ∅;
     plugins := <[ "MetadataExtractor" := constExtractor "e" {[ "H" := "a" ]} ]>
                  {[ "ModelSelector" :=
                       constSelector "s" {[ "H" := "c" ]} (bytes_of_string "x") ]} |}.

Definition extractor_selector_chain : pluginsChain :=
  set_pc_plugins NewPluginsChain ["MetadataExtractor"; "ModelSelector"].


(** A model selector that returns an empty body, against its contract. *)
Definition emptySelector : BBRPlugin := constSelector "empty" ∅ [].

(** A chain that runs an extractor and then [emptySelector]. *)
Definition empty_selector_registry : pluginRegistry :=
  {| pluginsFactory := ∅;
     plugins := <[ "MetadataExtractor" :=
                     constExtractor "e" {[ ModelHeader := "foo" ]} ]>
                  {[ "ModelSelector" := emptySelector ]} |}.

Definition empty_selector_server : Server :=
  {| registry := empty_selector_registry;
     requestChain := set_pc_plugins NewPluginsChain
                       ["MetadataExtractor"; "ModelSelector"];
     endpoint := "/v1/completions";
     streaming := false;
     metaDataKeys := ["model"] |}.

(** Decoders that know the one document [body_foo_hi] and reject every
    other input; used where a concrete decoder is needed. *)
Definition decode_foo_hi (data : bytes) : result string :=
  if bool_decide (data = body_foo_hi) then Val "foo"
  else Fail (ErrExternal "invalid character").

Definition foo_hi_codec : JSONCodec :=
  {| json_Unmarshal_RequestBody := decode_foo_hi;
     ChatCompletionNewParams_UnmarshalJSON p data :=
       match decode_foo_hi data with
       | Val m => ({| chat_Model := m |}, None)
       | Fail e => (p, Some e)
       end;
     CompletionNewParams_UnmarshalJSON p data :=
       match decode_foo_hi data with
       | Val m => ({| completion_Model := m |}, None)
       | Fail e => (p, Some e)
       end |}.

(** Whether the chain entry [typeKey] resolves to a plugin that declares
    [RequiresFullParsing]. *)
Definition requires_full_parsing (r : pluginRegistry) (typeKey : string)
  : bool :=
  match plugins r !! typeKey with
  | Some plugin => RequiresFullParsing plugin
  | None => false
  end.

(** Whether [GetPlugin(i, r)] on chain [pc] yields a plugin that declares
    [RequiresFullParsing], as the first loop of the handler tests it. *)
Definition index_requires_full_parsing (r : pluginRegistry)
    (pc : pluginsChain) (i : Z) : bool :=
  match pluginsChain_GetPlugin pc i r with
  | Val plugin => RequiresFullParsing plugin
  | Fail _ => false
  end.

(** The parse calls of one request as the specification describes them
    (4.4, step 1): none if no plugin of the chain requires full parsing;
    otherwise one call, of the routine the endpoint path selects. *)
Definition spec_parse_calls (s : Server) (requestBodyBytes : bytes)
  : list Event :=
  if existsb (requires_full_parsing (registry s)) (pc_plugins (requestChain s))
  then
    if Contains (endpoint s) "/v1/completions"
    then [EvParseCompletion requestBodyBytes]
    else if Contains (endpoint s) "/v1/chat/completions"
    then [EvParseChatCompletion requestBodyBytes]
    else []
  else [].

(** The log line written when the scan finds a plugin that requires full
    parsing. *)
Definition is_full_parsing_report (e : Event) : bool :=
  match e with
  | EvLog (LogRequiresFullParsing _ _) => true
  | _ => false
  end.

(** A server whose one extractor is the simple model extractor with
    [requiresFullParsing] set, so that the shared shape is populated. *)
Definition full_parsing_server `{JSONCodec} : Server :=
  {| registry :=
       {| pluginsFactory := ∅;
          plugins :=
            {[ "MetadataExtractor" :=
                 simpleModelExtractor_plugin
                   {| typedName := {| Type_ := "MetadataExtractor";
                                      Name := "simple-model-extractor" |};
                      requiresFullParsing := true |} ]} |};
     requestChain := set_pc_plugins NewPluginsChain ["MetadataExtractor"];
     endpoint := "/v1/completions";
     streaming := false;
     metaDataKeys := ["model"] |}.

(* ===================================================================== *)
(** ** The rest of the registry, the chain and the handlers *)
(* ===================================================================== *)

(** [ListPlugins] and [ListFactories]: the keys of the map, each once, in
    the order the map iteration happens to yield them. *)
Definition pluginRegistry_ListPlugins (r : pluginRegistry) : list string :=
  (map_to_list (plugins r)).*1.

Definition pluginRegistry_ListFactories (r : pluginRegistry) : list string :=
  (map_to_list (pluginsFactory r)).*1.

(** [Server.HandleRequestHeaders] and [Server.HandleRequestTrailers]. *)
Definition HandleRequestHeaders : result (list ProcessingResponse) :=
  Val [ProcessingResponse_RequestHeaders None].

Definition HandleRequestTrailers : result (list ProcessingResponse) :=
  Val [ProcessingResponse_RequestTrailers].

(** Configurations used by the further properties. *)

(** An extractor named as [SupportedInterfaces] lists it, and a factory
    making it. *)
Definition listedExtractor : BBRPlugin :=
  constExtractor "simple-model-extractor" {[ ModelHeader := "foo" ]}.

Definition listedFactory : PluginFactoryFunc := λ _, listedExtractor.

(** Two guard rails, both listed under the type "GuardRail". *)
Definition guardRail (name : string) : BBRPlugin :=
  {| plugin_TypedName := {| Type_ := "GuardRail"; Name := name |};
     RequiresFullParsing := false;
     as_MetadataExtractor := None;
     as_ModelSelector := None |}.

(** A registry holding a factory and an instance for "MetadataExtractor"
    and for "GuardRail". *)
Definition populated_registry : pluginRegistry :=
  {| pluginsFactory :=
       <[ "MetadataExtractor" := listedFactory ]>
         {[ "GuardRail" := (λ _, guardRail "bad-words-blocker") ]};
     plugins :=
       <[ "MetadataExtractor" := listedExtractor ]>
         {[ "GuardRail" := guardRail "bad-words-blocker" ]} |}.

(** A chain over [populated_registry]. *)
Definition populated_chain : pluginsChain :=
  set_pc_plugins NewPluginsChain ["MetadataExtractor"; "GuardRail"].

(** The two metric counters. *)
Definition is_counter (e : Event) : bool :=
  match e with
  | EvRecordModelNotInBodyCounter | EvRecordSuccessCounter => true
  | _ => false
  end.

(** Whether a plugin is dispatched to [Select] by the second loop. *)
Definition runs_as_selector (plugin : BBRPlugin) : bool :=
  String.eqb (Type_ (plugin_TypedName plugin)) "ModelSelector"
  && match as_ModelSelector plugin with Some _ => true | None => false end.

(** Whether a plugin is dispatched at all by the second loop. *)
Definition is_dispatched (plugin : BBRPlugin) : bool :=
  String.eqb (Type_ (plugin_TypedName plugin)) "MetadataExtractor"
  || String.eqb (Type_ (plugin_TypedName plugin)) "ModelSelector".

(** A selector that rewrites the body to "y" and sets two headers. *)
Definition rewritingSelector : BBRPlugin :=
  constSelector "semantic-model-selector"
    (<[ ModelHeader := "bar" ]> {[ "K" := "d" ]}) (bytes_of_string "y").

(** An extractor setting the model header followed by
    [rewritingSelector], on a streaming and on a unary server. *)
Definition selecting_registry : pluginRegistry :=
  {| pluginsFactory := ∅;
     plugins := <[ "MetadataExtractor" := listedExtractor ]>
                  {[ "ModelSelector" := rewritingSelector ]} |}.

Definition selecting_server (stream : bool) : Server :=
  {| registry := selecting_registry;
     requestChain := set_pc_plugins NewPluginsChain
                       ["MetadataExtractor"; "ModelSelector"];
     endpoint := "/v1/chat/completions";
     streaming := stream;
     metaDataKeys := ["model"] |}.

(** A server whose chain holds a guard rail only. *)
Definition guard_rail_server : Server :=
  {| registry := populated_registry;
     requestChain := set_pc_plugins NewPluginsChain ["GuardRail"];
     endpoint := "/v1/completions";
     streaming := false;
     metaDataKeys := ["model"] |}.

(** The type of the instance registered under [typeKey], as the second
    loop logs it for a plugin it does not dispatch. *)
Definition registered_type (r : pluginRegistry) (typeKey : string) : string :=
  match plugins r !! typeKey with
  | Some plugin => Type_ (plugin_TypedName plugin)
  | None => ""
  end.

(* ===================================================================== *)
(** ** pkg/bbr/framework/utils: InitPlugins *)
(* ===================================================================== *)

(** The functions of package [strings] that [InitPlugins] calls.  They
    are outside the repository: their behaviour is a parameter. *)
Class StringsPkg : Type := {
  TrimSpace : string → string;
  Split : string → string → list string;         (* Split(s, sep) *)
  SplitN : string → string → Z → list string;    (* SplitN(s, sep, n) *)
  HasPrefix : string → string → bool             (* HasPrefix(s, prefix) *)
}.

(** The line feed, for the separator of [strings.Split(configData, "\n")]. *)
Definition lf : string := String "010"%char EmptyString.

(** The errors [InitPlugins] builds with [fmt.Errorf]. *)
Inductive InitError : Type :=
| ErrCreateInstance (pluginType implementation : string) (err : error)
    (* "failed to create an instance of %s/%s %v" *)
| ErrRegisterInstance (pluginType implementation : string) (err : error)
    (* "failed to register an instance of %s/%s %v" *)
| ErrMalformedDefinition (envVar line : string)
    (* "malformed plugin definition in %s: %s" *)
| ErrRegisterFactoryFor (pluginType implementation : string) (err : error)
    (* "failed to register factory for %s/%s %v" *)
| ErrProcess (pluginType implementation : string)
    (* "failed to process %s/%s" *)
| ErrRegisterFactory (err : error)
    (* "failed to register factory %v" *)
| ErrDefaultExtractor (err : InitError).
    (* "failed to create default MetaDataExtractor: %v" *)

(** The closure [processPlugin]: the registry it captured and the chain
    it was given, after the call, and its error.  The error of
    [chain.AddPlugin] is dropped. *)
Definition processPlugin (registry0 : pluginRegistry)
    (pluginType implementation : string) (chain : pluginsChain)
  : pluginRegistry * pluginsChain * option InitError :=
  match pluginRegistry_CreatePlugin registry0 pluginType with
  | Fail err =>
      (registry0, chain,
       Some (ErrCreateInstance pluginType implementation err))
  | Val plugin =>
      match pluginRegistry_RegisterPlugin registry0 plugin with
      | (registry1, Some err) =>
          (registry1, chain,
           Some (ErrRegisterInstance pluginType implementation err))
      | (registry1, None) =>
          (registry1, (pluginsChain_AddPlugin chain pluginType registry1).1,
           None)
      end
  end.

(** The loop [for _, line := range lines] of the closure [processChain]. *)
Fixpoint processLines `{JSONCodec} `{StringsPkg} (envVar : string)
    (lines : list string) (registry0 : pluginRegistry) (chain : pluginsChain)
  : pluginRegistry * pluginsChain * option InitError :=
  match lines with
  | [] => (registry0, chain, None)
  | line0 :: rest =>
      let line := TrimSpace line0 in
      if String.eqb line "" || HasPrefix line "#" then
        processLines envVar rest registry0 chain
      else
        match SplitN line ":" 2 with
        | [k; v] =>
            let pluginType := TrimSpace k in
            let implementation := TrimSpace v in
            if String.eqb pluginType "MetadaExtractor" then
              if String.eqb implementation "simple-model-extractor" then
                match pluginRegistry_RegisterFactory registry0 pluginType
                        (λ _, NewSimpleModelExtractor) with
                | (registry1, Some err) =>
                    (registry1, chain,
                     Some (ErrRegisterFactoryFor pluginType implementation err))
                | (registry1, None) =>
                    match processPlugin registry1 pluginType implementation
                            chain with
                    | (registry2, chain', Some _) =>
                        (registry2, chain',
                         Some (ErrProcess pluginType implementation))
                    | (registry2, chain', None) =>
                        processLines envVar rest registry2 chain'
                    end
                end
              else processLines envVar rest registry0 chain
            else if String.eqb pluginType "ModelSelector" then
              processLines envVar rest registry0 chain
            else processLines envVar rest registry0 chain
        | _ => (registry0, chain, Some (ErrMalformedDefinition envVar line))
        end
  end.

(** The closure [processChain]; [Getenv] is [os.Getenv]. *)
Definition processChain `{JSONCodec} `{StringsPkg} (Getenv : string → string)
    (envVar : string) (registry0 : pluginRegistry) (chain : pluginsChain)
  : pluginRegistry * pluginsChain * option InitError :=
  let configData := Getenv envVar in
  if String.eqb configData "" then (registry0, chain, None)
  else processLines envVar (Split configData lf) registry0 chain.

(** The metadata keys [InitPlugins] reads from METADATA_KEYS. *)
Definition readMetaDataKeys `{StringsPkg} (Getenv : string → string)
  : list string :=
  let metaKeysEnv := Getenv "METADATA_KEYS" in
  if negb (String.eqb metaKeysEnv "")
  then TrimSpace <$> Split metaKeysEnv ","
  else ["model"].

(** What [InitPlugins] returns: the registry, the request chain, the
    response chain and the metadata keys, or the error. *)
Inductive InitResult : Type :=
| InitOk (registry0 : pluginRegistry) (requestChain0 responseChain : pluginsChain)
         (metaDataKeys0 : list string)
| InitFailed (err : InitError).

(** [InitPlugins]. *)
Definition InitPlugins `{JSONCodec} `{StringsPkg} (Getenv : string → string)
  : InitResult :=
  let metaDataKeys0 := readMetaDataKeys Getenv in
  match processChain Getenv "REQUEST_PLUGINS_CHAIN"
          NewPluginRegistry NewPluginsChain with
  | (_, _, Some err) => InitFailed err
  | (registry1, requestChain1, None) =>
      match processChain Getenv "RESPONSE_PLUGINS_CHAIN"
              registry1 NewPluginsChain with
      | (_, _, Some err) => InitFailed err
      | (registry2, responseChain, None) =>
          if pluginsChain_Length requestChain1 =? 0 then
            match pluginRegistry_RegisterFactory registry2 DefaultPluginType
                    (λ _, NewSimpleModelExtractor) with
            | (_, Some err) => InitFailed (ErrRegisterFactory err)
            | (registry3, None) =>
                match processPlugin registry3 DefaultPluginType
                        DefaultPluginImplementation requestChain1 with
                | (_, _, Some err) => InitFailed (ErrDefaultExtractor err)
                | (registry4, requestChain2, None) =>
                    InitOk registry4 requestChain2 responseChain metaDataKeys0
                end
            end
          else InitOk registry2 requestChain1 responseChain metaDataKeys0
      end
  end.

(** An implementation of the [strings] functions on ASCII text, for
    running [InitPlugins] on concrete configurations. *)
Definition is_ascii_space (c : ascii) : bool :=
  let n := nat_of_ascii c in
  ((9 <=? n) && (n <=? 13) || (n =? 32))%nat.

Fixpoint trim_left (s : string) : string :=
  match s with
  | String c s' => if is_ascii_space c then trim_left s' else s
  | EmptyString => EmptyString
  end.

Fixpoint trim_right (s : string) : string :=
  match s with
  | String c s' =>
      match trim_right s' with
      | EmptyString => if is_ascii_space c then EmptyString
                       else String c EmptyString
      | t => String c t
      end
  | EmptyString => EmptyString
  end.

Fixpoint split_on (sep : ascii) (s : string) : list string :=
  match s with
  | EmptyString => [EmptyString]
  | String c s' =>
      if Ascii.eqb c sep then EmptyString :: split_on sep s'
      else match split_on sep s' with
           | x :: xs => String c x :: xs
           | [] => [String c EmptyString]
           end
  end.

Fixpoint split_first (sep : ascii) (s : string) : list string :=
  match s with
  | EmptyString => [EmptyString]
  | String c s' =>
      if Ascii.eqb c sep then [EmptyString; s']
      else match split_first sep s' with
           | x :: xs => String c x :: xs
           | [] => [String c EmptyString]
           end
  end.

Definition first_char (sep : string) : ascii :=
  match sep with String c _ => c | EmptyString => "000"%char end.

Definition ascii_strings : StringsPkg :=
  {| TrimSpace s := trim_right (trim_left s);
     Split s sep := split_on (first_char sep) s;
     SplitN s sep n := if n =? 2 then split_first (first_char sep) s
                       else split_on (first_char sep) s;
     HasPrefix s prefix := String.prefix prefix s |}.

(** Two environments: a request chain that names the simple model
    extractor as [SupportedInterfaces] spells it, and one that spells the
    type as the code compares it. *)
Definition env_listed (name : string) : string :=
  if String.eqb name "REQUEST_PLUGINS_CHAIN"
  then "# request chain" ++ lf ++ "MetadataExtractor: simple-model-extractor"
  else if String.eqb name "METADATA_KEYS" then "model, user" else "".

Definition env_misspelt (name : string) : string :=
  if String.eqb name "REQUEST_PLUGINS_CHAIN"
  then "MetadaExtractor:simple-model-extractor"
  else "".

(* ===================================================================== *)
(** ** pkg/bbr/plugins: ModelExtractorPlugin and the plugin factories *)
(* ===================================================================== *)

Definition ModelExtractorType : string := "model-to-header".
Definition modelHeader : string := "X-Gateway-Model-Name".
Definition baseModelHeader : string := "X-Gateway-Base-Model-Name".
Definition modelField : string := "model".
Definition BodyFieldToHeaderPluginType : string := "body-field-to-header".

(** [ModelExtractorPlugin]; the datastore is nil ([None]) or an object
    answering [GetBaseModel]. *)
Record ModelExtractorPlugin : Type := {
  me_typedName : TypedName;                       (* the field [typedName] *)
  datastore : option (string → string)
}.

Definition NewModelExtractorPlugin : ModelExtractorPlugin :=
  {| me_typedName := {| Type_ := ModelExtractorType;
                        Name := ModelExtractorType |};
     datastore := None |}.

Definition ModelExtractorPlugin_WithName (p : ModelExtractorPlugin)
    (name : string) : ModelExtractorPlugin :=
  {| me_typedName := {| Type_ := Type_ (me_typedName p); Name := name |};
     datastore := datastore p |}.

Definition ModelExtractorPlugin_WithDatastore (p : ModelExtractorPlugin)
    (GetBaseModel : string → string) : ModelExtractorPlugin :=
  {| me_typedName := me_typedName p; datastore := Some GetBaseModel |}.

Definition ModelExtractorPluginFactory (name : string) (rawParameters : bytes)
  : ModelExtractorPlugin :=
  ModelExtractorPlugin_WithName NewModelExtractorPlugin name.

(** What [ModelExtractorPlugin.Execute] yields: its three return values,
    or the panic of assigning to an entry of a nil map. *)
Inductive Executed (any : Type) : Type :=
| ExecReturn (headers : gomap string) (body : gomap any) (err : option error)
| ExecPanicNilMap.
Arguments ExecReturn {any} headers body err.
Arguments ExecPanicNilMap {any}.

Section ModelExtractor.
Context {any : Type}.
Context (assert_string : any → option string).  (* value.(string) *)

(** [body[modelField].(string)]: the string and [ok]. *)
Definition targetModel_of (body : gomap any) : option string :=
  match gomap_lookup body modelField with
  | Some v => assert_string v
  | None => None
  end.

(** [ModelExtractorPlugin.Execute].  The headers map it returns is the
    map it was given, updated in place. *)
Definition ModelExtractorPlugin_Execute (p : ModelExtractorPlugin)
    (headers : gomap string) (body : gomap any) : Executed any :=
  match targetModel_of body with
  | None => ExecReturn headers body None
  | Some targetModel =>
      if String.eqb targetModel "" then ExecReturn headers body None
      else
        match headers with
        | None => ExecPanicNilMap
        | Some h =>
            let h1 := <[modelHeader := targetModel]> h in
            match datastore p with
            | Some GetBaseModel =>
                let baseModel := GetBaseModel targetModel in
                if negb (String.eqb baseModel "")
                then ExecReturn (Some (<[baseModelHeader := baseModel]> h1))
                       body None
                else ExecReturn (Some h1) body None
            | None => ExecReturn (Some h1) body None
            end
        end
  end.
End ModelExtractor.

    (* "BodyFieldToHeader plugin requires at least one header mapping in
       configuration" *)

Definition NewBodyFieldToHeaderPlugin (name : string)
    (headerToFieldMap0 : gomap string) : BodyFieldToHeaderPlugin :=
  let name := if String.eqb name "" then BodyFieldToHeaderPluginType
              else name in
  {| bf_typedName := {| Type_ := BodyFieldToHeaderPluginType; Name := name |};
     headerToFieldMap := headerToFieldMap0 |}.


Definition BodyFieldToHeaderPlugin_WithName (p : BodyFieldToHeaderPlugin)
    (name : string) : BodyFieldToHeaderPlugin :=
  {| bf_typedName := {| Type_ := Type_ (bf_typedName p); Name := name |};
     headerToFieldMap := headerToFieldMap p |}.

(** [len(m)] of a map. *)
Definition gomap_len {V} (m : gomap V) : nat :=
  match m with None => 0 | Some g => size g end.

Section BodyFieldToHeaderFactory.
(** [json.Unmarshal(rawParameters, &config)] into a zero
    [BodyFieldToHeaderConfig]: the decoded [Headers], or the error. *)
Context (Unmarshal_config : bytes → result (gomap string)).

End BodyFieldToHeaderFactory.

(** A [map[string]any] decoded from JSON, cut down to strings and numbers,
    for running the plugins on concrete bodies. *)
Inductive jsonValue : Type :=
| JString (s : string)
| JNumber (n : Z).

Definition jsonValue_string (v : jsonValue) : option string :=
  match v with JString s => Some s | JNumber _ => None end.

(* ===================================================================== *)
(** ** pkg/bbr/handlers/request.go: the handler with the LoRA naming rule *)
(* ===================================================================== *)

(** The file [pkg/bbr/handlers/request.go] holds a second
    [HandleRequestBody], which needs no plugins: it reads the model from
    the body and, for a model name of the form
    [family/name/lora/lora-name], routes on the part before the tag and
    rewrites the body's model to the part after it. *)
Module request_go.

(** [bytes.HasPrefix(s, prefix)]. *)
Fixpoint HasPrefix (s prefix : bytes) : bool :=
  match prefix, s with
  | [], _ => true
  | p :: prefix', c :: s' => Byte.eqb p c && HasPrefix s' prefix'
  | _ :: _, [] => false
  end.

(** [bytes.Index(s, sep)]: the index of the first instance of [sep] in
    [s], or -1. *)
Fixpoint Index (s sep : bytes) : Z :=
  if HasPrefix s sep then 0
  else match s with
       | [] => -1
       | _ :: s' => let i := Index s' sep in if i <? 0 then -1 else i + 1
       end.

(** [bytes.LastIndex(s, sep)]: the index of the last instance of [sep]
    in [s], or -1. *)
Fixpoint LastIndex (s sep : bytes) : Z :=
  match s with
  | [] => if HasPrefix [] sep then 0 else -1
  | _ :: s' =>
      let i := LastIndex s' sep in
      if 0 <=? i then i + 1 else if HasPrefix s sep then 0 else -1
  end.

Definition slash : bytes := bytes_of_string "/".

(** The three nested tests on the model name: when the tag occurs, a
    slash precedes it and a slash follows it, the new [prefix] and the
    [suffix]. *)
Definition splitLora (orig loraTag : bytes) : option (bytes * bytes) :=
  let idx := Index orig loraTag in
  if idx =? -1 then None
  else
    let lastSlash := LastIndex (take (Z.to_nat idx) orig) slash in
    if lastSlash =? -1 then None
    else
      let afterTag :=
        drop (Z.to_nat (idx + Z.of_nat (length loraTag))) orig in
      let nextSlash := Index afterTag slash in
      if nextSlash =? -1 then None
      else Some (take (Z.to_nat lastSlash) orig,
                 drop (Z.to_nat (nextSlash + 1)) afterTag).

(** The functions of [encoding/json] this handler adds to those of
    [JSONCodec]; [string_of_bytes] is the conversion [string(b)]. *)
Class RawJSON : Type := {
  (** [json.Unmarshal(data, &raw)] into a nil
      [map[string]json.RawMessage]. *)
  json_Unmarshal_raw : bytes → result (gomap bytes);
  (** [json.Marshal(s)] of a string. *)
  json_Marshal_string : string → result bytes;
  (** [json.Marshal(raw)]. *)
  json_Marshal_raw : gomap bytes → result bytes
}.

Definition string_of_bytes (b : bytes) : string := String.string_of_list_byte b.

(** Metric counters and log lines of the handler. *)
Inductive Effect : Type :=
| RecordModelNotParsedCounter
| RecordModelNotInBodyCounter
| RecordSuccessCounter
| LogNoModel
| LogOrig (orig : bytes)
| LogAfterMutation (suffix : bytes)
| LogMarshalFailed (err : error).

(** What the handler yields: responses, an error, or the panic of
    assigning to an entry of a nil map. *)
Inductive Result : Type :=
| Responded (ret : list ProcessingResponse)
| Failed (err : error)
| PanickedNilMap.

(** The body of [if idx := bytes.Index(...); idx != -1 { ... }]: the
    header value, the body to forward and the effects; [None] for the
    panic. *)
Definition rewriteModel `{RawJSON} (orig loraTag requestBodyBytes : bytes)
    (raw : gomap bytes) : option (bytes * bytes * list Effect) :=
  match splitLora orig loraTag with
  | None => Some (orig, requestBodyBytes, [])
  | Some (prefix, suffix) =>
      match json_Marshal_string (string_of_bytes suffix) with
      | Fail merr =>
          Some (prefix, requestBodyBytes,
                [LogAfterMutation suffix; LogMarshalFailed merr])
      | Val modelBytes =>
          match raw with
          | None => None
          | Some m =>
              match json_Marshal_raw (Some (<["model" := modelBytes]> m)) with
              | Fail merr2 =>
                  Some (prefix, requestBodyBytes,
                        [LogAfterMutation suffix; LogMarshalFailed merr2])
              | Val updatedBodyBytes =>
                  Some (prefix, updatedBodyBytes, [LogAfterMutation suffix])
              end
          end
      end
  end.

(** [Server.HandleRequestBody] of request.go; [Getenv] is [os.Getenv]. *)
Definition HandleRequestBody `{JSONCodec} `{RawJSON}
    (Getenv : string → string) (s : Server) (requestBodyBytes : bytes)
  : list Effect * Result :=
  match json_Unmarshal_RequestBody requestBodyBytes with
  | Fail err => ([RecordModelNotParsedCounter], Failed err)
  | Val Model =>
      match json_Unmarshal_raw requestBodyBytes with
      | Fail err => ([RecordModelNotParsedCounter], Failed err)
      | Val raw =>
          if String.eqb Model "" then
            ([RecordModelNotInBodyCounter; LogNoModel],
             Responded
               (if streaming s
                then addStreamedBodyResponse
                       [ProcessingResponse_RequestHeaders None]
                       requestBodyBytes
                else [ProcessingResponse_RequestBody None]))
          else
            let loraTag :=
              if String.eqb (Getenv "LORA_TAG") "" then "lora"
              else Getenv "LORA_TAG" in
            let orig := bytes_of_string Model in
            match rewriteModel orig (bytes_of_string loraTag)
                    requestBodyBytes raw with
            | None =>
                ([RecordSuccessCounter; LogOrig orig], PanickedNilMap)
            | Some (prefix, body', effects) =>
                let header :=
                  Some [{| Key := "X-Gateway-Model-Name";
                           RawValue := prefix |}] in
                (([RecordSuccessCounter; LogOrig orig] ++ effects)%list,
                 Responded
                   (if streaming s
                    then addStreamedBodyResponse
                           [ProcessingResponse_RequestHeaders
                              (Some {| ClearRouteCache := true;
                                       HeaderMutation := header;
                                       BodyMutation_ := None |})]
                           body'
                    else [ProcessingResponse_RequestBody
                            (Some {| ClearRouteCache := true;
                                     HeaderMutation := header;
                                     BodyMutation_ := None |})]))
            end
      end
  end.

End request_go.

(** The model name of the naming convention, and decoders that read it. *)
Definition lora_model : string := "family/name/lora/my-lora".


Definition lora_raw : request_go.RawJSON :=
  {| request_go.json_Unmarshal_raw _ :=
       Val (Some {[ "model" := bytes_of_string lora_model ]});
     request_go.json_Marshal_string s := Val (bytes_of_string s);
     request_go.json_Marshal_raw raw :=
       Val (default [] (gomap_lookup raw "model")) |}.

(* ===================================================================== *)
(** * Properties *)
(* ===================================================================== *)

(** ** MergeMaps *)

Lemma merge_fold_lookup (d s : gmap string string) (k : string) :
  map_fold utils.merge_entry d s !! k
  = match d !! k with Some v => Some v | None => s !! k end.
Proof.
  revert k.
  apply (map_fold_weak_ind
           (λ (r : gmap string string) (m : gmap string string),
              ∀ k, r !! k = match d !! k with Some v => Some v | None => m !! k end)).
  - intros k. rewrite lookup_empty. by destruct (d !! k).
  - intros i x m r Hi IH k. unfold utils.merge_entry.
    destruct (r !! i) as [y|] eqn:Hr.
    + rewrite IH. destruct (d !! k) eqn:Hd; [done|].
      destruct (decide (i = k)) as [->|Hne].
      * rewrite IH, Hd, Hi in Hr. done.
      * by rewrite lookup_insert_ne.
    + destruct (decide (i = k)) as [->|Hne].
      * rewrite !lookup_insert_eq. rewrite IH in Hr.
        by destruct (d !! k).
      * rewrite !lookup_insert_ne by done. apply IH.
Qed.

(** The loop of [MergeMaps] computes the union that prefers [dst]. *)
Lemma merge_fold_union (d s : gmap string string) :
  map_fold utils.merge_entry d s = d ∪ s.
Proof.
  apply map_eq. intros k. rewrite merge_fold_lookup, lookup_union.
  destruct (d !! k), (s !! k); done.
Qed.

Lemma MergeMaps_Some (d : gmap string string) (src : gomap string) :
  utils.MergeMaps (Some d) src = Some (d ∪ default ∅ src).
Proof.
  destruct src as [s|]; simpl.
  - by rewrite merge_fold_union.
  - by rewrite (right_id_L ∅ (∪)).
Qed.

Lemma merge_into_union (d : gmap string string) (src : gomap string) :
  merge_into d src = d ∪ default ∅ src.
Proof. unfold merge_into. by rewrite MergeMaps_Some. Qed.

Lemma MergeMaps_union (dst src : gomap string) :
  utils.MergeMaps dst src = Some (default ∅ dst ∪ default ∅ src).
Proof.
  destruct dst as [d|]; [apply MergeMaps_Some|].
  destruct src as [s|]; simpl.
  - by rewrite merge_fold_union.
  - by rewrite (left_id_L ∅ (∪)).
Qed.

Lemma gomap_lookup_default {V} (m : gomap V) (k : string) :
  gomap_lookup m k = default ∅ m !! k.
Proof. destruct m; [done|]. simpl. by rewrite lookup_empty. Qed.

(** C9.  [MergeMaps(dst, src)] keeps every binding [dst] already has: a key
    takes the value of [src] only when [dst] lacks it.  Hence merging the
    same [src] a second time changes nothing, and the map returned is never
    nil, whether or not [dst] or [src] is. *)
Theorem MergeMaps_fills_only_absent (dst src : gomap string) :
  (∀ k v, gomap_lookup dst k = Some v →
          gomap_lookup (utils.MergeMaps dst src) k = Some v)
  ∧ (∀ k, gomap_lookup dst k = None →
          gomap_lookup (utils.MergeMaps dst src) k = gomap_lookup src k)
  ∧ utils.MergeMaps (utils.MergeMaps dst src) src = utils.MergeMaps dst src
  ∧ utils.MergeMaps dst src ≠ None.
Proof.
  rewrite !MergeMaps_union. repeat split.
  - intros k v Hk. rewrite gomap_lookup_default in Hk. simpl.
    by apply lookup_union_Some_l.
  - intros k Hk. rewrite gomap_lookup_default in Hk. simpl.
    rewrite gomap_lookup_default. rewrite lookup_union, Hk.
    by destruct (default ∅ src !! k).
  - simpl. f_equal. apply map_eq. intros k. rewrite !lookup_union.
    by destruct (default ∅ dst !! k), (default ∅ src !! k).
  - done.
Qed.

Lemma MergeMaps_fills_only_absent_witness :
  gomap_lookup (Some {[ "H" := "a" ]}) "H" = Some "a"
  ∧ gomap_lookup
      (utils.MergeMaps (Some {[ "H" := "a" ]})
                       (Some (<[ "K" := "d" ]> {[ "H" := "c" ]}))) "H"
    = Some "a".
Proof.
  split; [reflexivity|].
  apply (proj1 (MergeMaps_fills_only_absent
                  (Some {[ "H" := "a" ]})
                  (Some (<[ "K" := "d" ]> {[ "H" := "c" ]})))).
  reflexivity.
Defined.

(** ** Registry *)

Lemma RegisterFactory_unsupported (r : pluginRegistry) (typeKey : string)
    (factory : PluginFactoryFunc) :
  SupportedInterfaces !! typeKey = None →
  pluginRegistry_RegisterFactory r typeKey factory
  = (r, Some (ErrNonSupportedInterface typeKey)).
Proof. intros Hk. unfold pluginRegistry_RegisterFactory. by rewrite Hk. Qed.

Lemma RegisterPlugin_unsupported (r : pluginRegistry) (plugin : BBRPlugin) :
  supported_pair (Type_ (plugin_TypedName plugin))
                 (Name (plugin_TypedName plugin)) = false →
  pluginRegistry_RegisterPlugin r plugin
  = (r, Some (ErrNonSupportedInterface (Type_ (plugin_TypedName plugin))))
  ∨ pluginRegistry_RegisterPlugin r plugin
    = (r, Some (ErrNoImplementation (Type_ (plugin_TypedName plugin)))).
Proof.
  unfold supported_pair, pluginRegistry_RegisterPlugin.
  destruct (SupportedInterfaces !! Type_ (plugin_TypedName plugin))
    as [implementations|]; [|by left].
  intros ->. right. simpl. by rewrite orb_true_r.
Qed.

(** C7, as the code has it.  [RegisterFactory] sees only the type: for
    every type that is not a key of [SupportedInterfaces] it returns the
    error "non-supported plugin interface type" and leaves the factory map
    and the instance map as they were.  [RegisterPlugin] sees the pair: for
    every instance whose (type, name) pair is not in [SupportedInterfaces]
    it returns "non-supported plugin interface type" or "no implementation
    for plugin interface type" and leaves both maps as they were. *)
Theorem Register_unsupported_rejected (r : pluginRegistry) :
  (∀ typeKey factory,
      SupportedInterfaces !! typeKey = None →
      pluginRegistry_RegisterFactory r typeKey factory
      = (r, Some (ErrNonSupportedInterface typeKey)))
  ∧ (∀ plugin,
      supported_pair (Type_ (plugin_TypedName plugin))
                     (Name (plugin_TypedName plugin)) = false →
      ∃ err,
        pluginRegistry_RegisterPlugin r plugin = (r, Some err)
        ∧ (err = ErrNonSupportedInterface (Type_ (plugin_TypedName plugin))
           ∨ err = ErrNoImplementation (Type_ (plugin_TypedName plugin)))).
Proof.
  split.
  - intros typeKey factory. apply RegisterFactory_unsupported.
  - intros plugin Hp.
    destruct (RegisterPlugin_unsupported r plugin Hp) as [E|E]; eauto.
Qed.

Lemma Register_unsupported_rejected_witness :
  (SupportedInterfaces !! "Scorer" = None
   ∧ pluginRegistry_RegisterFactory NewPluginRegistry "Scorer" defaultNameFactory
     = (NewPluginRegistry, Some (ErrNonSupportedInterface "Scorer")))
  ∧ (supported_pair "MetadataExtractor" DefaultPluginImplementation = false
     ∧ ∃ err,
         pluginRegistry_RegisterPlugin NewPluginRegistry (defaultNameFactory tt)
         = (NewPluginRegistry, Some err)
         ∧ (err = ErrNonSupportedInterface "MetadataExtractor"
            ∨ err = ErrNoImplementation "MetadataExtractor")).
Proof.
  split.
  - split; [reflexivity|].
    apply (proj1 (Register_unsupported_rejected NewPluginRegistry)).
    reflexivity.
  - split; [reflexivity|].
    apply (proj2 (Register_unsupported_rejected NewPluginRegistry)
             (defaultNameFactory tt)).
    reflexivity.
Defined.

(** The pair ("MetadataExtractor", "simple-model-selector") is not in
    [SupportedInterfaces], yet [RegisterFactory] for its type returns no
    error and stores the factory. *)
Lemma RegisterFactory_accepts_unlisted_pair :
  supported_pair "MetadataExtractor" "simple-model-selector" = false
  ∧ snd (pluginRegistry_RegisterFactory NewPluginRegistry
           "MetadataExtractor" defaultNameFactory) = None
  ∧ pluginsFactory
      (fst (pluginRegistry_RegisterFactory NewPluginRegistry
              "MetadataExtractor" defaultNameFactory)) !! "MetadataExtractor"
    = Some defaultNameFactory
  ∧ pluginsFactory NewPluginRegistry !! "MetadataExtractor" = None.
Proof. repeat split; reflexivity. Qed.

(** ** Chain *)

(** C5, where the code departs from it.  [AddPluginAtInd] at [i = n], the
    length of the chain, passes the range guard and then reads
    [pc.plugins[n]]: the call panics with an index out of range and
    inserts nothing, for every chain, type key and registry. *)
Theorem AddPluginAtInd_at_length_panics (pc : pluginsChain) (typeKey : string)
    (r : pluginRegistry) :
  pluginsChain_AddPluginAtInd pc typeKey (pluginsChain_Length pc) r
  = Panic (PanicIndexOutOfRange (pluginsChain_Length pc)
             (length (pc_plugins pc))).
Proof.
  unfold pluginsChain_AddPluginAtInd, pluginsChain_Length.
  assert ((Z.of_nat (length (pc_plugins pc)) <? 0) = false) as ->
    by (apply Z.ltb_ge; lia).
  assert ((Z.of_nat (length (pc_plugins pc))
             >? Z.of_nat (length (pc_plugins pc))) = false) as ->.
  { rewrite Z.gtb_ltb. apply Z.ltb_ge. lia. }
  simpl. rewrite Nat2Z.id.
  by rewrite (lookup_ge_None_2 (pc_plugins pc) (length (pc_plugins pc))).
Qed.

(** Outside [0, n] the call returns the index error and leaves the chain
    as it was. *)
Lemma AddPluginAtInd_out_of_range (pc : pluginsChain) (typeKey : string)
    (i : Z) (r : pluginRegistry) :
  i < 0 ∨ i > pluginsChain_Length pc →
  pluginsChain_AddPluginAtInd pc typeKey i r
  = Return (pc, Some (ErrIndexOutOfRange i)).
Proof.
  intros Hi. unfold pluginsChain_AddPluginAtInd.
  assert ((i <? 0) || (i >? pluginsChain_Length pc) = true) as ->; [|done].
  rewrite Z.gtb_ltb. apply orb_true_iff.
  rewrite !Z.ltb_lt. lia.
Qed.

(** Inside [0, n) the entry looked up in the registry is the one already
    at position [i], whatever [typeKey] is. *)
Lemma AddPluginAtInd_inside (pc : pluginsChain) (typeKey : string)
    (i : nat) (k : string) (r : pluginRegistry) :
  pc_plugins pc !! i = Some k →
  pluginsChain_AddPluginAtInd pc typeKey (Z.of_nat i) r
  = match plugins r !! k with
    | None => Return (pc, Some (ErrIndexNotInRegistry (Z.of_nat i)))
    | Some _ =>
        Return (set_pc_plugins pc
                  (take i (pc_plugins pc) ++ typeKey :: drop i (pc_plugins pc)),
                None)
    end.
Proof.
  intros Hk. unfold pluginsChain_AddPluginAtInd, pluginsChain_Length.
  pose proof (lookup_lt_Some _ _ _ Hk) as Hlt.
  assert ((Z.of_nat i <? 0) = false) as -> by (apply Z.ltb_ge; lia).
  assert ((Z.of_nat i >? Z.of_nat (length (pc_plugins pc))) = false) as ->.
  { rewrite Z.gtb_ltb. apply Z.ltb_ge. lia. }
  simpl. rewrite Nat2Z.id, Hk. unfold pluginRegistry_GetPlugins.
  by destruct (plugins r !! k).
Qed.

(** ** The simple model extractor and the default chain *)

Lemma GetSharedMemory_no_parse (pc : pluginsChain) :
  pluginsChain_GetSharedMemory pc "" = SharedNil.
Proof. reflexivity. Qed.

(** C3, where the code departs from it.  When no plugin required full
    parsing the handler leaves [which] empty and passes
    [GetSharedMemory("")], the nil interface, to every plugin; on it
    [simpleModelExtractor.Extract] takes the default branch of its type
    switch and returns the error "unsupported shared memory type" with nil
    headers, for every body and every list of keys: the fallback decoder
    is not reached. *)
Theorem simpleModelExtractor_Extract_nil_shared_memory `{JSONCodec}
    (pc : pluginsChain) (s : simpleModelExtractor) (requestBodyBytes : bytes)
    (keys : list string) :
  simpleModelExtractor_Extract s requestBodyBytes keys
    (pluginsChain_GetSharedMemory pc "")
  = (None, Some ErrUnsupportedSharedMemoryType).
Proof. reflexivity. Qed.

(** With a shared shape whose [Model] is empty the fallback is taken. *)
Lemma simpleModelExtractor_Extract_empty_shape `{JSONCodec}
    (s : simpleModelExtractor) (requestBodyBytes : bytes) (keys : list string)
    (model : string) :
  json_Unmarshal_RequestBody requestBodyBytes = Val model →
  simpleModelExtractor_Extract s requestBodyBytes keys
    (SharedCompletion {| completion_Model := "" |})
  = (Some {[ ModelHeaderKey := model ]}, None).
Proof. intros Hm. unfold simpleModelExtractor_Extract. simpl. by rewrite Hm. Qed.

(** C1, where the code departs from it.  On the default chain (one
    simple-model-extractor, no selector), endpoint "/v1/completions",
    non-streaming, body {"model":"foo","prompt":"hi"}, the handler returns
    the error of [Extract] and no response, whatever the JSON decoders do:
    no header is set and no body is returned. *)
Theorem HandleRequestBody_default_chain_completions `{JSONCodec} :
  HandleRequestBody completions_server body_foo_hi
  = {| chain_after := default_chain;
       events := [];
       returned := Return (Fail ErrUnsupportedSharedMemoryType) |}.
Proof. reflexivity. Qed.

(** C4, where the code departs from it.  The chain names
    "MetadataExtractor" and the registry has no such instance: the first
    loop logs the resolution error and goes on, the second loop drops the
    error and calls [TypedName] on the nil plugin, so the call panics
    instead of skipping the entry. *)
Theorem HandleRequestBody_unresolved_entry_panics `{JSONCodec}
    (requestBodyBytes : bytes) :
  HandleRequestBody dangling_server requestBodyBytes
  = {| chain_after := default_chain;
       events := [EvLog (LogError (ErrIndexNotInRegistry 0))];
       returned := Panic PanicNilDereference |}.
Proof. reflexivity. Qed.

(** C2, where the code departs from it.  Two metadata extractors run in
    order, producing {"H":"a"} and then {"H":"b"}: the accumulator ends
    with "H" bound to "a", the first value, because [MergeMaps] never
    replaces a key the accumulator already has. *)
Theorem execLoop_two_extractors_keeps_first (keys : list string)
    (which : string) (requestBodyBytes : bytes) :
  execLoop two_extractors_registry two_extractors_chain keys which
    requestBodyBytes (range (pluginsChain_Length two_extractors_chain))
    (initial_state requestBodyBytes)
  = ([], Return (Val {| allHeaders := {[ "H" := "a" ]};
                        mutatedBodyBytes := requestBodyBytes |})).
Proof. reflexivity. Qed.

(** The other half of C2 holds: a selector producing {"H":"c"} after an
    extractor producing {"H":"a"} leaves "H" bound to "a". *)
Lemma execLoop_selector_keeps_extractor_header (keys : list string)
    (which : string) (requestBodyBytes : bytes) :
  execLoop extractor_selector_registry extractor_selector_chain keys which
    requestBodyBytes (range (pluginsChain_Length extractor_selector_chain))
    (initial_state requestBodyBytes)
  = ([], Return (Val {| allHeaders := {[ "H" := "a" ]};
                        mutatedBodyBytes := bytes_of_string "x" |})).
Proof. reflexivity. Qed.

(** ** The execution loop *)

(** Running the loop over [l1 ++ l2] is running it over [l1] and, unless
    that aborted, over [l2] from the state reached. *)
Lemma execLoop_app (r : pluginRegistry) (pc : pluginsChain)
    (keys : list string) (which : string) (body : bytes)
    (l1 l2 : list Z) (st : ChainState) :
  execLoop r pc keys which body (l1 ++ l2) st
  = match execLoop r pc keys which body l1 st with
    | (ev, Return (Val st')) =>
        let '(ev', o) := execLoop r pc keys which body l2 st' in
        ((ev ++ ev')%list, o)
    | (ev, o) => (ev, o)
    end.
Proof.
  revert st. induction l1 as [|i l1 IH]; intros st; simpl.
  - by destruct (execLoop r pc keys which body l2 st).
  - destruct (pluginsChain_GetPlugin pc i r) as [plugin|e]; [|done].
    destruct (String.eqb _ "MetadataExtractor").
    { destruct (as_MetadataExtractor plugin) as [Extract|]; [|apply IH].
      destruct (Extract _ _ _) as [headers [e|]]; [done|apply IH]. }
    destruct (String.eqb _ "ModelSelector").
    { destruct (as_ModelSelector plugin) as [Select|]; [|apply IH].
      destruct (Select _ _) as [[headers mutated] [e|]]; [done|].
      destruct (length mutated =? 0)%nat; [done|apply IH]. }
    rewrite IH.
    destruct (execLoop r pc keys which body l1 st) as [ev [[st'|e]|p]];
      try done.
    by destruct (execLoop r pc keys which body l2 st').
Qed.

(** One iteration on a metadata extractor that returns no error. *)
Lemma execLoop_extractor (r : pluginRegistry) (pc : pluginsChain)
    (keys : list string) (which : string) (body : bytes)
    (i : Z) (rest : list Z) (st : ChainState)
    (plugin : BBRPlugin) (Extract : ExtractFunc) (headers : gomap string) :
  pluginsChain_GetPlugin pc i r = Val plugin →
  Type_ (plugin_TypedName plugin) = "MetadataExtractor" →
  as_MetadataExtractor plugin = Some Extract →
  Extract body keys (pluginsChain_GetSharedMemory pc which) = (headers, None) →
  execLoop r pc keys which body (i :: rest) st
  = execLoop r pc keys which body rest
      {| allHeaders := allHeaders st ∪ default ∅ headers;
         mutatedBodyBytes := mutatedBodyBytes st |}.
Proof.
  intros Hg Ht Ha He. simpl. rewrite Hg, Ht, Ha, He. simpl.
  by rewrite merge_into_union.
Qed.

(** One iteration on a model selector that returns an empty body and no
    error. *)
Lemma execLoop_empty_mutated_body (r : pluginRegistry) (pc : pluginsChain)
    (keys : list string) (which : string) (body : bytes)
    (i : Z) (rest : list Z) (st : ChainState)
    (plugin : BBRPlugin) (Select : SelectFunc) (headers : gomap string)
    (mutated : bytes) :
  pluginsChain_GetPlugin pc i r = Val plugin →
  Type_ (plugin_TypedName plugin) = "ModelSelector" →
  as_ModelSelector plugin = Some Select →
  Select body (pluginsChain_GetSharedMemory pc which)
  = (headers, mutated, None) →
  length mutated = 0%nat →
  execLoop r pc keys which body (i :: rest) st
  = ([], Return (Fail (ErrEmptyMutatedBody "ModelSelector"
                         (Name (plugin_TypedName plugin))))).
Proof.
  intros Hg Ht Ha Hs Hl. simpl. rewrite Hg, Ht, Ha, Hs, Hl. reflexivity.
Qed.

Lemma range_split (n i : nat) :
  (i < n)%nat →
  range (Z.of_nat n)
  = (range (Z.of_nat i)
     ++ Z.of_nat i :: (Z.of_nat <$> seq (S i) (n - S i)))%list.
Proof.
  intros Hi. unfold range. rewrite !Nat2Z.id.
  replace n with (i + S (n - S i))%nat at 1 by lia.
  rewrite seq_app, fmap_app. simpl. reflexivity.
Qed.

Lemma GetPlugin_in_range (pc : pluginsChain) (i : Z) (r : pluginRegistry)
    (plugin : BBRPlugin) :
  pluginsChain_GetPlugin pc i r = Val plugin →
  0 ≤ i < pluginsChain_Length pc.
Proof.
  unfold pluginsChain_GetPlugin.
  destruct (i <? 0) eqn:H0; [done|].
  destruct (i >=? pluginsChain_Length pc) eqn:H1; [done|].
  intros _. apply Z.ltb_ge in H0. rewrite Z.geb_leb in H1.
  apply Z.leb_gt in H1. lia.
Qed.

(** C6.  Let the handler reach entry [i] of the chain (the first loop
    returned and the entries before [i] ran without aborting), let that
    entry be a model selector, and let its [Select] return an empty
    mutated body with a nil error.  Then, wherever [i] lies in the chain,
    [HandleRequestBody] returns the error "empty mutated body bytes slice
    returned from plugin ModelSelector/<name>" and a nil slice of
    responses. *)
Theorem HandleRequestBody_empty_mutated_body `{JSONCodec}
    (s : Server) (body : bytes) (pc : pluginsChain) (which : string)
    (ev1 ev2 : list Event) (i : nat) (st : ChainState)
    (plugin : BBRPlugin) (Select : SelectFunc)
    (headers : gomap string) (mutated : bytes) :
  parseLoop s body (requestChain s)
    (range (pluginsChain_Length (requestChain s))) = (pc, ev1, Val which) →
  execLoop (registry s) pc (metaDataKeys s) which body
    (range (Z.of_nat i)) (initial_state body) = (ev2, Return (Val st)) →
  pluginsChain_GetPlugin pc (Z.of_nat i) (registry s) = Val plugin →
  Type_ (plugin_TypedName plugin) = "ModelSelector" →
  as_ModelSelector plugin = Some Select →
  Select body (pluginsChain_GetSharedMemory pc which)
  = (headers, mutated, None) →
  length mutated = 0%nat →
  returned (HandleRequestBody s body)
  = Return (Fail (ErrEmptyMutatedBody "ModelSelector"
                    (Name (plugin_TypedName plugin)))).
Proof.
  intros Hparse Hprefix Hget Hty Hsel Hcall Hlen.
  unfold HandleRequestBody. rewrite Hparse.
  pose proof (GetPlugin_in_range _ _ _ _ Hget) as Hi.
  unfold pluginsChain_Length in Hi.
  unfold pluginsChain_Length at 1.
  rewrite (range_split (length (pc_plugins pc)) i) by lia.
  rewrite execLoop_app, Hprefix.
  rewrite (execLoop_empty_mutated_body _ _ _ _ _ _ _ _ _ _ _ _
             Hget Hty Hsel Hcall Hlen).
  reflexivity.
Qed.

Lemma HandleRequestBody_empty_mutated_body_witness :
  returned (HandleRequestBody (H := foo_hi_codec) empty_selector_server
              body_foo_hi)
  = Return (Fail (ErrEmptyMutatedBody "ModelSelector" "empty")).
Proof.
  apply (HandleRequestBody_empty_mutated_body (H := foo_hi_codec)
           empty_selector_server body_foo_hi
           (requestChain empty_selector_server) "" [] [] 1
           {| allHeaders := {[ ModelHeader := "foo" ]};
              mutatedBodyBytes := body_foo_hi |}
           emptySelector (λ _ _, (Some ∅, [], None)) (Some ∅) []);
    reflexivity.
Defined.

(** ** The full-parse decision *)

Section ParseLoop.
Context `{JSONCodec}.
Variables (s : Server) (body : bytes).

Lemma parseLoop_events (pc : pluginsChain) (idxs : list Z) :
  List.filter is_parse (parseLoop s body pc idxs).1.2
  = (if existsb (index_requires_full_parsing (registry s) pc) idxs then
       if Contains (endpoint s) "/v1/completions"
       then [EvParseCompletion body]
       else if Contains (endpoint s) "/v1/chat/completions"
       then [EvParseChatCompletion body]
       else []
     else [])
  ∧ (length (List.filter is_full_parsing_report
               (parseLoop s body pc idxs).1.2) ≤ 1)%nat.
Proof.
  induction idxs as [|i rest [IH1 IH2]]; simpl; [split; [done|lia]|].
  unfold index_requires_full_parsing at 1.
  destruct (pluginsChain_GetPlugin pc i (registry s)) as [plugin|e].
  - destruct (RequiresFullParsing plugin); simpl; [|done].
    destruct (Contains (endpoint s) "/v1/completions").
    { destruct (pluginsChain_ParseCompletion pc body) as [pc' [v|e]];
        simpl; split; (done || lia). }
    destruct (Contains (endpoint s) "/v1/chat/completions").
    { destruct (pluginsChain_ParseChatCompletion pc body) as [pc' [v|e]];
        simpl; split; (done || lia). }
    simpl; split; (done || lia).
  - simpl. destruct (parseLoop s body pc rest) as [[pc' ev] res]. done.
Qed.

(** The first loop never changes the list of type keys. *)
Lemma parseLoop_plugins (pc : pluginsChain) (idxs : list Z) :
  pc_plugins (parseLoop s body pc idxs).1.1 = pc_plugins pc.
Proof.
  induction idxs as [|i rest IH]; simpl; [done|].
  destruct (pluginsChain_GetPlugin pc i (registry s)) as [plugin|e].
  - destruct (RequiresFullParsing plugin); [|done].
    unfold pluginsChain_ParseCompletion, pluginsChain_ParseChatCompletion.
    destruct (Contains (endpoint s) "/v1/completions").
    { by destruct (CompletionNewParams_UnmarshalJSON _ _) as [p [e|]]. }
    destruct (Contains (endpoint s) "/v1/chat/completions"); [|done].
    by destruct (ChatCompletionNewParams_UnmarshalJSON _ _) as [p [e|]].
  - by destruct (parseLoop s body pc rest) as [[pc' ev] res].
Qed.

Lemma req_lookup (pc : pluginsChain) (n : nat) :
  index_requires_full_parsing (registry s) pc (Z.of_nat n)
  = from_option (requires_full_parsing (registry s)) false
      (pc_plugins pc !! n).
Proof.
  unfold index_requires_full_parsing, pluginsChain_GetPlugin, pluginsChain_Length,
    requires_full_parsing, pluginRegistry_GetPlugins.
  assert ((Z.of_nat n <? 0) = false) as -> by (apply Z.ltb_ge; lia).
  rewrite Nat2Z.id. simpl.
  destruct (Z.of_nat n >=? Z.of_nat (length (pc_plugins pc))) eqn:Hge.
  - rewrite Z.geb_leb in Hge. apply Z.leb_le in Hge.
    rewrite (lookup_ge_None_2 (pc_plugins pc) n) by lia. done.
  - destruct (pc_plugins pc !! n) as [k|]; [|done]. simpl.
    by destruct (plugins (registry s) !! k).
Qed.

Lemma existsb_req_range (pc : pluginsChain) :
  existsb (index_requires_full_parsing (registry s) pc) (range (pluginsChain_Length pc))
  = existsb (requires_full_parsing (registry s)) (pc_plugins pc).
Proof.
  apply eq_true_iff_eq. rewrite !existsb_exists. unfold range,
    pluginsChain_Length. rewrite Nat2Z.id. split.
  - intros (i & Hin & Hi). apply list_elem_of_In, list_elem_of_fmap in Hin.
    destruct Hin as (n & -> & Hn). rewrite req_lookup in Hi.
    destruct (pc_plugins pc !! n) as [k|] eqn:Hk; [|done].
    exists k. split; [|done].
    apply list_elem_of_In, list_elem_of_lookup. eauto.
  - intros (k & Hin & Hk). apply list_elem_of_In, list_elem_of_lookup in Hin.
    destruct Hin as (n & Hn). exists (Z.of_nat n). split.
    + apply list_elem_of_In, list_elem_of_fmap. exists n. split; [done|].
      apply list_elem_of_In, in_seq. pose proof (lookup_lt_Some _ _ _ Hn). lia.
    + rewrite req_lookup, Hn. done.
Qed.
End ParseLoop.

(** The second loop calls no parse routine and reports no plugin as
    requiring full parsing. *)
Lemma execLoop_events (r : pluginRegistry) (pc : pluginsChain)
    (keys : list string) (which : string) (body : bytes)
    (idxs : list Z) (st : ChainState) :
  List.filter is_parse (execLoop r pc keys which body idxs st).1 = []
  ∧ List.filter is_full_parsing_report
      (execLoop r pc keys which body idxs st).1 = [].
Proof.
  revert st. induction idxs as [|i rest IH]; intros st; simpl; [done|].
  destruct (pluginsChain_GetPlugin pc i r) as [plugin|e]; [|done].
  destruct (String.eqb _ "MetadataExtractor").
  { destruct (as_MetadataExtractor plugin) as [Extract|]; [|apply IH].
    destruct (Extract _ _ _) as [headers [e|]]; [done|apply IH]. }
  destruct (String.eqb _ "ModelSelector").
  { destruct (as_ModelSelector plugin) as [Select|]; [|apply IH].
    destruct (Select _ _) as [[headers mutated] [e|]]; [done|].
    destruct (length mutated =? 0)%nat; [done|apply IH]. }
  specialize (IH st).
  by destruct (execLoop r pc keys which body rest st) as [ev o].
Qed.

Lemma respond_events (s : Server) (body : bytes) (st : ChainState) :
  List.filter is_parse (respond s body st).1 = []
  ∧ List.filter is_full_parsing_report (respond s body st).1 = [].
Proof.
  unfold respond. destruct (String.eqb _ ""), (streaming s); done.
Qed.

(** The events of one call: those of the first loop, then events that are
    neither parse calls nor full-parsing reports. *)
Lemma HandleRequestBody_events `{JSONCodec} (s : Server) (body : bytes) :
  ∃ ev,
    events (HandleRequestBody s body)
    = ((parseLoop s body (requestChain s)
          (range (pluginsChain_Length (requestChain s)))).1.2 ++ ev)%list
    ∧ List.filter is_parse ev = []
    ∧ List.filter is_full_parsing_report ev = [].
Proof.
  unfold HandleRequestBody.
  destruct (parseLoop s body (requestChain s) _) as [[pc ev1] [which|e]];
    simpl.
  2:{ exists []. by rewrite app_nil_r. }
  pose proof (execLoop_events (registry s) pc (metaDataKeys s) which body
                (range (pluginsChain_Length pc)) (initial_state body))
    as [E1 E2].
  destruct (execLoop _ _ _ _ _ _ _) as [ev2 [[st|e]|p]]; simpl in *;
    try (exists ev2; done).
  pose proof (respond_events s body st) as [R1 R2].
  destruct (respond s body st) as [ev3 ret]; simpl in *.
  exists (ev2 ++ ev3)%list. rewrite !List.filter_app, E1, E2, R1, R2. done.
Qed.

(** C8.  In one call of [HandleRequestBody] the parse routines run as the
    specification says: not at all when no plugin of the chain requires
    full parsing, and otherwise once, [ParseCompletion] or
    [ParseChatCompletion] by the endpoint path (no call if the path names
    neither).  So they run at most once, and the scan reports at most one
    plugin as requiring full parsing, however many declare it. *)
Theorem HandleRequestBody_parses_at_most_once `{JSONCodec}
    (s : Server) (requestBodyBytes : bytes) :
  List.filter is_parse (events (HandleRequestBody s requestBodyBytes))
  = spec_parse_calls s requestBodyBytes
  ∧ (length (List.filter is_parse
               (events (HandleRequestBody s requestBodyBytes))) ≤ 1)%nat
  ∧ (length (List.filter is_full_parsing_report
               (events (HandleRequestBody s requestBodyBytes))) ≤ 1)%nat.
Proof.
  destruct (HandleRequestBody_events s requestBodyBytes) as (ev & -> & E1 & E2).
  rewrite !List.filter_app, E1, E2, !app_nil_r.
  destruct (parseLoop_events s requestBodyBytes (requestChain s)
              (range (pluginsChain_Length (requestChain s)))) as [P1 P2].
  rewrite existsb_req_range in P1. rewrite P1. unfold spec_parse_calls.
  repeat split; [|done].
  destruct (existsb _ _); [|simpl; lia].
  destruct (Contains _ "/v1/completions"); [simpl; lia|].
  destruct (Contains _ "/v1/chat/completions"); simpl; lia.
Qed.

(** ** BodyFieldToHeaderPlugin *)

Section BodyFieldToHeaderFacts.
Context {any : Type}.
Context (assert_string : any → option string).
Context (Sprintf_v : any → string).

(** What the loop of [Execute] leaves under header name [h]: the value
    of the body field the configuration maps [h] to, if both exist;
    otherwise what was there before. *)
Lemma Execute_fold_lookup (body : gomap any) (m acc : gmap string string)
    (h : string) :
  map_fold (Execute_entry assert_string Sprintf_v body) acc m !! h
  = match m !! h with
    | Some fieldName =>
        match gomap_lookup body fieldName with
        | Some fieldValue => Some (headerValue assert_string Sprintf_v fieldValue)
        | None => acc !! h
        end
    | None => acc !! h
    end.
Proof.
  revert h.
  apply (map_fold_weak_ind
           (λ (r : gmap string string) (m : gmap string string),
              ∀ h, r !! h
                   = match m !! h with
                     | Some fieldName =>
                         match gomap_lookup body fieldName with
                         | Some fieldValue =>
                             Some (headerValue assert_string Sprintf_v
                                     fieldValue)
                         | None => acc !! h
                         end
                     | None => acc !! h
                     end)).
  - intros h. by rewrite lookup_empty.
  - intros i x m' r Hi IH h. unfold Execute_entry.
    destruct (decide (i = h)) as [->|Hne].
    + rewrite lookup_insert_eq.
      destruct (gomap_lookup body x) as [v|].
      * by rewrite lookup_insert_eq.
      * by rewrite IH, Hi.
    + rewrite (lookup_insert_ne m') by done.
      destruct (gomap_lookup body x) as [v|]; [|apply IH].
      rewrite lookup_insert_ne by done. apply IH.
Qed.

(** C10.  [Execute] returns a nil error and the body it was given.  The
    headers it returns are a new map: under a name [h] it holds the value
    of the body field that the configured header-to-field mapping assigns
    to [h], when the mapping has [h] and the body has that field, and
    nothing otherwise.  The incoming headers do not enter the result. *)
Theorem BodyFieldToHeaderPlugin_Execute_fresh_headers
    (p : BodyFieldToHeaderPlugin) (headers : gomap string)
    (body : gomap any) :
  ∃ updatedHeaders : gmap string string,
    BodyFieldToHeaderPlugin_Execute assert_string Sprintf_v p headers body
    = (Some updatedHeaders, body, None)
    ∧ (∀ h, updatedHeaders !! h
            = fieldName ← gomap_lookup (headerToFieldMap p) h;
              headerValue assert_string Sprintf_v
                <$> gomap_lookup body fieldName)
    ∧ (∀ headers', BodyFieldToHeaderPlugin_Execute assert_string Sprintf_v
                     p headers' body
                   = (Some updatedHeaders, body, None)).
Proof.
  eexists. split; [reflexivity|]. split; [|done].
  intros h. rewrite Execute_fold_lookup, lookup_empty.
  rewrite gomap_lookup_default.
  destruct (default ∅ (headerToFieldMap p) !! h) as [f|]; simpl; [|done].
  by destruct (gomap_lookup body f).
Qed.
End BodyFieldToHeaderFacts.

(** ** Further facts about the handler *)

(** When no plugin of the chain requires full parsing, the call leaves the
    chain, and so its shared shapes, as they were. *)
Lemma HandleRequestBody_cache_untouched `{JSONCodec} (s : Server)
    (body : bytes) :
  existsb (requires_full_parsing (registry s)) (pc_plugins (requestChain s))
  = false →
  chain_after (HandleRequestBody s body) = requestChain s.
Proof.
  intros Hno. rewrite <- existsb_req_range in Hno.
  assert (∀ idxs,
            existsb (index_requires_full_parsing (registry s) (requestChain s))
              idxs = false →
            (parseLoop s body (requestChain s) idxs).1.1 = requestChain s
            ∧ (parseLoop s body (requestChain s) idxs).2 = Val "") as Hloop.
  { induction idxs as [|i rest IH]; simpl; [done|].
    unfold index_requires_full_parsing at 1.
    destruct (pluginsChain_GetPlugin (requestChain s) i (registry s))
      as [plugin|e]; simpl.
    - destruct (RequiresFullParsing plugin); [done|]. apply IH.
    - intros Hr. specialize (IH Hr).
      by destruct (parseLoop s body (requestChain s) rest) as [[pc' ev] res]. }
  specialize (Hloop _ Hno). unfold HandleRequestBody.
  destruct (parseLoop s body (requestChain s) _) as [[pc ev1] res].
  simpl in Hloop. destruct Hloop as [-> ->].
  destruct (execLoop _ _ _ _ _ _ _) as [ev2 [[st|e]|p]]; try done.
  by destruct (respond s body st).
Qed.

(** The second loop cannot get past an index that does not resolve: it
    never returns a state when its indices contain one. *)
Lemma execLoop_unresolved_no_state (r : pluginRegistry) (pc : pluginsChain)
    (keys : list string) (which : string) (body : bytes)
    (idxs : list Z) (i : Z) (e : error) :
  i ∈ idxs →
  pluginsChain_GetPlugin pc i r = Fail e →
  ∀ st ev st', execLoop r pc keys which body idxs st ≠ (ev, Return (Val st')).
Proof.
  intros Hin Hfail. induction idxs as [|j rest IH]; [by inversion Hin|].
  intros st ev st'. simpl.
  destruct (decide (i = j)) as [<-|Hne]; [by rewrite Hfail|].
  assert (i ∈ rest) as Hrest by (by apply elem_of_cons in Hin as [?|?]).
  specialize (IH Hrest).
  destruct (pluginsChain_GetPlugin pc j r) as [plugin|e']; [|done].
  destruct (String.eqb _ "MetadataExtractor").
  { destruct (as_MetadataExtractor plugin) as [Extract|]; [|apply IH].
    destruct (Extract _ _ _) as [headers [e'|]]; [done|apply IH]. }
  destruct (String.eqb _ "ModelSelector").
  { destruct (as_ModelSelector plugin) as [Select|]; [|apply IH].
    destruct (Select _ _) as [[headers mutated] [e'|]]; [done|].
    destruct (length mutated =? 0)%nat; [done|apply IH]. }
  specialize (IH st).
  destruct (execLoop r pc keys which body rest st) as [ev0 o].
  intros [= <- ->]. by eapply IH.
Qed.

(** A chain entry that does not resolve is never skipped: whatever the
    rest of the chain, the call returns no responses. *)
Lemma HandleRequestBody_unresolved_no_responses `{JSONCodec} (s : Server)
    (body : bytes) (i : nat) (typeKey : string) :
  pc_plugins (requestChain s) !! i = Some typeKey →
  plugins (registry s) !! typeKey = None →
  ∀ ret, returned (HandleRequestBody s body) ≠ Return (Val ret).
Proof.
  intros Hi Hk ret. unfold HandleRequestBody.
  pose proof (parseLoop_plugins s body (requestChain s)
                (range (pluginsChain_Length (requestChain s)))) as Hpl.
  destruct (parseLoop s body (requestChain s) _) as [[pc ev1] [which|e]];
    simpl in *; [|done].
  assert (pluginsChain_GetPlugin pc (Z.of_nat i) (registry s)
          = Fail (ErrIndexNotInRegistry (Z.of_nat i))) as Hfail.
  { unfold pluginsChain_GetPlugin, pluginsChain_Length. rewrite Hpl.
    pose proof (lookup_lt_Some _ _ _ Hi).
    assert ((Z.of_nat i <? 0) = false) as -> by (apply Z.ltb_ge; lia).
    assert ((Z.of_nat i >=? Z.of_nat (length (pc_plugins (requestChain s))))
            = false) as ->.
    { rewrite Z.geb_leb. apply Z.leb_gt. lia. }
    simpl. rewrite Nat2Z.id, Hi. unfold pluginRegistry_GetPlugins.
    by rewrite Hk. }
  assert (Z.of_nat i ∈ range (pluginsChain_Length pc)) as Hin.
  { unfold range, pluginsChain_Length. rewrite Hpl, Nat2Z.id.
    apply list_elem_of_fmap. exists i. split; [done|].
    apply list_elem_of_In, in_seq. pose proof (lookup_lt_Some _ _ _ Hi). lia. }
  pose proof (execLoop_unresolved_no_state (registry s) pc (metaDataKeys s)
                which body _ _ _ Hin Hfail (initial_state body)) as Hno.
  destruct (execLoop _ _ _ _ _ _ _) as [ev2 [[st|e]|p]]; try done.
  by destruct (Hno ev2 st).
Qed.

(** With the shared shape populated the simple model extractor returns
    its header under the key "model", not under "X-Gateway-Model-Name":
    the handler finds no model and answers with the pass-through
    response. *)
Lemma HandleRequestBody_model_key_is_not_model_header :
  returned (HandleRequestBody (H := foo_hi_codec)
              (full_parsing_server (H := foo_hi_codec)) body_foo_hi)
  = Return (Val [ProcessingResponse_RequestBody None])
  ∧ simpleModelExtractor_Extract (H := foo_hi_codec)
      {| typedName := {| Type_ := "MetadataExtractor";
                         Name := "simple-model-extractor" |};
         requiresFullParsing := true |}
      body_foo_hi ["model"] (SharedCompletion {| completion_Model := "foo" |})
    = (Some {[ "model" := "foo" ]}, None).
Proof. split; reflexivity. Qed.

(** Two metadata extractors in a row, whatever they are: the accumulator
    ends as the union that prefers what was there, then the first
    extractor's headers, then the second's.  A header the first one set
    is therefore never replaced by the second. *)
Lemma execLoop_two_extractors (r : pluginRegistry) (pc : pluginsChain)
    (keys : list string) (which : string) (body : bytes) (i j : Z)
    (st : ChainState) (p1 p2 : BBRPlugin) (E1 E2 : ExtractFunc)
    (h1 h2 : gomap string) :
  pluginsChain_GetPlugin pc i r = Val p1 →
  pluginsChain_GetPlugin pc j r = Val p2 →
  Type_ (plugin_TypedName p1) = "MetadataExtractor" →
  Type_ (plugin_TypedName p2) = "MetadataExtractor" →
  as_MetadataExtractor p1 = Some E1 →
  as_MetadataExtractor p2 = Some E2 →
  E1 body keys (pluginsChain_GetSharedMemory pc which) = (h1, None) →
  E2 body keys (pluginsChain_GetSharedMemory pc which) = (h2, None) →
  execLoop r pc keys which body [i; j] st
  = ([], Return (Val {| allHeaders :=
                          allHeaders st ∪ default ∅ h1 ∪ default ∅ h2;
                        mutatedBodyBytes := mutatedBodyBytes st |}))
  ∧ ∀ k v, gomap_lookup h1 k = Some v → allHeaders st !! k = None →
           (allHeaders st ∪ default ∅ h1 ∪ default ∅ h2) !! k = Some v.
Proof.
  intros G1 G2 T1 T2 A1 A2 R1 R2. split.
  - rewrite (execLoop_extractor _ _ _ _ _ _ _ _ _ _ _ G1 T1 A1 R1).
    by rewrite (execLoop_extractor _ _ _ _ _ _ _ _ _ _ _ G2 T2 A2 R2).
  - intros k v Hk Hst. rewrite gomap_lookup_default in Hk.
    apply lookup_union_Some_l. rewrite lookup_union, Hst, Hk. done.
Qed.

(* ===================================================================== *)
(** * Further properties of the code *)
(* ===================================================================== *)

Local Open Scope list_scope.

(** ** Registry operations *)

Lemma slices_Contains_nil_length (l : list string) (x : string) :
  (length l =? 0)%nat || negb (slices_Contains l x) = negb (slices_Contains l x).
Proof. by destruct l. Qed.

(** X1.  [RegisterPlugin] returns no error exactly when the (type, name)
    pair of the instance is listed in [SupportedInterfaces] and a factory
    is registered for its type; whenever it returns an error the registry
    is as it was. *)
Theorem RegisterPlugin_succeeds_iff (r : pluginRegistry) (plugin : BBRPlugin) :
  ((pluginRegistry_RegisterPlugin r plugin).2 = None
   ↔ supported_pair (Type_ (plugin_TypedName plugin))
                    (Name (plugin_TypedName plugin)) = true
     ∧ pluginRegistry_ContainsFactory r (Type_ (plugin_TypedName plugin))
       = true)
  ∧ ((pluginRegistry_RegisterPlugin r plugin).2 ≠ None →
     (pluginRegistry_RegisterPlugin r plugin).1 = r).
Proof.
  unfold pluginRegistry_RegisterPlugin, supported_pair,
    pluginRegistry_ContainsFactory.
  destruct (SupportedInterfaces !! Type_ (plugin_TypedName plugin))
    as [impls|]; simpl.
  2:{ split; [|done]. split; [done|]. by intros [? _]. }
  rewrite slices_Contains_nil_length.
  destruct (slices_Contains impls (Name (plugin_TypedName plugin))); simpl.
  2:{ split; [|done]. split; [done|]. by intros [? _]. }
  destruct (pluginsFactory r !! Type_ (plugin_TypedName plugin)); simpl.
  - split; [|done]. done.
  - split; [|done]. split; [done|]. by intros [_ ?].
Qed.

Lemma RegisterPlugin_succeeds_iff_witness :
  (pluginRegistry_RegisterPlugin NewPluginRegistry (defaultNameFactory tt)).1
  = NewPluginRegistry.
Proof.
  apply (proj2 (RegisterPlugin_succeeds_iff NewPluginRegistry
                  (defaultNameFactory tt))).
  vm_compute. discriminate.
Defined.

(** X2.  A successful [RegisterPlugin] stores the instance under its type
    key, replacing what was there: [GetPlugin] of that type then returns
    the instance, every other type resolves as before, and the factories
    are untouched. *)
Theorem RegisterPlugin_stores_by_type (r r' : pluginRegistry)
    (plugin : BBRPlugin) :
  pluginRegistry_RegisterPlugin r plugin = (r', None) →
  pluginRegistry_GetPlugin r' (Type_ (plugin_TypedName plugin)) = Val plugin
  ∧ (∀ k, k ≠ Type_ (plugin_TypedName plugin) →
          pluginRegistry_GetPlugin r' k = pluginRegistry_GetPlugin r k)
  ∧ pluginsFactory r' = pluginsFactory r.
Proof.
  unfold pluginRegistry_RegisterPlugin, pluginRegistry_GetPlugin.
  destruct (SupportedInterfaces !! _) as [impls|]; [|done].
  destruct (_ || _); [done|].
  destruct (pluginsFactory r !! _); [|done].
  intros [= <-]. simpl. rewrite lookup_insert_eq. repeat split.
  intros k Hk. by rewrite lookup_insert_ne.
Qed.

Lemma RegisterPlugin_stores_by_type_witness :
  pluginRegistry_GetPlugin
    (pluginRegistry_RegisterPlugin populated_registry
       (guardRail "pid-disclosure-blocker")).1 "GuardRail"
  = Val (guardRail "pid-disclosure-blocker").
Proof.
  apply (RegisterPlugin_stores_by_type populated_registry
           (pluginRegistry_RegisterPlugin populated_registry
              (guardRail "pid-disclosure-blocker")).1
           (guardRail "pid-disclosure-blocker")).
  reflexivity.
Defined.

(** X3.  The registration path of [processPlugin]: once [RegisterFactory]
    has accepted a factory for a type, [CreatePlugin] yields the
    factory's product; if that product carries the type and a listed
    name, [RegisterPlugin] accepts it and [GetPlugin] and
    [ContainsPlugin] then find it. *)
Theorem register_create_register_get (r : pluginRegistry) (typeKey : string)
    (factory : PluginFactoryFunc) :
  Type_ (plugin_TypedName (factory tt)) = typeKey →
  supported_pair typeKey (Name (plugin_TypedName (factory tt))) = true →
  let r1 := (pluginRegistry_RegisterFactory r typeKey factory).1 in
  let r2 := (pluginRegistry_RegisterPlugin r1 (factory tt)).1 in
  (pluginRegistry_RegisterFactory r typeKey factory).2 = None
  ∧ pluginRegistry_CreatePlugin r1 typeKey = Val (factory tt)
  ∧ (pluginRegistry_RegisterPlugin r1 (factory tt)).2 = None
  ∧ pluginRegistry_GetPlugin r2 typeKey = Val (factory tt)
  ∧ pluginRegistry_ContainsPlugin r2 typeKey = true.
Proof.
  intros Hty Hsup.
  unfold supported_pair in Hsup.
  unfold pluginRegistry_RegisterFactory, pluginRegistry_CreatePlugin,
    pluginRegistry_RegisterPlugin, pluginRegistry_GetPlugin,
    pluginRegistry_ContainsPlugin.
  rewrite Hty.
  destruct (SupportedInterfaces !! typeKey) as [impls|]; [|done]. simpl.
  rewrite slices_Contains_nil_length, Hsup. simpl.
  rewrite !lookup_insert_eq. simpl. by rewrite !lookup_insert_eq.
Qed.

Lemma register_create_register_get_witness :
  pluginRegistry_GetPlugin
    (pluginRegistry_RegisterPlugin
       (pluginRegistry_RegisterFactory NewPluginRegistry "MetadataExtractor"
          listedFactory).1 (listedFactory tt)).1 "MetadataExtractor"
  = Val (listedFactory tt).
Proof.
  apply (register_create_register_get NewPluginRegistry "MetadataExtractor"
           listedFactory); reflexivity.
Defined.

(** X4.  [RegisterFactory] for a supported type stores the factory,
    replacing an earlier one: [GetFactory] and [CreatePlugin] then use the
    new factory; the factories of other types and all instances stay. *)
Theorem RegisterFactory_overwrites (r : pluginRegistry) (typeKey : string)
    (factory : PluginFactoryFunc) :
  is_Some (SupportedInterfaces !! typeKey) →
  let r' := (pluginRegistry_RegisterFactory r typeKey factory).1 in
  (pluginRegistry_RegisterFactory r typeKey factory).2 = None
  ∧ pluginRegistry_GetFactory r' typeKey = Val factory
  ∧ pluginRegistry_CreatePlugin r' typeKey = Val (factory tt)
  ∧ (∀ k, k ≠ typeKey →
          pluginRegistry_GetFactory r' k = pluginRegistry_GetFactory r k)
  ∧ plugins r' = plugins r.
Proof.
  intros [impls Hs].
  unfold pluginRegistry_RegisterFactory, pluginRegistry_GetFactory,
    pluginRegistry_CreatePlugin.
  rewrite Hs. simpl. rewrite !lookup_insert_eq. repeat split.
  intros k Hk. by rewrite lookup_insert_ne.
Qed.

Lemma RegisterFactory_overwrites_witness :
  pluginRegistry_CreatePlugin
    (pluginRegistry_RegisterFactory populated_registry "MetadataExtractor"
       defaultNameFactory).1 "MetadataExtractor"
  = Val (defaultNameFactory tt).
Proof.
  apply (RegisterFactory_overwrites populated_registry "MetadataExtractor"
           defaultNameFactory).
  vm_compute. eauto.
Defined.

(** X5.  [UnregisterPlugin] of a registered type removes that instance and
    nothing else: the type no longer resolves, a second call fails with
    "not found", other types and the factories are as before.  On a type
    that is not registered it fails and changes nothing. *)
Theorem UnregisterPlugin_removes_one (r : pluginRegistry) (typeKey : string) :
  let r' := (pluginRegistry_UnregisterPlugin r typeKey).1 in
  (pluginRegistry_ContainsPlugin r typeKey = true →
     (pluginRegistry_UnregisterPlugin r typeKey).2 = None
     ∧ pluginRegistry_GetPlugin r' typeKey = Fail (ErrTypeNotFound typeKey)
     ∧ pluginRegistry_UnregisterPlugin r' typeKey
       = (r', Some (ErrPluginNotFound typeKey))
     ∧ (∀ k, k ≠ typeKey →
             pluginRegistry_GetPlugin r' k = pluginRegistry_GetPlugin r k)
     ∧ pluginsFactory r' = pluginsFactory r)
  ∧ (pluginRegistry_ContainsPlugin r typeKey = false →
     pluginRegistry_UnregisterPlugin r typeKey
     = (r, Some (ErrPluginNotFound typeKey))).
Proof.
  unfold pluginRegistry_UnregisterPlugin, pluginRegistry_ContainsPlugin,
    pluginRegistry_GetPlugin.
  destruct (plugins r !! typeKey) as [p|] eqn:Hp; simpl.
  - split; [|done]. intros _. rewrite !lookup_delete_eq. repeat split.
    intros k Hk. by rewrite lookup_delete_ne.
  - split; [done|]. done.
Qed.

Lemma UnregisterPlugin_removes_one_witness :
  pluginRegistry_GetPlugin
    (pluginRegistry_UnregisterPlugin populated_registry "GuardRail").1
    "GuardRail"
  = Fail (ErrTypeNotFound "GuardRail")
  ∧ pluginRegistry_UnregisterPlugin NewPluginRegistry "GuardRail"
    = (NewPluginRegistry, Some (ErrPluginNotFound "GuardRail")).
Proof.
  split.
  - apply (proj1 (UnregisterPlugin_removes_one populated_registry "GuardRail")).
    reflexivity.
  - apply (proj2 (UnregisterPlugin_removes_one NewPluginRegistry "GuardRail")).
    reflexivity.
Defined.

(** X6.  [UnregisterFactory] removes the factory of a type without
    touching the instances: an instance registered for that type still
    resolves, but [CreatePlugin] and a new [RegisterPlugin] for the type
    fail until a factory is registered again. *)
Theorem UnregisterFactory_keeps_instances (r : pluginRegistry)
    (plugin : BBRPlugin) :
  pluginRegistry_ContainsFactory r (Type_ (plugin_TypedName plugin)) = true →
  supported_pair (Type_ (plugin_TypedName plugin))
                 (Name (plugin_TypedName plugin)) = true →
  let ty := Type_ (plugin_TypedName plugin) in
  let r' := (pluginRegistry_UnregisterFactory r ty).1 in
  (pluginRegistry_UnregisterFactory r ty).2 = None
  ∧ plugins r' = plugins r
  ∧ pluginRegistry_CreatePlugin r' ty = Fail (ErrNotRegistered ty)
  ∧ pluginRegistry_RegisterPlugin r' plugin
    = (r', Some (ErrNoFactoryRegistered ty)).
Proof.
  unfold pluginRegistry_ContainsFactory, pluginRegistry_UnregisterFactory,
    pluginRegistry_CreatePlugin, pluginRegistry_RegisterPlugin, supported_pair.
  intros Hf Hs.
  destruct (pluginsFactory r !! Type_ (plugin_TypedName plugin)) as [f|];
    [|done]. simpl.
  destruct (SupportedInterfaces !! Type_ (plugin_TypedName plugin))
    as [impls|]; [|done].
  rewrite slices_Contains_nil_length, Hs, !lookup_delete_eq. done.
Qed.

Lemma UnregisterFactory_keeps_instances_witness :
  pluginRegistry_RegisterPlugin
    (pluginRegistry_UnregisterFactory populated_registry "MetadataExtractor").1
    listedExtractor
  = ((pluginRegistry_UnregisterFactory populated_registry
        "MetadataExtractor").1,
     Some (ErrNoFactoryRegistered "MetadataExtractor")).
Proof.
  apply (UnregisterFactory_keeps_instances populated_registry listedExtractor);
    reflexivity.
Defined.

(** X7.  [ListPlugins] returns exactly the registered type keys: a key is
    in the list if and only if [ContainsPlugin] holds for it, no key is
    listed twice, and after [Clear] the list is empty and nothing
    resolves. *)
Theorem ListPlugins_lists_registered (r : pluginRegistry) :
  (∀ k, k ∈ pluginRegistry_ListPlugins r
        ↔ pluginRegistry_ContainsPlugin r k = true)
  ∧ NoDup (pluginRegistry_ListPlugins r)
  ∧ pluginRegistry_ListPlugins (pluginRegistry_Clear r) = []
  ∧ pluginRegistry_ListFactories (pluginRegistry_Clear r) = []
  ∧ (∀ k, pluginRegistry_GetPlugin (pluginRegistry_Clear r) k
          = Fail (ErrTypeNotFound k)).
Proof.
  unfold pluginRegistry_ListPlugins, pluginRegistry_ListFactories,
    pluginRegistry_ContainsPlugin, pluginRegistry_GetPlugin. repeat split.
  - intros Hk. apply list_elem_of_fmap in Hk as [[k' p] [-> Hk]].
    apply elem_of_map_to_list in Hk. simpl. by rewrite Hk.
  - intros Hk. destruct (plugins r !! k) as [p|] eqn:Hp; [|done].
    apply list_elem_of_fmap. exists (k, p). split; [done|].
    by apply elem_of_map_to_list.
  - apply NoDup_fst_map_to_list.
Qed.

(** ** Chain operations *)

Lemma Length_set_pc_plugins (pc : pluginsChain) (l : list string) :
  pluginsChain_Length (set_pc_plugins pc l) = Z.of_nat (length l).
Proof. reflexivity. Qed.

(** In range, [GetPlugin] is the registry lookup of the entry. *)
Lemma GetPlugin_lookup (pc : pluginsChain) (i : nat) (k : string)
    (r : pluginRegistry) :
  pc_plugins pc !! i = Some k →
  pluginsChain_GetPlugin pc (Z.of_nat i) r
  = match plugins r !! k with
    | Some plugin => Val plugin
    | None => Fail (ErrIndexNotInRegistry (Z.of_nat i))
    end.
Proof.
  intros Hk. pose proof (lookup_lt_Some _ _ _ Hk) as Hlt.
  unfold pluginsChain_GetPlugin, pluginsChain_Length, pluginRegistry_GetPlugins.
  assert ((Z.of_nat i <? 0) = false) as -> by (apply Z.ltb_ge; lia).
  assert ((Z.of_nat i >=? Z.of_nat (length (pc_plugins pc))) = false) as ->.
  { rewrite Z.geb_leb. apply Z.leb_gt. lia. }
  simpl. by rewrite Nat2Z.id, Hk.
Qed.

(** X8.  [GetPlugin] on a chain fails with "plugin index out of range"
    exactly for the indices outside [0, Length()); in particular for every
    index of an empty chain. *)
Theorem GetPlugin_out_of_range_iff (pc : pluginsChain) (index : Z)
    (r : pluginRegistry) :
  (pluginsChain_GetPlugin pc index r = Fail (ErrPluginIndexOutOfRange index)
   ↔ index < 0 ∨ pluginsChain_Length pc ≤ index)
  ∧ (pluginsChain_Length pc = 0 →
     pluginsChain_GetPlugin pc index r = Fail (ErrPluginIndexOutOfRange index)).
Proof.
  assert (index < 0 ∨ pluginsChain_Length pc ≤ index →
          pluginsChain_GetPlugin pc index r
          = Fail (ErrPluginIndexOutOfRange index)) as Hout.
  { intros Hi. unfold pluginsChain_GetPlugin.
    assert ((index <? 0) || (index >=? pluginsChain_Length pc) = true) as ->;
      [|done].
    rewrite Z.geb_leb. apply orb_true_iff. rewrite Z.ltb_lt, Z.leb_le. lia. }
  split; [split; [|done]|].
  - intros Hf.
    destruct (decide (index < 0 ∨ pluginsChain_Length pc ≤ index)) as [|Hin];
      [done|].
    exfalso. unfold pluginsChain_Length in Hin.
    destruct (pc_plugins pc !! Z.to_nat index) as [k|] eqn:Hk.
    + rewrite <- (Z2Nat.id index) in Hf by lia.
      rewrite (GetPlugin_lookup _ _ _ _ Hk) in Hf.
      by destruct (plugins r !! k).
    + apply lookup_ge_None in Hk. lia.
  - intros H0. apply Hout. unfold pluginsChain_Length in *. lia.
Qed.

Lemma GetPlugin_out_of_range_iff_witness :
  pluginsChain_GetPlugin NewPluginsChain 0 populated_registry
  = Fail (ErrPluginIndexOutOfRange 0).
Proof.
  apply (proj2 (GetPlugin_out_of_range_iff NewPluginsChain 0
                  populated_registry)).
  reflexivity.
Defined.

(** X9.  [AddPlugin] refuses a type key without a registered instance and
    leaves the chain as it was.  Otherwise it appends the key: the length
    grows by one, the new last index resolves to the registered instance,
    and the earlier indices resolve as before. *)
Theorem AddPlugin_appends (pc : pluginsChain) (typeKey : string)
    (r : pluginRegistry) :
  (pluginRegistry_ContainsPlugin r typeKey = false →
   pluginsChain_AddPlugin pc typeKey r = (pc, Some (ErrTypeNotFound typeKey)))
  ∧ (∀ plugin, plugins r !! typeKey = Some plugin →
       let pc' := (pluginsChain_AddPlugin pc typeKey r).1 in
       (pluginsChain_AddPlugin pc typeKey r).2 = None
       ∧ pluginsChain_Length pc' = pluginsChain_Length pc + 1
       ∧ pluginsChain_GetPlugin pc' (pluginsChain_Length pc) r = Val plugin
       ∧ (∀ i, 0 ≤ i < pluginsChain_Length pc →
               pluginsChain_GetPlugin pc' i r = pluginsChain_GetPlugin pc i r)).
Proof.
  unfold pluginsChain_AddPlugin, pluginRegistry_ContainsPlugin. split.
  - by intros ->.
  - intros plugin Hp. rewrite Hp. simpl. split; [done|].
    rewrite Length_set_pc_plugins, length_app. unfold pluginsChain_Length.
    simpl. split; [lia|]. split.
    + rewrite (GetPlugin_lookup _ (length (pc_plugins pc)) typeKey).
      * by rewrite Hp.
      * simpl. by rewrite lookup_app_r, Nat.sub_diag.
    + intros i Hi.
      destruct (pc_plugins pc !! Z.to_nat i) as [k|] eqn:Hk.
      * rewrite <- (Z2Nat.id i) by lia.
        rewrite (GetPlugin_lookup pc _ _ _ Hk).
        apply (GetPlugin_lookup (set_pc_plugins pc _)). simpl.
        by rewrite lookup_app_l by (by eapply lookup_lt_Some).
      * apply lookup_ge_None in Hk. lia.
Qed.

Lemma AddPlugin_appends_witness :
  pluginsChain_AddPlugin NewPluginsChain "ModelSelector" populated_registry
  = (NewPluginsChain, Some (ErrTypeNotFound "ModelSelector"))
  ∧ pluginsChain_GetPlugin
      (pluginsChain_AddPlugin populated_chain "GuardRail" populated_registry).1
      (pluginsChain_Length populated_chain) populated_registry
    = Val (guardRail "bad-words-blocker").
Proof.
  split.
  - apply (proj1 (AddPlugin_appends NewPluginsChain "ModelSelector"
                    populated_registry)). reflexivity.
  - apply (proj2 (AddPlugin_appends populated_chain "GuardRail"
                    populated_registry) (guardRail "bad-words-blocker")).
    reflexivity.
Defined.

(** [first_index] finds the first occurrence, if there is one. *)
Lemma first_index_Some (l : list string) (p : string) (i : nat) :
  first_index l p = Some i →
  l = take i l ++ p :: drop (S i) l ∧ p ∉ take i l.
Proof.
  revert i. induction l as [|x l IH]; intros i; simpl; [done|].
  destruct (String.eqb x p) eqn:Hx.
  - intros [= <-]. apply String.eqb_eq in Hx as ->. simpl.
    rewrite drop_0. split; [done|]. apply not_elem_of_nil.
  - apply String.eqb_neq in Hx.
    destruct (first_index l p) as [j|]; [|done]. intros [= <-]. simpl.
    destruct (IH j eq_refl) as [IH1 IH2]. split; [by rewrite <- IH1|].
    rewrite not_elem_of_cons. done.
Qed.

Lemma first_index_None (l : list string) (p : string) :
  first_index l p = None ↔ p ∉ l.
Proof.
  induction l as [|x l IH]; simpl; [split; [intros; apply not_elem_of_nil|done]|].
  rewrite not_elem_of_cons. destruct (String.eqb x p) eqn:Hx.
  - apply String.eqb_eq in Hx as ->. split; [done|]. by intros [? _].
  - apply String.eqb_neq in Hx. destruct (first_index l p) as [j|].
    + split; [done|]. intros [_ Hn]. by apply IH in Hn.
    + split; [|done]. intros _. split; [done|]. by apply IH.
Qed.

(** X10.  [DeletePlugin] removes the first occurrence of the key and
    keeps the order of the rest, later occurrences included; when the key
    does not occur it fails with "not found in chain" and the chain is as
    it was. *)
Theorem DeletePlugin_first_occurrence (pc : pluginsChain) (p : string) :
  (p ∉ pc_plugins pc →
   pluginsChain_DeletePlugin pc p = (pc, Some (ErrNotFoundInChain p)))
  ∧ (p ∈ pc_plugins pc →
     ∃ l1 l2, pc_plugins pc = (l1 ++ p :: l2) ∧ (p ∉ l1)
              ∧ pluginsChain_DeletePlugin pc p
                = (set_pc_plugins pc (l1 ++ l2), None)).
Proof.
  unfold pluginsChain_DeletePlugin. split.
  - intros Hp. apply first_index_None in Hp. by rewrite Hp.
  - intros Hp. destruct (first_index (pc_plugins pc) p) as [i|] eqn:Hi.
    + apply first_index_Some in Hi as [Hl Hn].
      exists (take i (pc_plugins pc)), (drop (S i) (pc_plugins pc)). done.
    + apply first_index_None in Hi. done.
Qed.

Lemma DeletePlugin_first_occurrence_witness :
  pluginsChain_DeletePlugin populated_chain "ModelSelector"
  = (populated_chain, Some (ErrNotFoundInChain "ModelSelector"))
  ∧ ∃ l1 l2, pc_plugins populated_chain = (l1 ++ "GuardRail" :: l2)
             ∧ ("GuardRail" ∉ l1)
             ∧ pluginsChain_DeletePlugin populated_chain "GuardRail"
               = (set_pc_plugins populated_chain (l1 ++ l2), None).
Proof.
  split.
  - apply (proj1 (DeletePlugin_first_occurrence populated_chain
                    "ModelSelector")).
    vm_compute. intros Hin. repeat (apply elem_of_cons in Hin as [?|Hin]);
      [done..|]. by apply elem_of_nil in Hin.
  - apply (proj2 (DeletePlugin_first_occurrence populated_chain "GuardRail")).
    vm_compute. apply list_elem_of_further, list_elem_of_here.
Defined.

(** X11.  Adding a key that the chain does not yet contain and deleting
    it again gives back the chain; the registry plays no part in the
    deletion, so the key can be added once more. *)
Theorem AddPlugin_DeletePlugin (pc : pluginsChain) (typeKey : string)
    (r : pluginRegistry) :
  pluginRegistry_ContainsPlugin r typeKey = true →
  typeKey ∉ pc_plugins pc →
  let pc1 := (pluginsChain_AddPlugin pc typeKey r).1 in
  pluginsChain_DeletePlugin pc1 typeKey = (pc, None)
  ∧ (pluginsChain_AddPlugin (pluginsChain_DeletePlugin pc1 typeKey).1
       typeKey r).2 = None.
Proof.
  intros Hr Hn. unfold pluginsChain_AddPlugin. rewrite Hr. simpl.
  assert (first_index (pc_plugins pc ++ [typeKey]) typeKey
          = Some (length (pc_plugins pc))) as Hi.
  { clear Hr. induction (pc_plugins pc) as [|x l IH]; simpl.
    - by rewrite String.eqb_refl.
    - apply not_elem_of_cons in Hn as [Hx Hl].
      assert (String.eqb x typeKey = false) as ->
        by (apply String.eqb_neq; congruence).
      by rewrite (IH Hl). }
  unfold pluginsChain_DeletePlugin. simpl. rewrite Hi. simpl.
  rewrite take_app_length, drop_ge by (rewrite length_app; simpl; lia).
  rewrite app_nil_r. by destruct pc.
Qed.

Lemma AddPlugin_DeletePlugin_witness :
  pluginsChain_DeletePlugin
    (pluginsChain_AddPlugin NewPluginsChain "GuardRail" populated_registry).1
    "GuardRail"
  = (NewPluginsChain, None).
Proof.
  apply (AddPlugin_DeletePlugin NewPluginsChain "GuardRail"
           populated_registry).
  - reflexivity.
  - vm_compute. intros Hin. by apply elem_of_nil in Hin.
Defined.

(** X12.  Inside [0, n), [AddPluginAtInd] checks the registry for the
    entry already at position [i], not for [typeKey].  If that entry is
    registered the call inserts [typeKey] at [i], shifting the rest by
    one, whether or not [typeKey] itself is registered: when it is not,
    the new entry does not resolve afterwards.  If the entry at [i] is
    not registered the call fails and inserts nothing, even for a
    registered [typeKey]. *)
Theorem AddPluginAtInd_checks_existing_entry (pc : pluginsChain)
    (typeKey : string) (i : nat) (k : string) (r : pluginRegistry) :
  pc_plugins pc !! i = Some k →
  (is_Some (plugins r !! k) →
   ∃ pc', pluginsChain_AddPluginAtInd pc typeKey (Z.of_nat i) r
          = Return (pc', None)
          ∧ pc_plugins pc' !! i = Some typeKey
          ∧ pc_plugins pc' !! S i = Some k
          ∧ take i (pc_plugins pc') = take i (pc_plugins pc)
          ∧ drop (S i) (pc_plugins pc') = drop i (pc_plugins pc)
          ∧ (plugins r !! typeKey = None →
             pluginsChain_GetPlugin pc' (Z.of_nat i) r
             = Fail (ErrIndexNotInRegistry (Z.of_nat i))))
  ∧ (plugins r !! k = None →
     pluginsChain_AddPluginAtInd pc typeKey (Z.of_nat i) r
     = Return (pc, Some (ErrIndexNotInRegistry (Z.of_nat i)))).
Proof.
  intros Hk. rewrite (AddPluginAtInd_inside _ _ _ _ _ Hk).
  pose proof (lookup_lt_Some _ _ _ Hk) as Hlt.
  assert (length (take i (pc_plugins pc)) = i) as Hlen
    by (rewrite length_take; lia).
  split.
  - intros [p Hp]. rewrite Hp. eexists. split; [reflexivity|]. simpl.
    assert ((take i (pc_plugins pc) ++ typeKey :: drop i (pc_plugins pc)) !! i
            = Some typeKey) as Hi.
    { rewrite lookup_app_r by lia. by rewrite Hlen, Nat.sub_diag. }
    repeat split.
    + done.
    + rewrite lookup_app_r by lia. rewrite Hlen.
      replace (S i - i)%nat with 1%nat by lia. simpl.
      by rewrite lookup_drop, Nat.add_0_r.
    + rewrite take_app_length'; done.
    + rewrite drop_app_ge by lia. rewrite Hlen.
      by replace (S i - i)%nat with 1%nat by lia.
    + intros Ht.
      rewrite (GetPlugin_lookup (set_pc_plugins pc _) i typeKey r Hi).
      by rewrite Ht.
  - by intros ->.
Qed.

Lemma AddPluginAtInd_checks_existing_entry_witness :
  ∃ pc', pluginsChain_AddPluginAtInd populated_chain "ModelSelector" 1
           populated_registry = Return (pc', None)
         ∧ pc_plugins pc' !! 1%nat = Some "ModelSelector"
         ∧ pluginsChain_GetPlugin pc' 1 populated_registry
           = Fail (ErrIndexNotInRegistry 1).
Proof.
  destruct (proj1 (AddPluginAtInd_checks_existing_entry populated_chain
                     "ModelSelector" 1 "GuardRail" populated_registry
                     eq_refl))
    as (pc' & H1 & H2 & _ & _ & _ & H6).
  - vm_compute. eauto.
  - exists pc'. split; [exact H1|]. split; [exact H2|]. apply H6. reflexivity.
Defined.

(** X13.  After [ParseCompletion], with or without an error,
    [GetSharedMemory("/v1/completions")] holds what the decoder left in
    the chain's completions field, and on success that is the value the
    call returned; the chat field and the list of type keys are untouched.
    [ParseChatCompletion] does the same for "/v1/chat/completions".  For
    every other key [GetSharedMemory] is nil. *)
Theorem Parse_then_GetSharedMemory `{JSONCodec} (pc : pluginsChain)
    (data : bytes) :
  (let pc' := (pluginsChain_ParseCompletion pc data).1 in
   pluginsChain_GetSharedMemory pc' "/v1/completions"
   = SharedCompletion
       (CompletionNewParams_UnmarshalJSON (sharedCompletion pc) data).1
   ∧ (∀ p, (pluginsChain_ParseCompletion pc data).2 = Val p →
           pluginsChain_GetSharedMemory pc' "/v1/completions"
           = SharedCompletion p)
   ∧ sharedChatCompletion pc' = sharedChatCompletion pc
   ∧ pc_plugins pc' = pc_plugins pc)
  ∧ (let pc' := (pluginsChain_ParseChatCompletion pc data).1 in
     pluginsChain_GetSharedMemory pc' "/v1/chat/completions"
     = SharedChatCompletion
         (ChatCompletionNewParams_UnmarshalJSON (sharedChatCompletion pc)
            data).1
     ∧ (∀ p, (pluginsChain_ParseChatCompletion pc data).2 = Val p →
             pluginsChain_GetSharedMemory pc' "/v1/chat/completions"
             = SharedChatCompletion p)
     ∧ sharedCompletion pc' = sharedCompletion pc
     ∧ pc_plugins pc' = pc_plugins pc)
  ∧ (∀ which, which ≠ "/v1/completions" → which ≠ "/v1/chat/completions" →
              pluginsChain_GetSharedMemory pc which = SharedNil).
Proof.
  unfold pluginsChain_ParseCompletion, pluginsChain_ParseChatCompletion.
  split; [|split].
  - destruct (CompletionNewParams_UnmarshalJSON _ _) as [p [e|]]; simpl;
      repeat split; try done. by intros p' [= ->].
  - destruct (ChatCompletionNewParams_UnmarshalJSON _ _) as [p [e|]]; simpl;
      repeat split; try done. by intros p' [= ->].
  - intros which H1 H2. unfold pluginsChain_GetSharedMemory.
    apply String.eqb_neq in H1, H2. by rewrite H1, H2.
Qed.

Lemma Parse_then_GetSharedMemory_witness :
  pluginsChain_GetSharedMemory
    (pluginsChain_ParseCompletion (H := foo_hi_codec) NewPluginsChain
       body_foo_hi).1 "/v1/completions"
  = SharedCompletion {| completion_Model := "foo" |}
  ∧ pluginsChain_GetSharedMemory NewPluginsChain "/v1/embeddings" = SharedNil.
Proof.
  split.
  - apply (proj1 (proj2 (proj1 (Parse_then_GetSharedMemory (H := foo_hi_codec)
                                  NewPluginsChain body_foo_hi)))).
    reflexivity.
  - apply (proj2 (proj2 (Parse_then_GetSharedMemory (H := foo_hi_codec)
                           NewPluginsChain body_foo_hi))); discriminate.
Defined.

(** ** The execution loop and the response *)

(** One iteration on a model selector that returns a body and no error. *)
Lemma execLoop_selector (r : pluginRegistry) (pc : pluginsChain)
    (keys : list string) (which : string) (body : bytes)
    (i : Z) (rest : list Z) (st : ChainState)
    (plugin : BBRPlugin) (Select : SelectFunc) (headers : gomap string)
    (mutated : bytes) :
  pluginsChain_GetPlugin pc i r = Val plugin →
  Type_ (plugin_TypedName plugin) = "ModelSelector" →
  as_ModelSelector plugin = Some Select →
  Select body (pluginsChain_GetSharedMemory pc which)
  = (headers, mutated, None) →
  length mutated ≠ 0%nat →
  execLoop r pc keys which body (i :: rest) st
  = execLoop r pc keys which body rest
      {| allHeaders := allHeaders st ∪ default ∅ headers;
         mutatedBodyBytes := mutated |}.
Proof.
  intros Hg Ht Ha Hs Hl. simpl. rewrite Hg, Ht, Ha, Hs. simpl.
  apply Nat.eqb_neq in Hl. rewrite Hl. by rewrite merge_into_union.
Qed.

(** X14.  The header accumulator only grows: whatever the chain, a header
    bound when the loop starts, or bound by some plugin on the way, keeps
    its value to the end.  Every plugin, extractor or selector, can only
    add header names that are still absent. *)
Theorem execLoop_headers_first_writer_wins (r : pluginRegistry)
    (pc : pluginsChain) (keys : list string) (which : string) (body : bytes)
    (idxs : list Z) (st st' : ChainState) (ev : list Event) :
  execLoop r pc keys which body idxs st = (ev, Return (Val st')) →
  ∀ k v, allHeaders st !! k = Some v → allHeaders st' !! k = Some v.
Proof.
  revert st ev. induction idxs as [|i rest IH]; intros st ev; simpl.
  { by intros [= _ ->]. }
  destruct (pluginsChain_GetPlugin pc i r) as [plugin|e]; [|done].
  destruct (String.eqb _ "MetadataExtractor").
  { destruct (as_MetadataExtractor plugin) as [Extract|]; [|apply IH].
    destruct (Extract _ _ _) as [headers [e|]]; [done|].
    intros Hrun k v Hk. eapply IH; [exact Hrun|]. simpl.
    rewrite merge_into_union. by apply lookup_union_Some_l. }
  destruct (String.eqb _ "ModelSelector").
  { destruct (as_ModelSelector plugin) as [Select|]; [|apply IH].
    destruct (Select _ _) as [[headers mutated] [e|]]; [done|].
    destruct (length mutated =? 0)%nat; [done|].
    intros Hrun k v Hk. eapply IH; [exact Hrun|]. simpl.
    rewrite merge_into_union. by apply lookup_union_Some_l. }
  destruct (execLoop r pc keys which body rest st) as [ev0 o] eqn:Hrest.
  intros [= _ ->]. by eapply IH.
Qed.

Lemma execLoop_headers_first_writer_wins_witness :
  allHeaders
    {| allHeaders := <[ "K" := "d" ]> {[ ModelHeader := "foo" ]};
       mutatedBodyBytes := bytes_of_string "y" |} !! ModelHeader
  = Some "foo".
Proof.
  apply (execLoop_headers_first_writer_wins selecting_registry
           (requestChain (selecting_server false)) ["model"] "" body_foo_hi
           [1]
           {| allHeaders := {[ ModelHeader := "foo" ]};
              mutatedBodyBytes := body_foo_hi |}
           {| allHeaders := <[ "K" := "d" ]> {[ ModelHeader := "foo" ]};
              mutatedBodyBytes := bytes_of_string "y" |} []);
    reflexivity.
Defined.

(** X15.  The body the loop ends with is the one it started with unless
    a model selector ran, and a body that changed is never empty: if no
    index resolves to a plugin that is dispatched to [Select], the body
    is unchanged. *)
Theorem execLoop_body_changes_only_by_selector (r : pluginRegistry)
    (pc : pluginsChain) (keys : list string) (which : string) (body : bytes)
    (idxs : list Z) (st st' : ChainState) (ev : list Event) :
  execLoop r pc keys which body idxs st = (ev, Return (Val st')) →
  (mutatedBodyBytes st' = mutatedBodyBytes st
   ∨ length (mutatedBodyBytes st') ≠ 0%nat)
  ∧ ((∀ i plugin, i ∈ idxs → pluginsChain_GetPlugin pc i r = Val plugin →
                  runs_as_selector plugin = false) →
     mutatedBodyBytes st' = mutatedBodyBytes st).
Proof.
  revert st ev. induction idxs as [|i rest IH]; intros st ev; simpl.
  { by intros [= _ ->]; split; [left|]. }
  destruct (pluginsChain_GetPlugin pc i r) as [plugin|e] eqn:Hg; [|done].
  assert (∀ st0 ev0,
            execLoop r pc keys which body rest st0 = (ev0, Return (Val st')) →
            mutatedBodyBytes st0 = mutatedBodyBytes st →
            (mutatedBodyBytes st' = mutatedBodyBytes st
             ∨ length (mutatedBodyBytes st') ≠ 0%nat)
            ∧ ((∀ j plugin0, j ∈ i :: rest →
                  pluginsChain_GetPlugin pc j r = Val plugin0 →
                  runs_as_selector plugin0 = false) →
               mutatedBodyBytes st' = mutatedBodyBytes st)) as Hsame.
  { intros st0 ev0 Hrun Heq. destruct (IH _ _ Hrun) as [H1 H2].
    rewrite Heq in H1, H2. split; [done|]. intros Hno. apply H2.
    intros j q Hj. apply Hno. by apply list_elem_of_further. }
  destruct (String.eqb _ "MetadataExtractor") eqn:HtE.
  { destruct (as_MetadataExtractor plugin) as [Extract|]; [|by eauto].
    destruct (Extract _ _ _) as [headers [e|]]; [done|]. by eauto. }
  destruct (String.eqb _ "ModelSelector") eqn:HtS.
  { destruct (as_ModelSelector plugin) as [Select|] eqn:Ha; [|by eauto].
    destruct (Select _ _) as [[headers mutated] [e|]]; [done|].
    destruct (length mutated =? 0)%nat eqn:Hl; [done|].
    apply Nat.eqb_neq in Hl. intros Hrun.
    destruct (IH _ _ Hrun) as [[H1|H1] _]; simpl in H1.
    - split; [right; by rewrite H1|]. intros Hno.
      specialize (Hno i plugin (list_elem_of_here _ _) Hg).
      unfold runs_as_selector in Hno. by rewrite HtS, Ha in Hno.
    - split; [by right|]. intros Hno.
      specialize (Hno i plugin (list_elem_of_here _ _) Hg).
      unfold runs_as_selector in Hno. by rewrite HtS, Ha in Hno. }
  destruct (execLoop r pc keys which body rest st) as [ev0 o] eqn:Hrest.
  intros [= _ ->]. by eapply Hsame.
Qed.

Lemma execLoop_body_changes_only_by_selector_witness :
  mutatedBodyBytes
    {| allHeaders := {[ ModelHeader := "foo" ]};
       mutatedBodyBytes := body_foo_hi |}
  = mutatedBodyBytes (initial_state body_foo_hi).
Proof.
  assert (execLoop selecting_registry (requestChain (selecting_server false))
            ["model"] "" body_foo_hi [0] (initial_state body_foo_hi)
          = ([], Return (Val {| allHeaders := {[ ModelHeader := "foo" ]};
                                mutatedBodyBytes := body_foo_hi |})))
    as Hrun by (vm_compute; reflexivity).
  apply (proj2 (execLoop_body_changes_only_by_selector _ _ _ _ _ _ _ _ _
                  Hrun)).
  intros i plugin Hi Hg. apply list_elem_of_singleton in Hi as ->.
  vm_compute in Hg. injection Hg as <-. reflexivity.
Defined.

(** ** The handler as a whole *)

(** When no index requires full parsing the first loop changes nothing
    and leaves [which] empty. *)
Lemma parseLoop_no_requirer `{JSONCodec} (s : Server) (body : bytes)
    (pc : pluginsChain) (idxs : list Z) :
  existsb (index_requires_full_parsing (registry s) pc) idxs = false →
  (parseLoop s body pc idxs).1.1 = pc
  ∧ (parseLoop s body pc idxs).2 = Val "".
Proof.
  induction idxs as [|i rest IH]; simpl; [done|].
  unfold index_requires_full_parsing at 1.
  destruct (pluginsChain_GetPlugin pc i (registry s)) as [plugin|e]; simpl.
  - destruct (RequiresFullParsing plugin); [done|]. apply IH.
  - intros Hr. specialize (IH Hr).
    by destruct (parseLoop s body pc rest) as [[pc' ev] res].
Qed.

(** When some index requires full parsing and the endpoint contains
    "/v1/completions", the first loop is one call of [ParseCompletion]. *)
Lemma parseLoop_requirer_completions `{JSONCodec} (s : Server) (body : bytes)
    (pc : pluginsChain) (idxs : list Z) :
  existsb (index_requires_full_parsing (registry s) pc) idxs = true →
  Contains (endpoint s) "/v1/completions" = true →
  (parseLoop s body pc idxs).1.1 = (pluginsChain_ParseCompletion pc body).1
  ∧ (parseLoop s body pc idxs).2
    = match (pluginsChain_ParseCompletion pc body).2 with
      | Val _ => Val "/v1/completions"
      | Fail e => Fail e
      end.
Proof.
  intros Hex Hc. induction idxs as [|i rest IH]; simpl in *; [done|].
  unfold index_requires_full_parsing in Hex at 1.
  destruct (pluginsChain_GetPlugin pc i (registry s)) as [plugin|e]; simpl in *.
  - destruct (RequiresFullParsing plugin); simpl in *; [|by apply IH].
    rewrite Hc.
    by destruct (pluginsChain_ParseCompletion pc body) as [pc' [v|e]].
  - specialize (IH Hex).
    by destruct (parseLoop s body pc rest) as [[pc' ev] res].
Qed.

Lemma parseLoop_no_counters `{JSONCodec} (s : Server) (body : bytes)
    (pc : pluginsChain) (idxs : list Z) :
  List.filter is_counter (parseLoop s body pc idxs).1.2 = [].
Proof.
  induction idxs as [|i rest IH]; simpl; [done|].
  destruct (pluginsChain_GetPlugin pc i (registry s)) as [plugin|e].
  - destruct (RequiresFullParsing plugin); [|done].
    destruct (Contains (endpoint s) "/v1/completions").
    { by destruct (pluginsChain_ParseCompletion pc body) as [pc' [v|e]]. }
    destruct (Contains (endpoint s) "/v1/chat/completions"); [|done].
    by destruct (pluginsChain_ParseChatCompletion pc body) as [pc' [v|e]].
  - by destruct (parseLoop s body pc rest) as [[pc' ev] res].
Qed.

Lemma execLoop_no_counters (r : pluginRegistry) (pc : pluginsChain)
    (keys : list string) (which : string) (body : bytes)
    (idxs : list Z) (st : ChainState) :
  List.filter is_counter (execLoop r pc keys which body idxs st).1 = [].
Proof.
  revert st. induction idxs as [|i rest IH]; intros st; simpl; [done|].
  destruct (pluginsChain_GetPlugin pc i r) as [plugin|e]; [|done].
  destruct (String.eqb _ "MetadataExtractor").
  { destruct (as_MetadataExtractor plugin) as [Extract|]; [|apply IH].
    destruct (Extract _ _ _) as [headers [e|]]; [done|apply IH]. }
  destruct (String.eqb _ "ModelSelector").
  { destruct (as_ModelSelector plugin) as [Select|]; [|apply IH].
    destruct (Select _ _) as [[headers mutated] [e|]]; [done|].
    destruct (length mutated =? 0)%nat; [done|apply IH]. }
  specialize (IH st).
  by destruct (execLoop r pc keys which body rest st) as [ev o].
Qed.

(** The body the loop ends with is the initial one or is not empty. *)
Lemma execLoop_body_or_nonempty (r : pluginRegistry) (pc : pluginsChain)
    (keys : list string) (which : string) (body : bytes)
    (idxs : list Z) (st st' : ChainState) (ev : list Event) :
  execLoop r pc keys which body idxs st = (ev, Return (Val st')) →
  mutatedBodyBytes st' = mutatedBodyBytes st
  ∨ length (mutatedBodyBytes st') ≠ 0%nat.
Proof.
  revert st ev. induction idxs as [|i rest IH]; intros st ev; simpl.
  { intros [= _ ->]. by left. }
  destruct (pluginsChain_GetPlugin pc i r) as [plugin|e]; [|done].
  destruct (String.eqb _ "MetadataExtractor").
  { destruct (as_MetadataExtractor plugin) as [Extract|]; [|apply IH].
    destruct (Extract _ _ _) as [headers [e|]]; [done|].
    intros Hrun. apply (IH _ _ Hrun). }
  destruct (String.eqb _ "ModelSelector").
  { destruct (as_ModelSelector plugin) as [Select|]; [|apply IH].
    destruct (Select _ _) as [[headers mutated] [e|]]; [done|].
    destruct (length mutated =? 0)%nat eqn:Hl; [done|].
    apply Nat.eqb_neq in Hl. intros Hrun.
    destruct (IH _ _ Hrun) as [H1|H1]; simpl in H1; [|by right].
    right. by rewrite H1. }
  destruct (execLoop r pc keys which body rest st) as [ev0 o] eqn:Hrest.
  intros [= _ ->]. by eapply IH.
Qed.

(** X16.  What a call of [HandleRequestBody] can return.  If it returns
    responses they have one of two forms.  Pass-through: no header
    mutation and no cache flag, one empty body response, or in streaming
    mode an empty headers response followed by the request body as the
    final chunk; the model-not-in-body counter is recorded once.
    Success: the header mutation sets exactly "X-Gateway-Model-Name", to a
    value that is not empty, with the clear-route-cache flag; the body
    is carried as a replacement (unary) or as the final chunk after the
    headers response (streaming), and it is the request body or a body
    that is not empty; the success counter is recorded once.  A call that
    returns an error or panics records no counter. *)
Theorem HandleRequestBody_returns `{JSONCodec} (s : Server) (body : bytes) :
  match returned (HandleRequestBody s body) with
  | Return (Val ret) =>
      (List.filter is_counter (events (HandleRequestBody s body))
       = [EvRecordModelNotInBodyCounter]
       ∧ ret = if streaming s
               then [ProcessingResponse_RequestHeaders None;
                     ProcessingResponse_RequestBody
                       (Some {| ClearRouteCache := false;
                                HeaderMutation := None;
                                BodyMutation_ :=
                                  Some (BodyMutation_StreamedResponse
                                          body true) |})]
               else [ProcessingResponse_RequestBody None])
      ∨ (∃ Model b,
            Model ≠ "" ∧ (b = body ∨ length b ≠ 0%nat)
            ∧ List.filter is_counter (events (HandleRequestBody s body))
              = [EvRecordSuccessCounter]
            ∧ ret = if streaming s
                    then [ProcessingResponse_RequestHeaders
                            (Some {| ClearRouteCache := true;
                                     HeaderMutation :=
                                       Some [{| Key := "X-Gateway-Model-Name";
                                                RawValue :=
                                                  bytes_of_string Model |}];
                                     BodyMutation_ := None |});
                          ProcessingResponse_RequestBody
                            (Some {| ClearRouteCache := false;
                                     HeaderMutation := None;
                                     BodyMutation_ :=
                                       Some (BodyMutation_StreamedResponse
                                               b true) |})]
                    else [ProcessingResponse_RequestBody
                            (Some {| ClearRouteCache := true;
                                     HeaderMutation :=
                                       Some [{| Key := "X-Gateway-Model-Name";
                                                RawValue :=
                                                  bytes_of_string Model |}];
                                     BodyMutation_ :=
                                       Some (BodyMutation_Body b) |})])
  | _ => List.filter is_counter (events (HandleRequestBody s body)) = []
  end.
Proof.
  unfold HandleRequestBody.
  pose proof (parseLoop_no_counters s body (requestChain s)
                (range (pluginsChain_Length (requestChain s)))) as Hp.
  destruct (parseLoop s body (requestChain s) _) as [[pc ev1] [which|e]];
    simpl in *; [|done].
  pose proof (execLoop_no_counters (registry s) pc (metaDataKeys s) which body
                (range (pluginsChain_Length pc)) (initial_state body)) as He.
  destruct (execLoop _ _ _ _ _ _ _) as [ev2 [[st|e]|p]] eqn:Hrun; simpl in *;
    try (by rewrite List.filter_app, Hp, He).
  pose proof (execLoop_body_or_nonempty _ _ _ _ _ _ _ _ _ Hrun) as Hb.
  simpl in Hb. unfold respond.
  destruct (String.eqb (default "" (allHeaders st !! ModelHeader)) "")
    eqn:Hm.
  - destruct (streaming s); simpl; left;
      by rewrite !List.filter_app, Hp, He.
  - apply String.eqb_neq in Hm.
    destruct (streaming s); simpl; right;
      exists (default "" (allHeaders st !! ModelHeader)),
        (mutatedBodyBytes st);
      by rewrite !List.filter_app, Hp, He.
Qed.

(** The second loop over indices whose plugins it does not dispatch: one
    log line each, the state unchanged. *)
Lemma execLoop_undispatched (r : pluginRegistry) (pc : pluginsChain)
    (keys : list string) (which : string) (body : bytes)
    (l : list string) (ns : list nat) (st : ChainState) :
  pc_plugins pc = l →
  (∀ k, k ∈ l → ∃ p, plugins r !! k = Some p ∧ is_dispatched p = false) →
  (∀ n, n ∈ ns → (n < length l)%nat) →
  execLoop r pc keys which body (Z.of_nat <$> ns) st
  = ((λ n, EvLog (LogUnknownPluginType
                    (registered_type r (default "" (l !! n))))) <$> ns,
     Return (Val st)).
Proof.
  intros Hl Hall. induction ns as [|n ns IH]; intros Hns; [done|].
  rewrite !fmap_cons. simpl.
  assert (n < length l)%nat as Hn by (apply Hns, list_elem_of_here).
  destruct (l !! n) as [k|] eqn:Hk; [|apply lookup_ge_None in Hk; lia].
  rewrite <- Hl in Hk. rewrite (GetPlugin_lookup _ _ _ _ Hk).
  destruct (Hall k) as (p & Hp & Hd).
  { rewrite <- Hl. apply list_elem_of_lookup. eauto. }
  rewrite Hp. unfold is_dispatched in Hd. apply orb_false_iff in Hd as [-> ->].
  rewrite IH by (intros m Hm; apply Hns; by apply list_elem_of_further).
  simpl. unfold registered_type. by rewrite Hp.
Qed.

Lemma fmap_seq_lookup {A} (f : string → A) (l : list string) :
  (λ n, f (default "" (l !! n))) <$> seq 0 (length l) = f <$> l.
Proof.
  apply list_eq. intros j. rewrite !list_lookup_fmap.
  destruct (l !! j) as [k|] eqn:Hk; simpl.
  - rewrite lookup_seq_lt by (by eapply lookup_lt_Some). simpl. by rewrite Hk.
  - rewrite lookup_seq_ge by (by apply lookup_ge_None). done.
Qed.

(** X17.  A plugin whose type is neither "MetadataExtractor" nor
    "ModelSelector" is never executed, "GuardRail" included although
    [SupportedInterfaces] lists it: on a chain of such plugins (none of
    them requiring full parsing) the handler logs "Unknown plugin type"
    once per entry, in chain order, leaves the chain untouched and
    answers with the pass-through response. *)
Theorem HandleRequestBody_undispatched_chain `{JSONCodec} (s : Server)
    (body : bytes) :
  (∀ k, k ∈ pc_plugins (requestChain s) →
        ∃ p, plugins (registry s) !! k = Some p
             ∧ is_dispatched p = false ∧ RequiresFullParsing p = false) →
  HandleRequestBody s body
  = {| chain_after := requestChain s;
       events :=
         ((λ k, EvLog (LogUnknownPluginType (registered_type (registry s) k)))
            <$> pc_plugins (requestChain s))
         ++ [EvRecordModelNotInBodyCounter; EvLog LogNoModelParameter];
       returned :=
         Return (Val (if streaming s
                      then addStreamedBodyResponse
                             [ProcessingResponse_RequestHeaders None] body
                      else [ProcessingResponse_RequestBody None])) |}.
Proof.
  intros Hall.
  assert (existsb (requires_full_parsing (registry s))
            (pc_plugins (requestChain s)) = false) as Hno.
  { apply not_true_is_false. intros Hex.
    apply existsb_exists in Hex as (k & Hk & Hr).
    apply list_elem_of_In in Hk. destruct (Hall k Hk) as (p & Hp & _ & Hf).
    unfold requires_full_parsing in Hr. rewrite Hp in Hr. congruence. }
  rewrite <- existsb_req_range in Hno.
  pose proof (parseLoop_no_requirer s body _ _ Hno) as [Hpc Hw].
  assert ((parseLoop s body (requestChain s)
             (range (pluginsChain_Length (requestChain s)))).1.2 = [])
    as Hev.
  { unfold range, pluginsChain_Length. rewrite Nat2Z.id.
    assert (∀ ns, (∀ n, n ∈ ns →
                        (n < length (pc_plugins (requestChain s)))%nat) →
                  (parseLoop s body (requestChain s) (Z.of_nat <$> ns)).1.2
                  = []) as Hgen.
    { induction ns as [|n ns IH]; intros Hns; [done|].
      rewrite fmap_cons. simpl.
      assert (n < length (pc_plugins (requestChain s)))%nat as Hn
        by (apply Hns, list_elem_of_here).
      destruct (pc_plugins (requestChain s) !! n) as [k|] eqn:Hk;
        [|apply lookup_ge_None in Hk; lia].
      rewrite (GetPlugin_lookup _ _ _ _ Hk).
      destruct (Hall k) as (p & Hp & _ & Hf);
        [apply list_elem_of_lookup; eauto|].
      rewrite Hp, Hf. apply IH. intros m Hm. apply Hns.
      by apply list_elem_of_further. }
    apply Hgen. intros n Hn. by apply list_elem_of_In, in_seq in Hn as [_ ?]. }
  unfold HandleRequestBody.
  destruct (parseLoop s body (requestChain s) _) as [[pc ev1] res].
  simpl in Hpc, Hw, Hev. subst pc res ev1.
  unfold range, pluginsChain_Length. rewrite Nat2Z.id.
  rewrite (execLoop_undispatched _ _ _ _ _ (pc_plugins (requestChain s)));
    [|done| |].
  - rewrite (fmap_seq_lookup
               (λ k, EvLog (LogUnknownPluginType
                              (registered_type (registry s) k)))).
    unfold respond. simpl.
    rewrite lookup_empty. simpl. by destruct (streaming s).
  - intros k Hk. destruct (Hall k Hk) as (p & Hp & Hd & _). eauto.
  - intros n Hn. by apply list_elem_of_In, in_seq in Hn as [_ ?].
Qed.

Lemma HandleRequestBody_undispatched_chain_witness :
  HandleRequestBody (H := foo_hi_codec) guard_rail_server body_foo_hi
  = {| chain_after := requestChain guard_rail_server;
       events := [EvLog (LogUnknownPluginType "GuardRail");
                  EvRecordModelNotInBodyCounter; EvLog LogNoModelParameter];
       returned := Return (Val [ProcessingResponse_RequestBody None]) |}.
Proof.
  apply (HandleRequestBody_undispatched_chain (H := foo_hi_codec)
           guard_rail_server body_foo_hi).
  intros k Hk. vm_compute in Hk. apply list_elem_of_singleton in Hk as ->.
  exists (guardRail "bad-words-blocker"). repeat split; reflexivity.
Defined.

Lemma length_zero_empty (m : string) : String.length m = 0%nat ↔ m = "".
Proof. by destruct m. Qed.

(** X18.  What [simpleModelExtractor.Extract] returns.  With a shared
    shape whose [Model] is not empty it returns that model without
    looking at the body; whenever it returns headers they are the single
    binding of the key "model" (so never of "X-Gateway-Model-Name") and
    the error is nil; and the metadata keys have no influence. *)
Theorem simpleModelExtractor_Extract_headers `{JSONCodec}
    (x : simpleModelExtractor) (body : bytes) (keys : list string)
    (sharedMemory : SharedMemory) :
  (∀ p, sharedMemory = SharedCompletion p → completion_Model p ≠ "" →
        ∀ body', simpleModelExtractor_Extract x body' keys sharedMemory
                 = (Some {[ "model" := completion_Model p ]}, None))
  ∧ (∀ p, sharedMemory = SharedChatCompletion p → chat_Model p ≠ "" →
          ∀ body', simpleModelExtractor_Extract x body' keys sharedMemory
                   = (Some {[ "model" := chat_Model p ]}, None))
  ∧ (∀ h e, simpleModelExtractor_Extract x body keys sharedMemory
            = (Some h, e) →
            e = None ∧ (∃ m, h = {[ "model" := m ]})
            ∧ h !! ModelHeader = None)
  ∧ (∀ keys', simpleModelExtractor_Extract x body keys' sharedMemory
              = simpleModelExtractor_Extract x body keys sharedMemory).
Proof.
  assert (∀ m : string, m ≠ "" → (0 <? String.length m)%nat = true) as Hpos.
  { intros m Hm. apply Nat.ltb_lt. destruct m; [done|simpl; lia]. }
  split; [|split; [|split]].
  - intros p -> Hp body'. unfold simpleModelExtractor_Extract.
    by rewrite (Hpos _ Hp).
  - intros p -> Hp body'. unfold simpleModelExtractor_Extract.
    by rewrite (Hpos _ Hp).
  - intros h e He. unfold simpleModelExtractor_Extract in He.
    assert (∀ m : string,
              (Some (<[ModelHeaderKey := m]> (∅ : gmap string string)),
               @None error) = (Some h, e) →
              e = None ∧ (∃ m, h = {[ "model" := m ]})
              ∧ h !! ModelHeader = None) as Hone.
    { intros m [= <- <-]. split; [done|]. split; [by exists m|done]. }
    destruct sharedMemory as [|p|p]; [done| |].
    + destruct (0 <? _)%nat; [by eapply Hone|].
      destruct (json_Unmarshal_RequestBody body); [by eapply Hone|done].
    + destruct (0 <? _)%nat; [by eapply Hone|].
      destruct (json_Unmarshal_RequestBody body); [by eapply Hone|done].
  - intros keys'. reflexivity.
Qed.

Lemma simpleModelExtractor_Extract_headers_witness :
  simpleModelExtractor_Extract (H := foo_hi_codec)
    {| typedName := {| Type_ := "MetadataExtractor";
                       Name := "simple-model-extractor" |};
       requiresFullParsing := false |}
    [] ["model"] (SharedCompletion {| completion_Model := "foo" |})
  = (Some {[ "model" := "foo" ]}, None).
Proof.
  apply (proj1 (simpleModelExtractor_Extract_headers (H := foo_hi_codec)
                  _ body_foo_hi ["model"]
                  (SharedCompletion {| completion_Model := "foo" |}))
           {| completion_Model := "foo" |}).
  - reflexivity.
  - discriminate.
Defined.

(** X19.  If no plugin of the chain requires full parsing and the first
    chain entry is a simple model extractor (of type
    "MetadataExtractor"), every request fails: whatever the body, the
    endpoint, the mode and the decoders, the handler returns the error
    "unsupported shared memory type" and leaves the chain untouched.
    The default set-up of [InitPlugins] is such a chain. *)
Theorem HandleRequestBody_simple_extractor_fails `{JSONCodec} (s : Server)
    (body : bytes) (x : simpleModelExtractor) (k : string)
    (rest : list string) :
  pc_plugins (requestChain s) = k :: rest →
  plugins (registry s) !! k = Some (simpleModelExtractor_plugin x) →
  Type_ (typedName x) = "MetadataExtractor" →
  existsb (requires_full_parsing (registry s)) (pc_plugins (requestChain s))
  = false →
  returned (HandleRequestBody s body)
  = Return (Fail ErrUnsupportedSharedMemoryType)
  ∧ chain_after (HandleRequestBody s body) = requestChain s.
Proof.
  intros Hl Hk Hty Hno. rewrite <- existsb_req_range in Hno.
  pose proof (parseLoop_no_requirer s body _ _ Hno) as [Hpc Hw].
  unfold HandleRequestBody.
  destruct (parseLoop s body (requestChain s) _) as [[pc ev1] res].
  simpl in Hpc, Hw. subst pc res.
  unfold range, pluginsChain_Length. rewrite Hl. simpl length.
  rewrite Nat2Z.id. simpl seq. rewrite fmap_cons.
  assert (pluginsChain_GetPlugin (requestChain s) (Z.of_nat 0) (registry s)
          = Val (simpleModelExtractor_plugin x)) as Hg.
  { rewrite (GetPlugin_lookup _ 0 k); [by rewrite Hk|by rewrite Hl]. }
  simpl execLoop. simpl Z.of_nat in Hg. rewrite Hg. simpl.
  unfold simpleModelExtractor_TypedName. rewrite Hty. simpl. done.
Qed.

Lemma HandleRequestBody_simple_extractor_fails_witness :
  returned (HandleRequestBody (H := foo_hi_codec)
              (completions_server (H := foo_hi_codec)) body_foo_hi)
  = Return (Fail ErrUnsupportedSharedMemoryType)
  ∧ chain_after (HandleRequestBody (H := foo_hi_codec)
                   (completions_server (H := foo_hi_codec)) body_foo_hi)
    = requestChain (completions_server (H := foo_hi_codec)).
Proof.
  apply (HandleRequestBody_simple_extractor_fails (H := foo_hi_codec)
           (completions_server (H := foo_hi_codec)) body_foo_hi
           {| typedName := {| Type_ := "MetadataExtractor";
                              Name := "simple-model-extractor" |};
              requiresFullParsing := false |}
           "MetadataExtractor" []); reflexivity.
Defined.

(** X20.  When some plugin of the chain requires full parsing and the
    endpoint path contains "/v1/completions", the handler calls
    [ParseCompletion] on the request body before any plugin runs: the
    chain afterwards is the chain after that call, and if the decoder
    reports an error the request fails with that error. *)
Theorem HandleRequestBody_full_parse_completions `{JSONCodec} (s : Server)
    (body : bytes) :
  existsb (requires_full_parsing (registry s)) (pc_plugins (requestChain s))
  = true →
  Contains (endpoint s) "/v1/completions" = true →
  chain_after (HandleRequestBody s body)
  = (pluginsChain_ParseCompletion (requestChain s) body).1
  ∧ (∀ e, (CompletionNewParams_UnmarshalJSON
             (sharedCompletion (requestChain s)) body).2 = Some e →
          returned (HandleRequestBody s body) = Return (Fail e)).
Proof.
  intros Hex Hc. rewrite <- existsb_req_range in Hex.
  pose proof (parseLoop_requirer_completions s body _ _ Hex Hc) as [Hpc Hres].
  unfold HandleRequestBody.
  destruct (parseLoop s body (requestChain s) _) as [[pc ev1] res].
  simpl in Hpc, Hres. subst pc res.
  unfold pluginsChain_ParseCompletion.
  destruct (CompletionNewParams_UnmarshalJSON _ _) as [p [e|]]; simpl.
  - split; [done|]. by intros e' [= ->].
  - split; [|done].
    destruct (execLoop _ _ _ _ _ _ _) as [ev2 [[st|e]|q]]; try done.
    by destruct (respond s body st).
Qed.

Lemma HandleRequestBody_full_parse_completions_witness :
  returned (HandleRequestBody (H := foo_hi_codec)
              (full_parsing_server (H := foo_hi_codec)) (bytes_of_string "{"))
  = Return (Fail (ErrExternal "invalid character")).
Proof.
  apply (proj2 (HandleRequestBody_full_parse_completions (H := foo_hi_codec)
                  (full_parsing_server (H := foo_hi_codec))
                  (bytes_of_string "{") eq_refl eq_refl)).
  reflexivity.
Defined.

(** ** InitPlugins *)

(** "MetadaExtractor", the spelling [processChain] compares with, is not
    a supported interface. *)
Lemma RegisterFactory_MetadaExtractor (r : pluginRegistry)
    (factory : PluginFactoryFunc) :
  pluginRegistry_RegisterFactory r "MetadaExtractor" factory
  = (r, Some (ErrNonSupportedInterface "MetadaExtractor")).
Proof. reflexivity. Qed.

(** The loop of [processChain] leaves the registry and the chain as they
    were, and fails only on a malformed line or on the misspelt type. *)
Lemma processLines_frame `{JSONCodec} `{StringsPkg} (envVar : string)
    (lines : list string) (r : pluginRegistry) (chain : pluginsChain) :
  (processLines envVar lines r chain).1 = (r, chain)
  ∧ match (processLines envVar lines r chain).2 with
    | None => True
    | Some err =>
        (∃ line, err = ErrMalformedDefinition envVar line)
        ∨ err = ErrRegisterFactoryFor "MetadaExtractor"
                  "simple-model-extractor"
                  (ErrNonSupportedInterface "MetadaExtractor")
    end.
Proof.
  induction lines as [|line0 rest IH]; simpl; [done|].
  destruct (_ || _); [done|].
  destruct (SplitN (TrimSpace line0) ":" 2) as [|k [|v [|w l]]];
    try (simpl; split; [done|]; left; eauto).
  destruct (String.eqb (TrimSpace k) "MetadaExtractor") eqn:Hk.
  - destruct (String.eqb (TrimSpace v) "simple-model-extractor") eqn:Hv;
      [|done].
    apply String.eqb_eq in Hk, Hv. rewrite Hk, Hv.
    rewrite RegisterFactory_MetadaExtractor. simpl. split; [done|by right].
  - by destruct (String.eqb (TrimSpace k) "ModelSelector").
Qed.

(** X21.  [processChain] never registers a factory or an instance and
    never adds to the chain, whatever the configuration text: the only
    branch that registers compares the type with "MetadaExtractor", which
    [RegisterFactory] rejects.  It returns nil, or the error of a
    malformed line, or the error of that rejected registration. *)
Theorem processChain_never_registers `{JSONCodec} `{StringsPkg}
    (Getenv : string → string) (envVar : string) (r : pluginRegistry)
    (chain : pluginsChain) :
  (processChain Getenv envVar r chain).1 = (r, chain)
  ∧ ((processChain Getenv envVar r chain).2 = None
     ∨ (∃ line, (processChain Getenv envVar r chain).2
                = Some (ErrMalformedDefinition envVar line))
     ∨ (processChain Getenv envVar r chain).2
       = Some (ErrRegisterFactoryFor "MetadaExtractor"
                 "simple-model-extractor"
                 (ErrNonSupportedInterface "MetadaExtractor"))).
Proof.
  unfold processChain. destruct (String.eqb (Getenv envVar) "").
  { split; [done|by left]. }
  destruct (processLines_frame envVar (Split (Getenv envVar) lf) r chain)
    as [H1 H2].
  split; [done|].
  destruct ((processLines envVar (Split (Getenv envVar) lf) r chain).2)
    as [err|]; [|by left].
  destruct H2 as [[line ->]| ->]; [right; left; eauto|by right; right].
Qed.

Lemma processChain_frame `{JSONCodec} `{StringsPkg}
    (Getenv : string → string) (envVar : string) (r : pluginRegistry)
    (chain : pluginsChain) :
  ∃ err, processChain Getenv envVar r chain = (r, chain, err).
Proof.
  unfold processChain. destruct (String.eqb (Getenv envVar) "").
  { by exists None. }
  destruct (processLines_frame envVar (Split (Getenv envVar) lf) r chain)
    as [H1 _].
  destruct (processLines envVar _ r chain) as [[r' c'] err].
  simpl in H1. injection H1 as -> ->. by exists err.
Qed.

(** The default branch of [InitPlugins] builds [default_registry] and
    [default_chain]. *)
Lemma default_setup `{JSONCodec} :
  pluginRegistry_RegisterFactory NewPluginRegistry DefaultPluginType
    (λ _, NewSimpleModelExtractor)
  = ({| pluginsFactory :=
          {[ DefaultPluginType := (λ _ : unit, NewSimpleModelExtractor) ]};
        plugins := ∅ |}, None)
  ∧ processPlugin
      {| pluginsFactory :=
           {[ DefaultPluginType := (λ _ : unit, NewSimpleModelExtractor) ]};
         plugins := ∅ |}
      DefaultPluginType DefaultPluginImplementation NewPluginsChain
    = (default_registry, default_chain, None).
Proof. split; reflexivity. Qed.

(** A successful [InitPlugins] returns the default set-up. *)
Lemma InitPlugins_ok_inv `{JSONCodec} `{StringsPkg}
    (Getenv : string → string) (r : pluginRegistry) (rc pc : pluginsChain)
    (keys : list string) :
  InitPlugins Getenv = InitOk r rc pc keys →
  r = default_registry ∧ rc = default_chain ∧ pc = NewPluginsChain
  ∧ keys = readMetaDataKeys Getenv.
Proof.
  unfold InitPlugins.
  destruct (processChain_frame Getenv "REQUEST_PLUGINS_CHAIN"
              NewPluginRegistry NewPluginsChain) as [[e1|] ->]; [done|].
  destruct (processChain_frame Getenv "RESPONSE_PLUGINS_CHAIN"
              NewPluginRegistry NewPluginsChain) as [[e2|] ->]; [done|].
  destruct default_setup as [-> Hp]. simpl. rewrite Hp.
  by intros [= <- <- <- <-].
Qed.

(** X22.  [InitPlugins] never honours a configured chain.  For every
    environment it either fails or returns the default set-up: the
    registry with the factory and the instance of the simple model
    extractor, the request chain ["MetadataExtractor"], an empty response
    chain, and the metadata keys (the trimmed, comma-separated
    METADATA_KEYS, or ["model"] when it is unset).  With both chain
    variables unset it cannot fail. *)
Theorem InitPlugins_default_or_error `{JSONCodec} `{StringsPkg}
    (Getenv : string → string) :
  ((∃ err, InitPlugins Getenv = InitFailed err)
   ∨ InitPlugins Getenv
     = InitOk default_registry default_chain NewPluginsChain
         (readMetaDataKeys Getenv))
  ∧ (Getenv "REQUEST_PLUGINS_CHAIN" = "" →
     Getenv "RESPONSE_PLUGINS_CHAIN" = "" →
     InitPlugins Getenv
     = InitOk default_registry default_chain NewPluginsChain
         (readMetaDataKeys Getenv))
  ∧ (Getenv "METADATA_KEYS" = "" → readMetaDataKeys Getenv = ["model"]).
Proof.
  split; [|split].
  - destruct (InitPlugins Getenv) as [r rc pc keys|err] eqn:Hi; [|by eauto].
    right. by apply InitPlugins_ok_inv in Hi as (-> & -> & -> & ->).
  - intros Hq Hs. unfold InitPlugins, processChain. rewrite Hq, Hs. simpl.
    destruct default_setup as [-> Hp]. simpl. by rewrite Hp.
  - intros Hk. unfold readMetaDataKeys. by rewrite Hk.
Qed.

Lemma InitPlugins_default_or_error_witness :
  InitPlugins (H := foo_hi_codec) (H0 := ascii_strings) (λ _, "")
  = InitOk (default_registry (H := foo_hi_codec))
      (default_chain (H := foo_hi_codec)) NewPluginsChain ["model"].
Proof.
  apply (proj1 (proj2 (InitPlugins_default_or_error (H := foo_hi_codec)
                         (H0 := ascii_strings) (λ _, ""))));
    reflexivity.
Defined.

(** X23.  Every server started from what [InitPlugins] returns fails
    every request: for all environments, endpoints, modes and bodies,
    [HandleRequestBody] on the returned registry, request chain and
    metadata keys returns the error "unsupported shared memory type". *)
Theorem InitPlugins_server_fails_every_request `{JSONCodec} `{StringsPkg}
    (Getenv : string → string) (r : pluginRegistry) (rc pc : pluginsChain)
    (keys : list string) (path : string) (stream : bool) (body : bytes) :
  InitPlugins Getenv = InitOk r rc pc keys →
  returned (HandleRequestBody
              {| registry := r; requestChain := rc; endpoint := path;
                 streaming := stream; metaDataKeys := keys |} body)
  = Return (Fail ErrUnsupportedSharedMemoryType).
Proof.
  intros Hi. apply InitPlugins_ok_inv in Hi as (-> & -> & -> & ->).
  reflexivity.
Qed.

Lemma InitPlugins_server_fails_every_request_witness :
  returned (HandleRequestBody (H := foo_hi_codec)
              {| registry := default_registry (H := foo_hi_codec);
                 requestChain := default_chain (H := foo_hi_codec);
                 endpoint := "/v1/chat/completions";
                 streaming := true;
                 metaDataKeys := ["model"; "user"] |} body_foo_hi)
  = Return (Fail ErrUnsupportedSharedMemoryType).
Proof.
  apply (InitPlugins_server_fails_every_request (H := foo_hi_codec)
           (H0 := ascii_strings) env_listed _ _ NewPluginsChain).
  vm_compute. reflexivity.
Defined.

(** ** The payload-processor plugins *)

Section ModelExtractorFacts.
Context {any : Type}.
Context (assert_string : any → option string).

(** X24.  [ModelExtractorPlugin.Execute].  Without a non-empty string
    under "model" in the body it returns the headers and the body it was
    given and a nil error.  With such a model [m] and a non-nil headers
    map it returns that map with "X-Gateway-Model-Name" set to [m]
    (replacing an earlier value), with "X-Gateway-Base-Model-Name" set to
    the datastore's answer when there is a datastore and the answer is
    not empty (and left as it came in otherwise), every other header
    kept, the body unchanged and a nil error.  With such a model and a
    nil headers map it panics. *)
Theorem ModelExtractorPlugin_Execute_result (p : ModelExtractorPlugin)
    (headers : gomap string) (body : gomap any) :
  (targetModel_of assert_string body = None
   ∨ targetModel_of assert_string body = Some "" →
   ModelExtractorPlugin_Execute assert_string p headers body
   = ExecReturn headers body None)
  ∧ (∀ m h, targetModel_of assert_string body = Some m → m ≠ "" →
            headers = Some h →
            ∃ h', ModelExtractorPlugin_Execute assert_string p headers body
                  = ExecReturn (Some h') body None
                  ∧ h' !! modelHeader = Some m
                  ∧ h' !! baseModelHeader
                    = match datastore p with
                      | Some GetBaseModel =>
                          if String.eqb (GetBaseModel m) ""
                          then h !! baseModelHeader
                          else Some (GetBaseModel m)
                      | None => h !! baseModelHeader
                      end
                  ∧ (∀ k, k ≠ modelHeader → k ≠ baseModelHeader →
                          h' !! k = h !! k))
  ∧ (∀ m, targetModel_of assert_string body = Some m → m ≠ "" →
          headers = None →
          ModelExtractorPlugin_Execute assert_string p headers body
          = ExecPanicNilMap).
Proof.
  unfold ModelExtractorPlugin_Execute. split; [|split].
  - by intros [-> | ->].
  - intros m h -> Hm ->. apply String.eqb_neq in Hm. rewrite Hm.
    assert (modelHeader ≠ baseModelHeader) as Hne by done.
    destruct (datastore p) as [g|].
    + destruct (String.eqb (g m) ""); simpl; eexists; (split; [done|]).
      * rewrite lookup_insert_eq, lookup_insert_ne by done. repeat split.
        intros k Hk _. by rewrite lookup_insert_ne.
      * rewrite lookup_insert_eq, lookup_insert_ne, lookup_insert_eq by done.
        repeat split. intros k H1 H2. by rewrite !lookup_insert_ne.
    + eexists. split; [done|].
      rewrite lookup_insert_eq, lookup_insert_ne by done. repeat split.
      intros k Hk _. by rewrite lookup_insert_ne.
  - intros m -> Hm ->. apply String.eqb_neq in Hm. by rewrite Hm.
Qed.
End ModelExtractorFacts.

Lemma ModelExtractorPlugin_Execute_result_witness :
  ∃ h', ModelExtractorPlugin_Execute jsonValue_string
          (ModelExtractorPlugin_WithDatastore
             (ModelExtractorPluginFactory "m2h" []) (λ _, "base"))
          (Some {[ "X-Gateway-Model-Name" := "old" ]})
          (Some {[ "model" := JString "foo" ]})
        = ExecReturn (Some h') (Some {[ "model" := JString "foo" ]}) None
        ∧ h' !! modelHeader = Some "foo".
Proof.
  destruct (proj1 (proj2 (ModelExtractorPlugin_Execute_result
                            jsonValue_string
                            (ModelExtractorPlugin_WithDatastore
                               (ModelExtractorPluginFactory "m2h" [])
                               (λ _, "base"))
                            (Some {[ "X-Gateway-Model-Name" := "old" ]})
                            (Some {[ "model" := JString "foo" ]})))
              "foo" {[ "X-Gateway-Model-Name" := "old" ]})
    as (h' & H1 & H2 & _).
  - reflexivity.
  - discriminate.
  - reflexivity.
  - exists h'. by split.
Defined.



Section BodyFieldToHeaderMore.
Context {any : Type}.
Context (assert_string : any → option string).
Context (Sprintf_v : any → string).

(** X26.  The headers [BodyFieldToHeaderPlugin.Execute] builds: a body
    field holding a string is copied as it is; a body that is nil, or
    has none of the mapped fields, gives an empty map that is not nil;
    a body that has every mapped field gives a header for every
    configured name; and there are never more headers than configured
    names. *)
Theorem BodyFieldToHeaderPlugin_Execute_coverage
    (p : BodyFieldToHeaderPlugin) (headers : gomap string)
    (body : gomap any) :
  ∃ updatedHeaders : gmap string string,
    (BodyFieldToHeaderPlugin_Execute assert_string Sprintf_v p headers body).1.1
    = Some updatedHeaders
    ∧ (∀ h f v s, gomap_lookup (headerToFieldMap p) h = Some f →
                  gomap_lookup body f = Some v → assert_string v = Some s →
                  updatedHeaders !! h = Some s)
    ∧ ((∀ h f, gomap_lookup (headerToFieldMap p) h = Some f →
               gomap_lookup body f = None) →
       updatedHeaders = ∅)
    ∧ ((∀ h f, gomap_lookup (headerToFieldMap p) h = Some f →
               is_Some (gomap_lookup body f)) →
       dom updatedHeaders = dom (default ∅ (headerToFieldMap p)))
    ∧ (size updatedHeaders ≤ gomap_len (headerToFieldMap p))%nat.
Proof.
  eexists. split; [reflexivity|].
  set (m := default ∅ (headerToFieldMap p)).
  assert (∀ h, gomap_lookup (headerToFieldMap p) h = m !! h) as Hm
    by (intros h; apply gomap_lookup_default).
  assert (∀ h, map_fold (Execute_entry assert_string Sprintf_v body)
                 (∅ : gmap string string) m !! h
               = match m !! h with
                 | Some f => headerValue assert_string Sprintf_v
                               <$> gomap_lookup body f
                 | None => None
                 end) as Hl.
  { intros h. rewrite Execute_fold_lookup, lookup_empty.
    destruct (m !! h) as [f|]; [|done]. by destruct (gomap_lookup body f). }
  repeat split.
  - intros h f v s Hf Hv Hs. rewrite Hl, <- Hm, Hf, Hv. simpl.
    unfold headerValue. by rewrite Hs.
  - intros Hnone. apply map_eq. intros h. rewrite Hl, lookup_empty.
    destruct (m !! h) as [f|] eqn:Hf; [|done].
    rewrite <- Hm in Hf. by rewrite (Hnone _ _ Hf).
  - intros Hall. apply set_eq. intros h. rewrite !elem_of_dom, Hl.
    destruct (m !! h) as [f|] eqn:Hf.
    + rewrite <- Hm in Hf. destruct (Hall _ _ Hf) as [v ->]. simpl.
      split; eauto.
    + split; intros [? ?]; done.
  - assert (gomap_len (headerToFieldMap p) = size m) as ->.
    { unfold m. destruct (headerToFieldMap p); [done|]. simpl.
      by rewrite map_size_empty. }
    rewrite <- !size_dom. apply subseteq_size. intros h.
    rewrite !elem_of_dom, Hl. destruct (m !! h); [eauto|].
    intros [? ?]; done.
Qed.
End BodyFieldToHeaderMore.

Lemma BodyFieldToHeaderPlugin_Execute_coverage_witness :
  ∃ updatedHeaders : gmap string string,
    (BodyFieldToHeaderPlugin_Execute jsonValue_string (λ _, "7")
       (NewBodyFieldToHeaderPlugin "" (Some {[ "X-Model-Name" := "model" ]}))
       None (Some {[ "model" := JString "foo" ]})).1.1
    = Some updatedHeaders
    ∧ updatedHeaders !! "X-Model-Name" = Some "foo".
Proof.
  destruct (BodyFieldToHeaderPlugin_Execute_coverage jsonValue_string
              (λ _, "7")
              (NewBodyFieldToHeaderPlugin ""
                 (Some {[ "X-Model-Name" := "model" ]}))
              None (Some {[ "model" := JString "foo" ]}))
    as (u & H1 & H2 & _).
  exists u. split; [exact H1|].
  apply (H2 "X-Model-Name" "model" (JString "foo") "foo"); reflexivity.
Defined.

(** ** The LoRA naming rule of request.go *)

Lemma HasPrefix_true (s p : bytes) :
  request_go.HasPrefix s p = true → s = p ++ drop (length p) s.
Proof.
  revert s. induction p as [|b p IH]; intros s; simpl; [done|].
  destruct s as [|c s]; [done|]. intros Hb.
  apply andb_true_iff in Hb as [Hbc Hp]. apply Byte.byte_dec_bl in Hbc as ->.
  simpl. f_equal. by apply IH.
Qed.

Lemma HasPrefix_nil (s : bytes) : request_go.HasPrefix s [] = true.
Proof. by destruct s. Qed.

Lemma HasPrefix_single (c : Byte.byte) (s : bytes) :
  request_go.HasPrefix s [c] = true ↔ ∃ t, s = c :: t.
Proof.
  destruct s as [|x s]; simpl.
  - split; [done|]. by intros [t ?].
  - rewrite HasPrefix_nil, andb_true_r. split.
    + intros Hb. apply Byte.byte_dec_bl in Hb as ->. eauto.
    + intros [t [= -> _]]. by apply Byte.byte_dec_lb.
Qed.

Lemma Index_range (s sep : bytes) :
  request_go.Index s sep = -1 ∨ 0 ≤ request_go.Index s sep.
Proof.
  induction s as [|c s IH]; cbn [request_go.Index].
  - destruct (request_go.HasPrefix [] sep); [by right|by left].
  - destruct (request_go.HasPrefix (c :: s) sep); [by right|].
    destruct (request_go.Index s sep <? 0) eqn:Hi; [by left|].
    apply Z.ltb_ge in Hi. right. lia.
Qed.

(** Where [Index] finds the separator, the separator is. *)
Lemma Index_split (s sep : bytes) (i : nat) :
  request_go.Index s sep = Z.of_nat i →
  s = take i s ++ sep ++ drop (i + length sep) s.
Proof.
  revert i. induction s as [|c s IH]; intros i; cbn [request_go.Index].
  - destruct (request_go.HasPrefix [] sep) eqn:Hp; [|lia].
    intros Hi. assert (i = 0%nat) as -> by lia.
    by apply HasPrefix_true in Hp.
  - destruct (request_go.HasPrefix (c :: s) sep) eqn:Hp.
    + intros Hi. assert (i = 0%nat) as -> by lia.
      by apply HasPrefix_true in Hp.
    + destruct (request_go.Index s sep <? 0) eqn:Hlt; [lia|].
      apply Z.ltb_ge in Hlt. intros Hi. destruct i as [|i]; [lia|].
      simpl. f_equal. apply IH. lia.
Qed.

(** No instance of a one-byte separator lies before the index [Index]
    returns. *)
Lemma Index_single_first (c : Byte.byte) (s : bytes) (i : nat) :
  request_go.Index s [c] = Z.of_nat i → c ∉ take i s.
Proof.
  revert i. induction s as [|x s IH]; intros i.
  - rewrite take_nil. intros _. apply not_elem_of_nil.
  - cbn [request_go.Index].
    destruct (request_go.HasPrefix (x :: s) [c]) eqn:Hp.
    + intros Hi. assert (i = 0%nat) as -> by lia. apply not_elem_of_nil.
    + destruct (request_go.Index s [c] <? 0) eqn:Hlt; [lia|].
      apply Z.ltb_ge in Hlt. intros Hi. destruct i as [|i]; [lia|].
      simpl. apply not_elem_of_cons. split.
      * intros ->. rewrite (proj2 (HasPrefix_single x (x :: s))) in Hp by eauto.
        done.
      * apply IH. lia.
Qed.

Lemma Index_single_none (c : Byte.byte) (s : bytes) :
  c ∉ s → request_go.Index s [c] = -1.
Proof.
  induction s as [|x s IH]; [done|]. intros Hn.
  apply not_elem_of_cons in Hn as [Hx Hs]. cbn [request_go.Index].
  destruct (request_go.HasPrefix (x :: s) [c]) eqn:Hp.
  - apply HasPrefix_single in Hp as [t [= -> _]]. done.
  - by rewrite (IH Hs).
Qed.

Lemma LastIndex_single_range (c : Byte.byte) (s : bytes) :
  (request_go.LastIndex s [c] = -1 ∧ c ∉ s)
  ∨ 0 ≤ request_go.LastIndex s [c].
Proof.
  induction s as [|x s IH]; [left; split; [done|apply not_elem_of_nil]|].
  cbn [request_go.LastIndex].
  destruct (0 <=? request_go.LastIndex s [c]) eqn:Hi.
  - apply Z.leb_le in Hi. right. lia.
  - apply Z.leb_gt in Hi. destruct IH as [[_ Hn]|?]; [|lia].
    destruct (request_go.HasPrefix (x :: s) [c]) eqn:Hp; [by right|].
    left. split; [done|]. apply not_elem_of_cons. split; [|done].
    intros ->. rewrite (proj2 (HasPrefix_single x (x :: s))) in Hp by eauto.
    done.
Qed.

(** The index [LastIndex] returns for a one-byte separator holds that
    byte, and none follows it. *)
Lemma LastIndex_single (c : Byte.byte) (s : bytes) (j : nat) :
  request_go.LastIndex s [c] = Z.of_nat j →
  s !! j = Some c ∧ c ∉ drop (S j) s.
Proof.
  revert j. induction s as [|x s IH]; intros j; [simpl; lia|].
  cbn [request_go.LastIndex].
  destruct (0 <=? request_go.LastIndex s [c]) eqn:Hi.
  - apply Z.leb_le in Hi. intros Hj. destruct j as [|j]; [lia|].
    simpl. apply IH. lia.
  - apply Z.leb_gt in Hi.
    destruct (LastIndex_single_range c s) as [[_ Hn]|?]; [|lia].
    destruct (request_go.HasPrefix (x :: s) [c]) eqn:Hp; [|lia].
    intros Hj. assert (j = 0%nat) as -> by lia.
    apply HasPrefix_single in Hp as [t [= -> _]]. simpl.
    by rewrite drop_0.
Qed.

Lemma LastIndex_single_none (c : Byte.byte) (s : bytes) :
  c ∉ s → request_go.LastIndex s [c] = -1.
Proof.
  intros Hn. destruct (LastIndex_single_range c s) as [[? _]|Hp]; [done|].
  exfalso.
  destruct (LastIndex_single c s (Z.to_nat (request_go.LastIndex s [c])))
    as [Hl _]; [lia|].
  apply Hn. apply list_elem_of_lookup. eauto.
Qed.

Lemma LastIndex_snoc (c : Byte.byte) (s : bytes) :
  request_go.LastIndex (s ++ [c]) [c] = Z.of_nat (length s).
Proof.
  induction s as [|x s IH].
  - simpl. by rewrite Byte.byte_dec_lb.
  - rewrite <- app_comm_cons. cbn [request_go.LastIndex]. rewrite IH.
    assert ((0 <=? Z.of_nat (length s)) = true) as -> by (apply Z.leb_le; lia).
    simpl length. lia.
Qed.

Lemma slash_single : request_go.slash = ["/"%byte].
Proof. reflexivity. Qed.

(** X27.  When the naming rule applies, the three pieces it cuts the
    model name into account for the whole name: the name is the prefix
    (sent as the model header), a slash, a stretch without slash, the
    tag, a stretch without slash, a slash, and the suffix (written into
    the body as the new model). *)
Theorem splitLora_decomposes (orig loraTag prefix suffix : bytes) :
  request_go.splitLora orig loraTag = Some (prefix, suffix) →
  ∃ mid rest,
    orig = prefix ++ request_go.slash ++ mid ++ loraTag ++ rest
                  ++ request_go.slash ++ suffix
    ∧ ("/"%byte ∉ mid) ∧ ("/"%byte ∉ rest).
Proof.
  unfold request_go.splitLora. rewrite slash_single.
  destruct (Index_range orig loraTag) as [->|Hidx]; [done|].
  set (i := Z.to_nat (request_go.Index orig loraTag)).
  assert (request_go.Index orig loraTag = Z.of_nat i) as Hi by lia.
  rewrite Hi.
  assert ((Z.of_nat i =? -1) = false) as -> by (apply Z.eqb_neq; lia).
  destruct (LastIndex_single_range "/"%byte (take i orig)) as [[-> _]|Hls];
    [done|].
  set (j := Z.to_nat (request_go.LastIndex (take i orig) ["/"%byte])).
  assert (request_go.LastIndex (take i orig) ["/"%byte] = Z.of_nat j) as Hj
    by lia.
  rewrite Hj.
  assert ((Z.of_nat j =? -1) = false) as -> by (apply Z.eqb_neq; lia).
  replace (Z.to_nat (Z.of_nat i + Z.of_nat (length loraTag)))
    with (i + length loraTag)%nat by lia.
  set (B := drop (i + length loraTag) orig).
  destruct (Index_range B ["/"%byte]) as [->|Hns]; [done|].
  set (k := Z.to_nat (request_go.Index B ["/"%byte])).
  assert (request_go.Index B ["/"%byte] = Z.of_nat k) as Hk by lia.
  rewrite Hk.
  assert ((Z.of_nat k =? -1) = false) as -> by (apply Z.eqb_neq; lia).
  replace (Z.to_nat (Z.of_nat k + 1)) with (S k) by lia.
  intros [= <- <-].
  destruct (LastIndex_single _ _ _ Hj) as [HA Hmid].
  pose proof (Index_split _ _ _ Hi) as Horig. fold B in Horig.
  pose proof (Index_split _ _ _ Hk) as HB.
  pose proof (Index_single_first _ _ _ Hk) as Hrest.
  pose proof (lookup_lt_Some _ _ _ HA) as Hlt. rewrite length_take in Hlt.
  exists (drop (S j) (take i orig)), (take k B). split; [|done].
  rewrite Horig at 1.
  rewrite <- (take_drop_middle (take i orig) j "/"%byte HA) at 1.
  rewrite take_take. replace (j `min` i)%nat with j by lia.
  rewrite HB at 1. simpl. replace (k + 1)%nat with (S k) by lia.
  by rewrite <- !app_assoc.
Qed.

Lemma splitLora_decomposes_witness :
  ∃ mid rest,
    bytes_of_string lora_model
    = bytes_of_string "family/name" ++ request_go.slash ++ mid
        ++ bytes_of_string "lora" ++ rest ++ request_go.slash
        ++ bytes_of_string "my-lora"
    ∧ ("/"%byte ∉ mid) ∧ ("/"%byte ∉ rest).
Proof.
  apply (splitLora_decomposes (bytes_of_string lora_model)
           (bytes_of_string "lora") (bytes_of_string "family/name")
           (bytes_of_string "my-lora")).
  vm_compute. reflexivity.
Defined.

(** X28.  Conversely, a name built by the convention, [base], a slash,
    the tag, a slash and [l], in which the tag does not occur earlier,
    is cut into the prefix [base] and the suffix [l]; [base] and [l] may
    themselves contain slashes. *)
Theorem splitLora_of_convention (base loraTag l : bytes) :
  request_go.Index
    (base ++ request_go.slash ++ loraTag ++ request_go.slash ++ l) loraTag
  = Z.of_nat (length base + 1) →
  request_go.splitLora
    (base ++ request_go.slash ++ loraTag ++ request_go.slash ++ l) loraTag
  = Some (base, l).
Proof.
  intros Hi. unfold request_go.splitLora. rewrite Hi, slash_single.
  assert ((Z.of_nat (length base + 1) =? -1) = false) as ->
    by (apply Z.eqb_neq; lia).
  rewrite Nat2Z.id.
  assert (take (length base + 1)
            (base ++ ["/"%byte] ++ loraTag ++ ["/"%byte] ++ l)
          = base ++ ["/"%byte]) as ->.
  { rewrite (app_assoc base). rewrite take_app_length'; [done|].
    rewrite length_app. simpl. lia. }
  rewrite LastIndex_snoc.
  assert ((Z.of_nat (length base) =? -1) = false) as ->
    by (apply Z.eqb_neq; lia).
  assert (drop (Z.to_nat (Z.of_nat (length base + 1)
                          + Z.of_nat (length loraTag)))
            (base ++ ["/"%byte] ++ loraTag ++ ["/"%byte] ++ l)
          = "/"%byte :: l) as ->.
  { rewrite (app_assoc base), (app_assoc _ loraTag).
    rewrite drop_app_length'; [done|]. rewrite !length_app. simpl. lia. }
  cbn [request_go.Index request_go.HasPrefix]. simpl.
  rewrite HasPrefix_nil. simpl. rewrite Nat2Z.id. f_equal. f_equal.
  by rewrite take_app_length.
Qed.

Lemma splitLora_of_convention_witness :
  request_go.splitLora
    (bytes_of_string "family/name" ++ request_go.slash
       ++ bytes_of_string "lora" ++ request_go.slash
       ++ bytes_of_string "my/lora") (bytes_of_string "lora")
  = Some (bytes_of_string "family/name", bytes_of_string "my/lora").
Proof.
  apply (splitLora_of_convention (bytes_of_string "family/name")
           (bytes_of_string "lora") (bytes_of_string "my/lora")).
  vm_compute. reflexivity.
Defined.

(** A name without a slash is never cut. *)
Lemma splitLora_no_slash (orig loraTag : bytes) :
  "/"%byte ∉ orig → request_go.splitLora orig loraTag = None.
Proof.
  intros Hn. unfold request_go.splitLora. rewrite slash_single.
  destruct (request_go.Index orig loraTag =? -1); [done|].
  rewrite LastIndex_single_none; [done|].
  intros Hin. apply Hn. by eapply subseteq_take.
Qed.



(** X30.  The handler of request.go on a model name without a slash:
    whatever the tag, the raw map and the encoders, the name is routed
    as it is and the request body is forwarded unchanged; nothing is
    re-encoded. *)
Theorem request_go_HandleRequestBody_plain_model `{JSONCodec}
    `{request_go.RawJSON} (Getenv : string → string) (s : Server)
    (body : bytes) (Model : string) (raw : gomap bytes) :
  json_Unmarshal_RequestBody body = Val Model →
  Model ≠ "" →
  request_go.json_Unmarshal_raw body = Val raw →
  "/"%byte ∉ bytes_of_string Model →
  request_go.HandleRequestBody Getenv s body
  = ([request_go.RecordSuccessCounter;
      request_go.LogOrig (bytes_of_string Model)],
     request_go.Responded
       (if streaming s
        then addStreamedBodyResponse
               [ProcessingResponse_RequestHeaders
                  (Some {| ClearRouteCache := true;
                           HeaderMutation :=
                             Some [{| Key := "X-Gateway-Model-Name";
                                      RawValue := bytes_of_string Model |}];
                           BodyMutation_ := None |})] body
        else [ProcessingResponse_RequestBody
                (Some {| ClearRouteCache := true;
                         HeaderMutation :=
                           Some [{| Key := "X-Gateway-Model-Name";
                                    RawValue := bytes_of_string Model |}];
                         BodyMutation_ := None |})])).
Proof.
  intros Hmodel Hne Hraw Hslash.
  unfold request_go.HandleRequestBody, request_go.rewriteModel.
  rewrite Hmodel, Hraw. apply String.eqb_neq in Hne. rewrite Hne.
  by rewrite (splitLora_no_slash _ _ Hslash).
Qed.

Lemma request_go_HandleRequestBody_plain_model_witness :
  request_go.HandleRequestBody (H := foo_hi_codec) (H0 := lora_raw)
    (λ _, "") (selecting_server false) body_foo_hi
  = ([request_go.RecordSuccessCounter;
      request_go.LogOrig (bytes_of_string "foo")],
     request_go.Responded
       [ProcessingResponse_RequestBody
          (Some {| ClearRouteCache := true;
                   HeaderMutation :=
                     Some [{| Key := "X-Gateway-Model-Name";
                              RawValue := bytes_of_string "foo" |}];
                   BodyMutation_ := None |})]).
Proof.
  apply (request_go_HandleRequestBody_plain_model (H := foo_hi_codec)
           (H0 := lora_raw) (λ _, "") (selecting_server false) body_foo_hi
           "foo" (Some {[ "model" := bytes_of_string lora_model ]})).
  - reflexivity.
  - discriminate.
  - reflexivity.
  - refine (bool_decide_unpack _ _). vm_compute. exact I.
Defined.
